(** * The search tutorial's retrieval-augmented generation pipeline

    A shallow embedding of [search-tutorial/python]: [utils.py], [auth.py],
    [config.py], [search_advanced.py] and the RAG route of [server.py],
    followed by the properties of the pipeline they implement.

    Conventions of the embedding.
    - A Python [str] is a Rocq [string] read as a sequence of characters,
      with [ascii] standing for the code points 0..255.
    - A Python [int] is a [Z].  A Python [float] is the rational it
      denotes or one of inf, -inf and nan ([float]); the rounding of float
      arithmetic is outside the model.
    - A decoded JSON document is a [json] value; a [dict] is an association
      list in insertion order with distinct keys.
    - A call that can raise returns a [Result]; code that reads the clock,
      talks to the network, prints or updates the token cache is a function
      of the [World], which is kept when an exception is raised. *)

From Stdlib Require Import ZArith QArith List String Ascii Bool Lia.
From Stdlib Require Import DecimalString Permutation Sorted.
Import ListNotations.

Local Open Scope list_scope.
Local Open Scope Z_scope.
Local Open Scope string_scope.

(* ================================================================== *)
(** * Python values and the builtins the sources use                  *)
(* ================================================================== *)

Module Py.

(** A Python [float]: the rational it denotes, or one of [inf], [-inf]
    and [nan], which the JSON decoder gives for Infinity, -Infinity and
    NaN, and for a numeral beyond the range of a double such as 1e999. *)
Inductive float : Type :=
| Finite (q : Q)
| Inf (negative : bool)
| NaN.

(** Values produced by [response.json()] / [request.get_json()]. *)
#[local] Set Warnings "-register-all".
Inductive json : Type :=
| JNull
| JBool (b : bool)
| JInt (z : Z)
| JFloat (x : float)
| JStr (s : string)
| JList (l : list json)
| JDict (d : list (string * json)).

Definition dict := list (string * json).

(** The body of an HTTP reply, and the reply itself
    ([requests.Response]): [decoded] is what [response.json()] gives,
    carried next to the raw [text] rather than parsed from it. *)
Inductive Decoded : Type :=
| Parsed (v : json)
| Undecodable (why : string).

Record Response : Type := mkResponse {
  status_code : Z;
  reason : string;
  final_url : string;
  text : string;
  decoded : Decoded
}.

(** Exceptions.  [RequestException] stands for the whole
    [requests.exceptions.RequestException] family (HTTPError,
    ConnectionError, Timeout, JSONDecodeError); [SystemExit] is the one
    class here that [except Exception] does not catch. *)
Inductive exn : Type :=
| RequestException (msg : string) (response : option Response)
| Exception (msg : string)
| KeyError (key : json)
| IndexError
| TypeError
| AttributeError
| ValueError
| OverflowError
| SystemExit (code : Z).

Inductive Result (A : Type) : Type :=
| Ok (a : A)
| Raise (e : exn).
Arguments Ok {A} a.
Arguments Raise {A} e.

Definition is_Exception (e : exn) : bool :=
  match e with SystemExit _ => false | _ => true end.

Definition is_RequestException (e : exn) : bool :=
  match e with RequestException _ _ => true | _ => false end.

(** What the interpreter and the libraries decide and the sources do not:
    the text of [str(v)] for a float, list or dict, the text of [str(e)]
    for a builtin exception, the order [sorted] gives to keys that are
    lists or that are numbers with a nan among them, and the digit limit
    of [int(str)] (0 for none, 4300 by default since Python 3.11). *)
Record Runtime : Type := mkRuntime {
  str_other : json -> string;
  builtin_text : exn -> string;
  sorted_other_keys : list (json * json) -> Result (list json);
  int_max_str_digits : nat
}.

Definition bind {A B} (r : Result A) (k : A -> Result B) : Result B :=
  match r with Ok a => k a | Raise e => Raise e end.

Fixpoint mapM {A B} (f : A -> Result B) (l : list A) : Result (list B) :=
  match l with
  | [] => Ok []
  | x :: l' => bind (f x) (fun y => bind (mapM f l') (fun ys => Ok (y :: ys)))
  end.

(** ** Numbers *)

(** [int(x)] on a float truncates toward zero. *)
Definition trunc (q : Q) : Z := Z.quot (Qnum q) (Zpos (Qden q)).

Definition Qltb (a b : Q) : bool := negb (Qle_bool b a).

(** [a < b] between floats: false as soon as one of them is nan. *)
Definition float_ltb (a b : float) : bool :=
  match a, b with
  | Finite x, Finite y => Qltb x y
  | Finite _, Inf negative => negb negative
  | Inf negative, Finite _ => negative
  | Inf negative, Inf negative' => negative && negb negative'
  | NaN, _ | _, NaN => false
  end.

(** The number a value is, a bool counting as 0 or 1. *)
Definition as_float (v : json) : option float :=
  match v with
  | JBool b => Some (Finite (inject_Z (if b then 1 else 0)))
  | JInt z => Some (Finite (inject_Z z))
  | JFloat x => Some x
  | _ => None
  end.

Definition is_number (v : json) : bool :=
  match as_float v with Some _ => true | None => false end.

(** The finite number a value is. *)
Definition as_number (v : json) : option Q :=
  match v with
  | JBool b => Some (inject_Z (if b then 1 else 0))
  | JInt z => Some (inject_Z z)
  | JFloat (Finite q) => Some q
  | _ => None
  end.

(** The number a value is, when [<] orders it: any but nan. *)
Definition as_ordered (v : json) : option float :=
  match as_float v with
  | Some NaN => None
  | other => other
  end.

(** [a + b] and [a - b] for an int [a]: inf and nan stay what they are. *)
Definition int_add (a : Z) (b : json) : Result json :=
  match b with
  | JBool c => Ok (JInt (a + (if c then 1 else 0)))
  | JInt z => Ok (JInt (a + z))
  | JFloat (Finite q) => Ok (JFloat (Finite (inject_Z a + q)))
  | JFloat x => Ok (JFloat x)
  | _ => Raise TypeError
  end.

(** [a - n] for an int [n]. *)
Definition sub_int (a : json) (n : Z) : Result json :=
  match a with
  | JBool c => Ok (JInt ((if c then 1 else 0) - n))
  | JInt z => Ok (JInt (z - n))
  | JFloat (Finite q) => Ok (JFloat (Finite (q - inject_Z n)))
  | JFloat x => Ok (JFloat x)
  | _ => Raise TypeError
  end.

(** [t > v] for a finite float [t]. *)
Definition float_gt (t : Q) (v : json) : Result bool :=
  match as_float v with
  | Some x => Ok (float_ltb x (Finite t))
  | None => Raise TypeError
  end.

(** ** Truth value, [dict] access, [len], slices *)

Definition truthy (v : json) : bool :=
  match v with
  | JNull => false
  | JBool b => b
  | JInt z => negb (z =? 0)%Z
  | JFloat (Finite q) => negb (Qeq_bool q 0)
  | JFloat _ => true
  | JStr s => negb (s =? "")%string
  | JList l => match l with [] => false | _ => true end
  | JDict d => match d with [] => false | _ => true end
  end.

Fixpoint lookup (k : string) (d : dict) : option json :=
  match d with
  | [] => None
  | (k', v) :: d' => if (k =? k')%string then Some v else lookup k d'
  end.

(** [d[k] = v]: an existing key keeps its place. *)
Fixpoint store (k : string) (v : json) (d : dict) : dict :=
  match d with
  | [] => [(k, v)]
  | (k', v') :: d' =>
      if (k =? k')%string then (k, v) :: d' else (k', v') :: store k v d'
  end.

(** [o.get(k, default)]: only a dict has [get]. *)
Definition get (o : json) (k : string) (default : json) : Result json :=
  match o with
  | JDict d => Ok (match lookup k d with Some v => v | None => default end)
  | _ => Raise AttributeError
  end.

(** [o[k]] for a string key [k]. *)
Definition item (o : json) (k : string) : Result json :=
  match o with
  | JDict d =>
      match lookup k d with Some v => Ok v | None => Raise (KeyError (JStr k)) end
  | _ => Raise TypeError
  end.

(** [o[k] = v] for a string key [k]; the result is the updated dict. *)
Definition setitem (o : json) (k : string) (v : json) : Result dict :=
  match o with
  | JDict d => Ok (store k v d)
  | _ => Raise TypeError
  end.

(** [o[0]]. *)
Definition item0 (o : json) : Result json :=
  match o with
  | JList l => match l with x :: _ => Ok x | [] => Raise IndexError end
  | JStr s =>
      match s with
      | String c _ => Ok (JStr (String c ""))
      | EmptyString => Raise IndexError
      end
  | JDict _ => Raise (KeyError (JInt 0))
  | _ => Raise TypeError
  end.

Definition len (o : json) : Result Z :=
  match o with
  | JStr s => Ok (Z.of_nat (String.length s))
  | JList l => Ok (Z.of_nat (List.length l))
  | JDict d => Ok (Z.of_nat (List.length d))
  | _ => Raise TypeError
  end.

(** The number of items [x[:n]] keeps of a sequence of [size] items:
    a negative [n] counts from the end. *)
Definition slice_count (n : Z) (size : nat) : nat :=
  if (0 <=? n)%Z then Nat.min (Z.to_nat n) size
  else (size - Z.to_nat (- n))%nat.

Definition list_slice {A} (n : Z) (l : list A) : list A :=
  firstn (slice_count n (List.length l)) l.

Definition str_slice (n : Z) (s : string) : string :=
  substring 0 (slice_count n (String.length s)) s.

(** [o[:n]]; slicing a dict is a TypeError (a KeyError from Python 3.12
    on, where slices are hashable). *)
Definition slice (o : json) (n : Z) : Result json :=
  match o with
  | JStr s => Ok (JStr (str_slice n s))
  | JList l => Ok (JList (list_slice n l))
  | _ => Raise TypeError
  end.

(** The items a [for] loop draws from a value. *)
Definition iter (o : json) : Result (list json) :=
  match o with
  | JList l => Ok l
  | JStr s => Ok (map (fun c => JStr (String c "")) (list_ascii_of_string s))
  | JDict d => Ok (map (fun kv => JStr (fst kv)) d)
  | _ => Raise TypeError
  end.

(** ** Text *)

Definition str_of_Z (z : Z) : string := NilZero.string_of_int (Z.to_int z).

(** [s.lower()] on the code points 0..255: the letters A-Z and the
    capital letters of Latin-1 (all of 192..222 but the sign 215). *)
Definition lower_char (c : ascii) : ascii :=
  let n := nat_of_ascii c in
  if (((65 <=? n) && (n <=? 90))
      || ((192 <=? n) && (n <=? 222) && negb (n =? 215)))%nat
  then ascii_of_nat (n + 32) else c.

Fixpoint lower (s : string) : string :=
  match s with
  | EmptyString => EmptyString
  | String c s' => String (lower_char c) (lower s')
  end.

(** [s.split(sep)] for a one-character separator. *)
Fixpoint split (sep : ascii) (s : string) : list string :=
  match s with
  | EmptyString => [EmptyString]
  | String c s' =>
      if Ascii.eqb c sep then EmptyString :: split sep s'
      else
        match split sep s' with
        | h :: t => String c h :: t
        | [] => [String c EmptyString]
        end
  end.

(** A list comprehension with a condition that can raise. *)
Fixpoint filterM {A} (keep : A -> Result bool) (l : list A) : Result (list A) :=
  match l with
  | [] => Ok []
  | x :: l' =>
      bind (keep x) (fun b =>
      bind (filterM keep l') (fun r => Ok (if (b : bool) then x :: r else r)))
  end.

Section Text.
Context (rt : Runtime).

(** [str(v)], which is what an f-string field [{v}] inserts. *)
Definition str (v : json) : string :=
  match v with
  | JNull => "None"
  | JBool true => "True"
  | JBool false => "False"
  | JInt z => str_of_Z z
  | JStr s => s
  | _ => str_other rt v
  end.

(** [str(e)]. *)
Definition exn_str (e : exn) : string :=
  match e with
  | RequestException msg _ => msg
  | Exception msg => msg
  | SystemExit code => str_of_Z code
  | _ => builtin_text rt e
  end.

(** ** [int(value)] *)

Definition is_space (c : ascii) : bool :=
  let n := nat_of_ascii c in
  (((9 <=? n) && (n <=? 13)) || (n =? 32) || (n =? 133) || (n =? 160))%nat.

Definition digit_of (c : ascii) : option Z :=
  let n := nat_of_ascii c in
  if ((48 <=? n) && (n <=? 57))%nat then Some (Z.of_nat (n - 48)) else None.

Fixpoint lstrip (l : list ascii) : list ascii :=
  match l with
  | c :: l' => if is_space c then lstrip l' else l
  | [] => []
  end.

Definition strip (l : list ascii) : list ascii := rev (lstrip (rev (lstrip l))).

(** Digits with single underscores between them; [acc] is the value and
    [count] the number of digits read so far, [after_digit] says that the
    previous character was a digit. *)
Fixpoint digits (l : list ascii) (acc : Z) (count : nat) (after_digit : bool)
  : option (Z * nat) :=
  match l with
  | [] => if after_digit then Some (acc, count) else None
  | c :: l' =>
      match digit_of c with
      | Some d => digits l' (10 * acc + d) (S count) true
      | None =>
          if (nat_of_ascii c =? 95)%nat && after_digit
          then digits l' acc count false
          else None
      end
  end.

Definition within_digit_limit (count : nat) : bool :=
  ((int_max_str_digits rt =? 0) || (count <=? int_max_str_digits rt))%nat.

Definition parse_int (s : string) : option Z :=
  let body := strip (list_ascii_of_string s) in
  let '(negative, rest) :=
    match body with
    | c :: l' =>
        if (nat_of_ascii c =? 45)%nat then (true, l')
        else if (nat_of_ascii c =? 43)%nat then (false, l')
        else (false, body)
    | [] => (false, body)
    end in
  match digits rest 0 0%nat false with
  | Some (n, count) =>
      if within_digit_limit count
      then Some (if negative then - n else n) else None
  | None => None
  end.

Definition int (v : json) : Result Z :=
  match v with
  | JBool b => Ok (if b then 1 else 0)
  | JInt z => Ok z
  | JFloat (Finite q) => Ok (trunc q)
  | JFloat (Inf _) => Raise OverflowError
  | JFloat NaN => Raise ValueError
  | JStr s =>
      match parse_int s with Some z => Ok z | None => Raise ValueError end
  | JNull | JList _ | JDict _ => Raise TypeError
  end.

End Text.

End Py.

Import Py.

(* ================================================================== *)
(** * utils.py                                                        *)
(* ================================================================== *)

Module Utils.

Section WithRuntime.
Context (rt : Runtime).

(** [normalize_limit(value, fallback=10, minimum=1, maximum=100)]. *)
Definition normalize_limit (value : json) (fallback minimum maximum : Z)
  : Result Z :=
  match Py.int rt value with
  | Ok parsed => Ok (Z.max minimum (Z.min parsed maximum))
  | Raise TypeError | Raise ValueError => Ok fallback
  | Raise e => Raise e
  end.

End WithRuntime.

End Utils.

(* ================================================================== *)
(** * The world: clock, network, output, token cache                  *)
(* ================================================================== *)

Module Sys.

Inductive Payload : Type :=
| Form (fields : list (string * string))
| Json (body : json).

(** One [requests.post(url, headers=, data=|json=, auth=, timeout=)]. *)
Record Request : Type := mkRequest {
  url : string;
  headers : list (string * string);
  payload : Payload;
  auth : option (string * string);
  timeout : Z
}.

(** What a request meets: a reply, or a failure to get one (connection
    error, timeout, a payload that cannot be put into JSON), which
    [requests] raises as a RequestException. *)
Inductive Outcome : Type :=
| Replied (r : Response)
| Failed (msg : string) (response : option Response).

(** The surroundings of a run: what the n-th reading of [time.time()]
    gives and how the n-th request sent is answered. *)
Record Env : Type := mkEnv {
  clock : nat -> Q;
  server : nat -> Request -> Outcome
}.

(** [access_token_info] is the cache of the one [TokenManager] that the
    search client and the RAG helper share. *)
Record World : Type := mkWorld {
  access_token_info : dict;
  ticks : nat;
  sent : list Request;
  stdout : list string;
  stderr : list string
}.

Definition M (A : Type) : Type := World -> Result A * World.

Definition ret {A} (a : A) : M A := fun w => (Ok a, w).

Definition raise {A} (e : exn) : M A := fun w => (Raise e, w).

Definition lift {A} (r : Result A) : M A := fun w => (r, w).

Definition bindM {A B} (m : M A) (k : A -> M B) : M B :=
  fun w =>
    match m w with
    | (Ok a, w') => k a w'
    | (Raise e, w') => (Raise e, w')
    end.

(** [try: m except <class> as e: handler]. *)
Definition try_except {A} (m : M A) (caught : exn -> bool) (handler : exn -> M A)
  : M A :=
  fun w =>
    match m w with
    | (Ok a, w') => (Ok a, w')
    | (Raise e, w') => if caught e then handler e w' else (Raise e, w')
    end.

Declare Scope world_scope.
Delimit Scope world_scope with world.
Notation "x <- m ;; k" := (bindM m (fun x => k))
  (at level 61, m at next level, right associativity) : world_scope.
Notation "m ;; k" := (bindM m (fun _ => k))
  (at level 61, right associativity) : world_scope.

Definition read_cache : M dict := fun w => (Ok (access_token_info w), w).

Definition write_cache (d : dict) : M unit :=
  fun w => (Ok tt, mkWorld d (ticks w) (sent w) (stdout w) (stderr w)).

Definition print (line : string) : M unit :=
  fun w =>
    (Ok tt, mkWorld (access_token_info w) (ticks w) (sent w)
                    (stdout w ++ [line])%list (stderr w)).

Definition print_err (line : string) : M unit :=
  fun w =>
    (Ok tt, mkWorld (access_token_info w) (ticks w) (sent w)
                    (stdout w) (stderr w ++ [line])%list).

(** The world after one more reading of the clock, and after one more
    request. *)
Definition tick (w : World) : World :=
  mkWorld (access_token_info w) (S (ticks w)) (sent w) (stdout w) (stderr w).

Definition record (req : Request) (w : World) : World :=
  mkWorld (access_token_info w) (ticks w) (sent w ++ [req])%list
          (stdout w) (stderr w).

Section WithEnv.
Context (env : Env).

(** [time.time()]. *)
Definition time_time : M Q :=
  fun w => (Ok (clock env (ticks w)), tick w).

(** [requests.post(...)]. *)
Definition requests_post (req : Request) : M Response :=
  fun w =>
    match server env (List.length (sent w)) req with
    | Replied r => (Ok r, record req w)
    | Failed msg response => (Raise (RequestException msg response), record req w)
    end.

End WithEnv.

(** [response.raise_for_status()]: HTTPError on a 4xx or 5xx status. *)
Definition raise_for_status (r : Response) : Result unit :=
  if (400 <=? status_code r)%Z && (status_code r <? 500)%Z then
    Raise (RequestException
             (str_of_Z (status_code r) ++ " Client Error: " ++ reason r
                ++ " for url: " ++ final_url r) (Some r))
  else if (500 <=? status_code r)%Z && (status_code r <? 600)%Z then
    Raise (RequestException
             (str_of_Z (status_code r) ++ " Server Error: " ++ reason r
                ++ " for url: " ++ final_url r) (Some r))
  else Ok tt.

(** [response.json()]: an undecodable body raises
    [requests.exceptions.JSONDecodeError], a RequestException (since
    requests 2.27) that carries no response. *)
Definition response_json (r : Response) : Result json :=
  match decoded r with
  | Parsed v => Ok v
  | Undecodable why => Raise (RequestException why None)
  end.

End Sys.

Import Sys.
Local Open Scope world_scope.

(* ================================================================== *)
(** * config.py                                                       *)
(* ================================================================== *)

Module Config.

Definition TOKEN_URL : string := "https://platform.ai.gloo.com/oauth2/token".
Definition SEARCH_URL : string := "https://platform.ai.gloo.com/ai/data/v1/search".
Definition COMPLETIONS_URL : string :=
  "https://platform.ai.gloo.com/ai/v2/chat/completions".

(** The values read from the process environment. *)
Record Settings : Type := mkSettings {
  CLIENT_ID : string;
  CLIENT_SECRET : string;
  TENANT : string;
  PORT : Z;
  RAG_MAX_TOKENS : Z;
  RAG_CONTEXT_MAX_SNIPPETS : Z;
  RAG_CONTEXT_MAX_CHARS_PER_SNIPPET : Z
}.

Section WithRuntime.
Context (rt : Runtime).

(** [_parse_env_int(value, fallback)], [value] being [os.getenv(...)]. *)
Definition _parse_env_int (value : option string) (fallback : Z) : Result Z :=
  match Py.int rt (match value with Some s => JStr s | None => JNull end) with
  | Ok n => Ok n
  | Raise TypeError | Raise ValueError => Ok fallback
  | Raise e => Raise e
  end.

Definition getenv_or (getenv : string -> option string) (name default : string)
  : string :=
  match getenv name with Some s => s | None => default end.

(** The module body: the settings for a given environment. *)
Definition load (getenv : string -> option string) : Result Settings :=
  bind (_parse_env_int (getenv "PORT") 3000) (fun port =>
  bind (_parse_env_int (getenv "RAG_MAX_TOKENS") 3000) (fun max_tokens =>
  bind (_parse_env_int (getenv "RAG_CONTEXT_MAX_SNIPPETS") 5) (fun max_snippets =>
  bind (_parse_env_int (getenv "RAG_CONTEXT_MAX_CHARS_PER_SNIPPET") 350)
       (fun max_chars =>
  Ok (mkSettings (getenv_or getenv "GLOO_CLIENT_ID" "YOUR_CLIENT_ID")
                 (getenv_or getenv "GLOO_CLIENT_SECRET" "YOUR_CLIENT_SECRET")
                 (getenv_or getenv "GLOO_TENANT" "your-tenant-name")
                 port max_tokens max_snippets max_chars))))).

End WithRuntime.

End Config.

(* ================================================================== *)
(** * auth.py                                                         *)
(* ================================================================== *)

Module Auth.

(** The constructor arguments of [TokenManager]; its fourth field,
    [access_token_info], is the mutable cache held in the [World]. *)
Record TokenManager : Type := mkTokenManager {
  client_id : string;
  client_secret : string;
  token_url : string
}.

(** [value in (placeholder, "", None)]. *)
Definition not_set (placeholder : string) (value : option string) : bool :=
  match value with
  | None => true
  | Some s => (s =? placeholder)%string || (s =? "")%string
  end.

(** [validate_credentials(client_id, client_secret)]. *)
Definition validate_credentials (client_id client_secret : option string)
  : M unit :=
  if not_set "YOUR_CLIENT_ID" client_id
     || not_set "YOUR_CLIENT_SECRET" client_secret
  then
    print "Error: GLOO_CLIENT_ID and GLOO_CLIENT_SECRET must be set" ;;
    print "Create a .env file with your credentials:" ;;
    print "GLOO_CLIENT_ID=your_client_id_here" ;;
    print "GLOO_CLIENT_SECRET=your_client_secret_here" ;;
    print "GLOO_TENANT=your_tenant_name_here" ;;
    raise (SystemExit 1)
  else ret tt.

(** [TokenManager.__init__] starts from the empty cache. *)
Definition initial_world : World := mkWorld [] 0 [] [] [].

Definition grant_request (tm : TokenManager) : Request :=
  mkRequest (token_url tm)
            [("Content-Type", "application/x-www-form-urlencoded")]
            (Form [("grant_type", "client_credentials"); ("scope", "api/access")])
            (Some (client_id tm, client_secret tm))
            30.

Section WithEnv.
Context (rt : Runtime) (env : Env) (tm : TokenManager).

Definition get_access_token : M json :=
  try_except
    (response <- requests_post env (grant_request tm) ;;
     lift (raise_for_status response) ;;
     token_data <- lift (response_json response) ;;
     now <- time_time env ;;
     expires_in <- lift (item token_data "expires_in") ;;
     expires_at <- lift (int_add (trunc now) expires_in) ;;
     token_data <- lift (setitem token_data "expires_at" expires_at) ;;
     write_cache token_data ;;
     ret (JDict token_data))
    is_RequestException
    (fun e => raise (Exception ("Failed to obtain access token: " ++ exn_str rt e))).

Definition is_token_expired : M bool :=
  info <- read_cache ;;
  if negb (truthy (JDict info))
     || match lookup "expires_at" info with Some _ => false | None => true end
  then ret true
  else
    now <- time_time env ;;
    expires_at <- lift (item (JDict info) "expires_at") ;;
    bound <- lift (sub_int expires_at 60) ;;
    lift (float_gt now bound).

Definition ensure_valid_token : M json :=
  expired <- is_token_expired ;;
  (if expired then get_access_token ;; ret tt else ret tt) ;;
  info <- read_cache ;;
  lift (item (JDict info) "access_token").

End WithEnv.

End Auth.

(* ================================================================== *)
(** * search_advanced.py                                              *)
(* ================================================================== *)

Module SearchAdvanced.

(** ** [sorted(items, key=..., reverse=True)] *)

Section StableSort.
Context {K A : Type} (ltb : K -> K -> bool).

(** A stable sort into descending key order: an item is put in front of
    the first one whose key is not greater than its own, so that items
    with equal keys keep the order they came in. *)
Fixpoint insert_desc (x : K * A) (s : list (K * A)) : list (K * A) :=
  match s with
  | [] => [x]
  | y :: s' => if ltb (fst x) (fst y) then y :: insert_desc x s' else x :: s
  end.

Definition sort_desc (l : list (K * A)) : list (K * A) :=
  fold_right insert_desc [] l.

End StableSort.

Fixpoint keys_as {K} (view : json -> option K) (l : list (json * json))
  : option (list (K * json)) :=
  match l with
  | [] => Some []
  | (k, x) :: l' =>
      match view k, keys_as view l' with
      | Some k', Some r => Some ((k', x) :: r)
      | _, _ => None
      end
  end.

Definition as_string (v : json) : option string :=
  match v with JStr s => Some s | _ => None end.

Definition is_list (v : json) : bool :=
  match v with JList _ => true | _ => false end.

(** [result.get('properties', {}).get('type') in content_types]. *)
Definition type_in (content_types : list string) (result : json) : Result bool :=
  bind (get result "properties" (JDict [])) (fun props =>
  bind (get props "type" JNull) (fun type =>
  Ok (match type with
      | JStr s => existsb (String.eqb s) content_types
      | _ => false
      end))).

(** [AdvancedSearchClient.filter_by_content_type(results, content_types)]. *)
Definition filter_by_content_type (results : json) (content_types : list string)
  : Result json :=
  bind (get results "data" JNull) (fun data =>
  if negb (truthy data) then Ok results
  else
    bind (item results "data") (fun data =>
    bind (iter data) (fun items =>
    bind (filterM (type_in content_types) items) (fun filtered_data =>
    bind (setitem results "data" (JList filtered_data)) (fun merged =>
    Ok (JDict merged)))))).

Section WithEnv.
Context (rt : Runtime) (env : Env) (cfg : Config.Settings) (tm : Auth.TokenManager).

(** Python orders numbers among themselves (finite ones, then with
    infinities among them) and strings among themselves; [<] between any
    other two JSON values raises TypeError, except between lists, whose
    order is left to the runtime, as is the order of numbers with a nan
    among them, which [<] does not order.  One item alone is never
    compared. *)
Definition sorted_reverse (keyed : list (json * json)) : Result (list json) :=
  match keys_as as_number keyed with
  | Some by_number => Ok (map snd (sort_desc Qltb by_number))
  | None =>
      match keys_as as_ordered keyed with
      | Some by_float => Ok (map snd (sort_desc float_ltb by_float))
      | None =>
          match keys_as as_string keyed with
          | Some by_string => Ok (map snd (sort_desc String.ltb by_string))
          | None =>
              match keyed with
              | [(_, x)] => Ok [x]
              | _ =>
                  if forallb (fun kx => is_list (fst kx)) keyed
                     || forallb (fun kx => is_number (fst kx)) keyed
                  then sorted_other_keys rt keyed
                  else Raise TypeError
              end
          end
      end
  end.

(** [lambda x: x.get('metadata', {}).get('certainty', 0)]. *)
Definition certainty_key (x : json) : Result json :=
  bind (get x "metadata" (JDict [])) (fun metadata =>
  get metadata "certainty" (JInt 0)).

(** [sorted(data, key=certainty_key, reverse=True)]: the keys are computed
    first, one per item. *)
Definition sorted_by_certainty (data : json) : Result (list json) :=
  bind (iter data) (fun items =>
  bind (mapM (fun x => bind (certainty_key x) (fun k => Ok (k, x))) items)
       sorted_reverse).

Definition bearer_headers (token : json) : list (string * string) :=
  [("Authorization", "Bearer " ++ Py.str rt token);
   ("Content-Type", "application/json")].

Definition search_request (token query : json) (limit : Z) : Request :=
  mkRequest Config.SEARCH_URL
            (bearer_headers token)
            (Json (JDict [("query", query);
                          ("collection", JStr "GlooProd");
                          ("tenant", JStr (Config.TENANT cfg));
                          ("limit", JInt limit);
                          ("certainty", JFloat (Finite (1 # 2)))]))
            None
            60.

(** [AdvancedSearchClient.search(query, limit=10, sort_by="relevance")]. *)
Definition search (query : json) (limit : Z) (sort_by : string) : M json :=
  token <- Auth.ensure_valid_token rt env tm ;;
  try_except
    (response <- requests_post env (search_request token query limit) ;;
     lift (raise_for_status response) ;;
     results <- lift (response_json response) ;;
     wanted <-
       (if (sort_by =? "certainty")%string
        then data <- lift (get results "data" JNull) ;; ret (truthy data)
        else ret false) ;;
     if (wanted : bool) then
       data <- lift (item results "data") ;;
       ordered <- lift (sorted_by_certainty data) ;;
       results <- lift (setitem results "data" (JList ordered)) ;;
       ret (JDict results)
     else ret results)
    is_RequestException
    (fun e =>
       match e with
       | RequestException _ (Some r) =>
           print ("Search failed with status " ++ str_of_Z (status_code r)
                    ++ ": " ++ text r)
       | _ => ret tt
       end ;;
       raise (Exception ("Search request failed: " ++ exn_str rt e))).

(** ** RAGHelper *)

(** The dict [extract_snippets] builds for one result; its four keys are
    fixed, so it is a record here. *)
Record Snippet : Type := mkSnippet {
  text : json;
  title : json;
  type : json;
  relevance : json
}.

Definition extract_one (max_chars_per_snippet : Z) (result : json)
  : Result Snippet :=
  bind (get result "properties" (JDict [])) (fun props =>
  bind (get props "snippet" (JStr "")) (fun raw =>
  bind (slice raw max_chars_per_snippet) (fun snippet_text =>
  bind (get props "item_title" (JStr "N/A")) (fun title =>
  bind (get props "type" (JStr "N/A")) (fun type =>
  bind (get result "metadata" (JDict [])) (fun metadata =>
  bind (get metadata "certainty" (JInt 0)) (fun relevance =>
  Ok (mkSnippet snippet_text title type relevance)))))))).

(** [RAGHelper.extract_snippets(results, max_snippets=5,
    max_chars_per_snippet=500)]. *)
Definition extract_snippets (results : json) (max_snippets max_chars_per_snippet : Z)
  : Result (list Snippet) :=
  bind (get results "data" JNull) (fun data =>
  if negb (truthy data) then Ok []
  else
    bind (item results "data") (fun data =>
    bind (slice data max_snippets) (fun head =>
    bind (iter head) (fun items =>
    mapM (extract_one max_chars_per_snippet) items)))).

(** One entry of [context_parts]. *)
Definition context_part (i : Z) (snippet : Snippet) : string :=
  "[Source " ++ str_of_Z i ++ ": " ++ Py.str rt (title snippet) ++ " ("
    ++ Py.str rt (type snippet) ++ ")]" ++ String "010" ""
    ++ Py.str rt (text snippet) ++ String "010" "".

(** [for i, snippet in enumerate(snippets, start)]. *)
Fixpoint context_parts (start : Z) (snippets : list Snippet) : list string :=
  match snippets with
  | [] => []
  | snippet :: rest => context_part start snippet :: context_parts (start + 1) rest
  end.

Definition separator : string := String "010" ("---" ++ String "010" "").

(** [RAGHelper.format_context_for_llm(snippets)]. *)
Definition format_context_for_llm (snippets : list Snippet) : string :=
  String.concat separator (context_parts 1 snippets).

Definition default_system_prompt : string :=
  "You are a helpful assistant. Answer the user's question based on the "
  ++ "provided context. If the context doesn't contain relevant information, "
  ++ "say so honestly.".

Definition messages (query : json) (context : string) (system_prompt : json)
  : json :=
  let system_prompt :=
    if negb (truthy system_prompt) then JStr default_system_prompt
    else system_prompt in
  JList [JDict [("role", JStr "system"); ("content", system_prompt)];
         JDict [("role", JStr "user");
                ("content", JStr ("Context:" ++ String "010" "" ++ context
                                    ++ String "010" (String "010" "")
                                    ++ "Question: " ++ Py.str rt query))]].

Definition completion_request (token query : json) (context : string)
  (system_prompt : json) : Request :=
  mkRequest Config.COMPLETIONS_URL
            (bearer_headers token)
            (Json (JDict [("messages", messages query context system_prompt);
                          ("auto_routing", JBool true);
                          ("max_tokens", JInt (Config.RAG_MAX_TOKENS cfg))]))
            None
            60.

(** [RAGHelper.generate_with_context(query, context, system_prompt=None)]. *)
Definition generate_with_context (query : json) (context : string)
  (system_prompt : json) : M json :=
  token <- Auth.ensure_valid_token rt env tm ;;
  try_except
    (response <- requests_post env
                   (completion_request token query context system_prompt) ;;
     lift (raise_for_status response) ;;
     result <- lift (response_json response) ;;
     lift (bind (get result "choices" (JList [JDict []])) (fun choices =>
           bind (item0 choices) (fun first =>
           bind (get first "message" (JDict [])) (fun message =>
           get message "content" (JStr ""))))))
    is_RequestException
    (fun e =>
       match e with
       | RequestException _ (Some r) =>
           print ("Completions API failed: " ++ Py.text r)
       | _ => ret tt
       end ;;
       raise (Exception ("Completions request failed: " ++ exn_str rt e))).

Fixpoint print_sources (snippets : list Snippet) : M unit :=
  match snippets with
  | [] => ret tt
  | snippet :: rest =>
      print ("- " ++ Py.str rt (title snippet) ++ " ("
               ++ Py.str rt (type snippet) ++ ")") ;;
      print_sources rest
  end.

End WithEnv.

(** ** AdvancedSearchApp *)

Definition nl : string := String "010" "".

Section App.
Context (rt : Runtime) (env : Env) (cfg : Config.Settings).

(** [AdvancedSearchApp.__init__]: one token manager, shared by the search
    client and the RAG helper. *)
Definition token_manager : Auth.TokenManager :=
  Auth.mkTokenManager (Config.CLIENT_ID cfg) (Config.CLIENT_SECRET cfg)
                      Config.TOKEN_URL.

(** The body of the [try] block of [rag_search]. *)
Definition rag_search_steps (query : string) (limit : Z) : M unit :=
  print ("RAG Search for: '" ++ query ++ "'" ++ nl) ;;
  print "Step 1: Searching for relevant content..." ;;
  results <- search rt env cfg token_manager (JStr query) limit "relevance" ;;
  data <- lift (get results "data" JNull) ;;
  if negb (truthy data) then print "No results found."
  else
    data <- lift (item results "data") ;;
    count <- lift (len data) ;;
    print ("Found " ++ str_of_Z count ++ " results" ++ nl) ;;
    print "Step 2: Extracting snippets..." ;;
    snippets <- lift (extract_snippets results
                        (Z.min limit (Config.RAG_CONTEXT_MAX_SNIPPETS cfg))
                        (Config.RAG_CONTEXT_MAX_CHARS_PER_SNIPPET cfg)) ;;
    print ("Extracted " ++ str_of_Z (Z.of_nat (List.length snippets))
             ++ " snippets" ++ nl) ;;
    print ("Step 3: Generating response with context..." ++ nl) ;;
    response <- generate_with_context rt env cfg token_manager (JStr query)
                  (format_context_for_llm rt snippets) JNull ;;
    print "=== Generated Response ===" ;;
    print (Py.str rt response) ;;
    print (nl ++ "=== Sources Used ===") ;;
    print_sources rt snippets.

(** Its [except Exception as e] handler: report and [sys.exit(1)]. *)
Definition rag_search_failed (e : exn) : M unit :=
  print ("RAG search failed: " ++ exn_str rt e) ;;
  raise (SystemExit 1).

(** [AdvancedSearchApp.rag_search(query, limit=5)]. *)
Definition rag_search (query : string) (limit : Z) : M unit :=
  try_except (rag_search_steps query limit) is_Exception rag_search_failed.

(** [for i, result in enumerate(..., start)] of [filtered_search]. *)
Fixpoint print_results (start : Z) (items : list json) : M unit :=
  match items with
  | [] => ret tt
  | result :: rest =>
      props <- lift (get result "properties" (JDict [])) ;;
      item_title <- lift (get props "item_title" (JStr "N/A")) ;;
      type <- lift (get props "type" (JStr "N/A")) ;;
      print (str_of_Z start ++ ". " ++ Py.str rt item_title ++ " ("
               ++ Py.str rt type ++ ")") ;;
      print_results (start + 1) rest
  end.

(** The body of the [try] block of [filtered_search]. *)
Definition filtered_search_steps (query : string) (content_types : list string)
  (limit : Z) : M unit :=
  print ("Searching for: '" ++ query ++ "'") ;;
  print ("Content types: " ++ String.concat ", " content_types) ;;
  print ("Limit: " ++ str_of_Z limit ++ nl) ;;
  results <- search rt env cfg token_manager (JStr query) limit "relevance" ;;
  filtered_results <- lift (filter_by_content_type results content_types) ;;
  data <- lift (get filtered_results "data" JNull) ;;
  if negb (truthy data) then print "No results found matching filters."
  else
    data <- lift (item filtered_results "data") ;;
    count <- lift (len data) ;;
    print ("Found " ++ str_of_Z count ++ " results:" ++ nl) ;;
    items <- lift (iter data) ;;
    print_results 1 items.

Definition filtered_search_failed (e : exn) : M unit :=
  print ("Filtered search failed: " ++ exn_str rt e) ;;
  raise (SystemExit 1).

(** [AdvancedSearchApp.filtered_search(query, content_types, limit=10)]. *)
Definition filtered_search (query : string) (content_types : list string)
  (limit : Z) : M unit :=
  try_except (filtered_search_steps query content_types limit)
             is_Exception filtered_search_failed.

(** [AdvancedSearchApp.print_usage()]. *)
Definition print_usage : M unit :=
  print "Usage:" ;;
  print "  python search_advanced.py filter <query> <types> [limit]" ;;
  print "  python search_advanced.py rag <query> [limit]" ;;
  print EmptyString ;;
  print "Commands:" ;;
  print "  filter    Search with content type filtering" ;;
  print "  rag       Search and generate response using RAG" ;;
  print EmptyString ;;
  print "Examples:" ;;
  print ("  python search_advanced.py filter " ++ String "034" "purpose"
           ++ String "034" " " ++ String "034" "Article,Video"
           ++ String "034" " 10") ;;
  print ("  python search_advanced.py rag " ++ String "034"
           "How can I know my purpose?" ++ String "034" " 5").

(** The body of the [try] block of [main]. *)
Definition main_steps (argv : list string) (command query : string) : M unit :=
  if (command =? "filter")%string then
    match argv with
    | _ :: _ :: _ :: types :: rest =>
        limit <- (match rest with
                  | raw :: _ => lift (Utils.normalize_limit rt (JStr raw) 10 1 100)
                  | [] => ret 10
                  end) ;;
        filtered_search query (split "," types) limit
    | _ =>
        print "Error: Content types required for filter command" ;;
        print_usage ;;
        raise (SystemExit 1)
    end
  else if (command =? "rag")%string then
    limit <- (match argv with
              | _ :: _ :: _ :: raw :: _ =>
                  lift (Utils.normalize_limit rt (JStr raw) 5 1 100)
              | _ => ret 5
              end) ;;
    rag_search query limit
  else
    print ("Error: Unknown command '" ++ command ++ "'") ;;
    print_usage ;;
    raise (SystemExit 1).

Definition main_failed (e : exn) : M unit :=
  print ("An error occurred: " ++ exn_str rt e) ;;
  raise (SystemExit 1).

(** [main()], given [sys.argv].  The handler of KeyboardInterrupt is left
    out: nothing raises one here, interrupts are outside the model. *)
Definition main (argv : list string) : M unit :=
  Auth.validate_credentials (Some (Config.CLIENT_ID cfg))
                            (Some (Config.CLIENT_SECRET cfg)) ;;
  match argv with
  | _ :: command :: query :: _ =>
      try_except (main_steps argv (lower command) query) is_Exception main_failed
  | _ => print_usage ;; raise (SystemExit 1)
  end.

End App.

End SearchAdvanced.

(* ================================================================== *)
(** * search_basic.py: the search client                              *)
(* ================================================================== *)

Module SearchBasic.

Section WithEnv.
Context (rt : Runtime) (env : Env) (cfg : Config.Settings) (tm : Auth.TokenManager).

Definition search_request (token query : json) (limit : Z) : Request :=
  mkRequest Config.SEARCH_URL
            [("Authorization", "Bearer " ++ Py.str rt token);
             ("Content-Type", "application/json")]
            (Json (JDict [("query", query);
                          ("collection", JStr "GlooProd");
                          ("tenant", JStr (Config.TENANT cfg));
                          ("limit", JInt limit);
                          ("certainty", JFloat (Finite (1 # 2)))]))
            None
            60.

(** [SearchClient.search(query, limit=10)]. *)
Definition search (query : json) (limit : Z) : M json :=
  token <- Auth.ensure_valid_token rt env tm ;;
  try_except
    (response <- requests_post env (search_request token query limit) ;;
     lift (raise_for_status response) ;;
     lift (response_json response))
    is_RequestException
    (fun e =>
       match e with
       | RequestException _ (Some r) =>
           print ("Search failed with status " ++ str_of_Z (status_code r)
                    ++ ": " ++ Py.text r)
       | _ => ret tt
       end ;;
       raise (Exception ("Search request failed: " ++ exn_str rt e))).

End WithEnv.

End SearchBasic.

(* ================================================================== *)
(** * server.py: the RAG route                                        *)
(* ================================================================== *)

Module Server.

Section WithEnv.
Context (rt : Runtime) (env : Env) (cfg : Config.Settings).

(** The shared instance [token_manager = TokenManager(CLIENT_ID,
    CLIENT_SECRET, TOKEN_URL)], used by [advanced_search_client] and
    [rag_helper] alike. *)
Definition token_manager : Auth.TokenManager :=
  Auth.mkTokenManager (Config.CLIENT_ID cfg) (Config.CLIENT_SECRET cfg)
                      Config.TOKEN_URL.

(** [[{"title": s["title"], "type": s["type"]} for s in snippets]]. *)
Definition sources (snippets : list SearchAdvanced.Snippet) : json :=
  JList (map (fun s => JDict [("title", SearchAdvanced.title s);
                              ("type", SearchAdvanced.type s)]) snippets).

(** The body of the [try] block of [api_rag]. *)
Definition rag_steps (query : json) (limit : Z) (system_prompt : json)
  : M (json * Z) :=
  results <- SearchAdvanced.search rt env cfg token_manager query limit
               "relevance" ;;
  data <- lift (get results "data" JNull) ;;
  if negb (truthy data) then
    ret (JDict [("response", JStr "No relevant content found.");
                ("sources", JList [])], 200)
  else
    snippets <- lift (SearchAdvanced.extract_snippets results
                        (Z.min limit (Config.RAG_CONTEXT_MAX_SNIPPETS cfg))
                        (Config.RAG_CONTEXT_MAX_CHARS_PER_SNIPPET cfg)) ;;
    generated_response <-
      SearchAdvanced.generate_with_context rt env cfg token_manager query
        (SearchAdvanced.format_context_for_llm rt snippets) system_prompt ;;
    ret (JDict [("response", generated_response);
                ("sources", sources snippets)], 200).

(** Its [except Exception as e] handler: log and answer 500. *)
Definition rag_failed (e : exn) : M (json * Z) :=
  print_err ("RAG error: " ++ exn_str rt e) ;;
  ret (JDict [("error", JStr "RAG request failed")], 500).

(** [api_rag()], given what [request.get_json()] returned; the result is
    the JSON document answered and its HTTP status. *)
Definition api_rag (body : json) : M (json * Z) :=
  missing <-
    (if negb (truthy body) then ret true
     else query <- lift (get body "query" JNull) ;; ret (negb (truthy query))) ;;
  if (missing : bool) then
    ret (JDict [("error", JStr "Field 'query' is required")], 400)
  else
    query <- lift (item body "query") ;;
    raw_limit <- lift (get body "limit" (JInt 5)) ;;
    limit <- lift (Utils.normalize_limit rt raw_limit 5 1 100) ;;
    system_prompt <- lift (get body "systemPrompt" JNull) ;;
    try_except (rag_steps query limit system_prompt) is_Exception rag_failed.

(** Its [except Exception as e] handler. *)
Definition search_failed (e : exn) : M (json * Z) :=
  print_err ("Search error: " ++ exn_str rt e) ;;
  ret (JDict [("error", JStr "Search request failed")], 500).

(** [api_search()], given [request.args] as the first value of each query
    parameter. *)
Definition api_search (args : string -> option string) : M (json * Z) :=
  match args "q" with
  | None | Some EmptyString =>
      ret (JDict [("error", JStr "Query parameter 'q' is required")], 400)
  | Some query =>
      limit <- lift (Utils.normalize_limit rt
                       (JStr (match args "limit" with
                              | Some raw => raw
                              | None => "10"
                              end)) 10 1 100) ;;
      try_except
        (results <- SearchBasic.search rt env cfg token_manager (JStr query) limit ;;
         ret (results, 200))
        is_Exception search_failed
  end.

End WithEnv.

End Server.

(* ================================================================== *)
(** * The specification's reading of the data                         *)
(* ================================================================== *)

Module Spec.

Import SearchAdvanced.

(** A SearchResult (section 3, section 6): a JSON object whose
    [properties] and [metadata], when present, are objects, and whose
    [snippet], when present, is a string. *)
Definition part (r : json) (k : string) : option dict :=
  match r with
  | JDict d =>
      match lookup k d with
      | None => Some []
      | Some (JDict p) => Some p
      | Some _ => None
      end
  | _ => None
  end.

Definition snippet_of (r : json) : option string :=
  match part r "properties" with
  | Some p =>
      match lookup "snippet" p with
      | None => Some ""
      | Some (JStr s) => Some s
      | Some _ => None
      end
  | None => None
  end.

Definition is_search_result (r : json) : bool :=
  match snippet_of r, part r "metadata" with
  | Some _, Some _ => true
  | _, _ => false
  end.

(** The snippet text of a result, empty when it has none. *)
Definition snippetText (r : json) : string :=
  match snippet_of r with Some s => s | None => "" end.

Definition field (r : json) (group k : string) (default : json) : json :=
  match part r group with
  | Some p => match lookup k p with Some v => v | None => default end
  | None => default
  end.

(** 4.3, [extract]: the first [maxSnippets] results in their order, each
    text cut to [maxCharsPerSnippet] characters. *)
Definition extract (results : list json) (maxSnippets maxCharsPerSnippet : nat)
  : list Snippet :=
  map (fun r =>
         mkSnippet (JStr (substring 0 maxCharsPerSnippet (snippetText r)))
                   (field r "properties" "item_title" (JStr "N/A"))
                   (field r "properties" "type" (JStr "N/A"))
                   (field r "metadata" "certainty" (JInt 0)))
      (firstn maxSnippets results).

(** The length of a snippet's text, when it is a string. *)
Definition text_length (s : Snippet) : nat :=
  match text s with JStr t => String.length t | _ => 0 end.

(** [enumerate(l, 1)]. *)
Definition enumerate {A} (l : list A) : list (Z * A) :=
  combine (map Z.of_nat (seq 1 (List.length l))) l.

Section Compose.
Context (rt : Runtime).

(** 4.4, [compose], by the letter: a header line
    [[Source <index>: <title> (<type>)]] followed by the text, the blocks
    joined by the separator. *)
Definition header (i : Z) (s : Snippet) : string :=
  "[Source " ++ str_of_Z i ++ ": " ++ Py.str rt (title s) ++ " ("
    ++ Py.str rt (type s) ++ ")]".

Definition block (i : Z) (s : Snippet) : string :=
  header i s ++ nl ++ Py.str rt (text s).

Definition compose (snippets : list Snippet) : string :=
  String.concat separator (map (fun p => block (fst p) (snd p)) (enumerate snippets)).

End Compose.

(** The certainty of a result as a number, 0 when it has none. *)
Definition certainty (r : json) : option Q :=
  match part r "metadata" with
  | Some m =>
      match lookup "certainty" m with
      | None => Some 0%Q
      | Some v => as_number v
      end
  | None => None
  end.

(** The expiry instant of the cached credential. *)
Definition expiresAt (info : dict) : option Q :=
  match lookup "expires_at" info with
  | Some e => as_number e
  | None => None
  end.

(** The cached credential may not be reused at the next reading of the
    clock: there is none, or the reading is past its expiry less the
    60-second buffer. *)
Definition stale (env : Env) (w : World) : Prop :=
  lookup "expires_at" (access_token_info w) = None
  \/ exists T, expiresAt (access_token_info w) = Some T
               /\ (T - 60 < clock env (ticks w))%Q.

(** The failure [auth.py] raises for a token request that did not succeed. *)
Definition auth_failure {A} (r : Result A) : Prop :=
  exists why, r = Raise (Exception ("Failed to obtain access token: " ++ why)).

(** The generation calls among some requests. *)
Definition generation_requests (l : list Request) : list Request :=
  filter (fun r => (url r =? Config.COMPLETIONS_URL)%string) l.

Definition search_requests (l : list Request) : list Request :=
  filter (fun r => (url r =? Config.SEARCH_URL)%string) l.

(** 4.5, the two messages of a generation request. *)
Definition system_message (content : json) : json :=
  JDict [("role", JStr "system"); ("content", content)].

Definition user_message (contextBlock query : string) : json :=
  JDict [("role", JStr "user");
         ("content", JStr ("Context:" ++ nl ++ contextBlock ++ nl ++ nl
                             ++ "Question: " ++ query))].

(** The answers of the RAG route. *)
Definition no_content_answer : json * Z :=
  (JDict [("response", JStr "No relevant content found.");
          ("sources", JList [])], 200).

Definition generic_error : json * Z :=
  (JDict [("error", JStr "RAG request failed")], 500).

Definition answer (generated : json) (snippets : list Snippet) : json * Z :=
  (JDict [("response", generated); ("sources", Server.sources snippets)], 200).

(** The world once [rag_search] has announced the search, and a world
    with one more line on stdout or on stderr. *)
Definition printed (line : string) (w : World) : World :=
  mkWorld (access_token_info w) (ticks w) (sent w)
          (stdout w ++ [line])%list (stderr w).

Definition logged (line : string) (w : World) : World :=
  mkWorld (access_token_info w) (ticks w) (sent w)
          (stdout w) (stderr w ++ [line])%list.

Definition announced (query : string) (w : World) : World :=
  printed "Step 1: Searching for relevant content..."
          (printed ("RAG Search for: '" ++ query ++ "'" ++ nl) w).

(** The limit and the prompt the RAG route reads from a request body. *)
Definition requested_limit (rt : Runtime) (b : dict) : Result Z :=
  Utils.normalize_limit rt
    (match lookup "limit" b with Some v => v | None => JInt 5 end) 5 1 100.

Definition requested_prompt (b : dict) : json :=
  match lookup "systemPrompt" b with Some v => v | None => JNull end.

Definition scored (r : json) : bool :=
  match certainty r with Some _ => true | None => false end.

Definition has_certainty (q : Q) (r : json) : bool :=
  match certainty r with Some c => Qeq_bool c q | None => false end.

(** [a] may stand before [b] in descending order of certainty. *)
Definition certainty_at_least (a b : json) : Prop :=
  match certainty a, certainty b with
  | Some qa, Some qb => (qb <= qa)%Q
  | _, _ => False
  end.

Section Order.
Context {K A : Type} (ltb : K -> K -> bool).

(** [x] does not have a lesser key than [y]. *)
Definition not_below (x y : K * A) : Prop := ltb (fst x) (fst y) = false.

(** The key of [x] is neither less nor greater than [q]. *)
Definition tied (q : K) (x : K * A) : bool :=
  negb (ltb q (fst x)) && negb (ltb (fst x) q).

End Order.

(** A cache as the token manager leaves it: empty of [expires_at], or
    with a numeric one. *)
Definition cache_ok (info : dict) : Prop :=
  lookup "expires_at" info = None
  \/ exists e, lookup "expires_at" info = Some e /\ is_number e = true.

(** An integer setting read from the process environment. *)
Definition env_int (rt : Runtime) (getenv : string -> option string)
  (name : string) (default : Z) : Z :=
  match getenv name with
  | Some raw => match parse_int rt raw with Some n => n | None => default end
  | None => default
  end.

(** A variable that is unset, empty or left at its placeholder. *)
Definition left_unset (getenv : string -> option string) (name placeholder : string)
  : Prop :=
  getenv name = None \/ getenv name = Some "" \/ getenv name = Some placeholder.

(** The content type of a result, when it has a textual one. *)
Definition typed (r : json) : bool :=
  match part r "properties" with Some _ => true | None => false end.

Definition of_type (content_types : list string) (r : json) : bool :=
  match field r "properties" "type" JNull with
  | JStr s => existsb (String.eqb s) content_types
  | _ => false
  end.

(** The line [filtered_search] prints for the i-th result. *)
Definition result_line (rt : Runtime) (i : Z) (r : json) : string :=
  str_of_Z i ++ ". " ++ Py.str rt (field r "properties" "item_title" (JStr "N/A"))
    ++ " (" ++ Py.str rt (field r "properties" "type" (JStr "N/A")) ++ ")".

(** What extraction makes of one search result, for a bound of any
    sign on the characters. *)
Definition projected (mc : Z) (r : json) : Snippet :=
  mkSnippet (JStr (str_slice mc (snippetText r)))
            (field r "properties" "item_title" (JStr "N/A"))
            (field r "properties" "type" (JStr "N/A"))
            (field r "metadata" "certainty" (JInt 0)).

(** The lines [filtered_search] prints for results numbered from
    [start]. *)
Fixpoint result_lines (rt : Runtime) (start : Z) (items : list json)
  : list string :=
  match items with
  | [] => []
  | r :: rest => result_line rt start r :: result_lines rt (start + 1) rest
  end.

(** A world with more lines on stdout; the world once [filtered_search]
    has announced the search. *)
Definition printed_all (lines : list string) (w : World) : World :=
  mkWorld (access_token_info w) (ticks w) (sent w)
          (stdout w ++ lines)%list (stderr w).

(** What [rag_search] prints: once it has counted the results, once it
    has extracted the snippets, and once it has the answer. *)
Definition counted_lines (count : Z) : list string :=
  ["Found " ++ str_of_Z count ++ " results" ++ nl;
   "Step 2: Extracting snippets..."].

Definition extracted_lines (count : Z) (snippets : list Snippet) : list string :=
  List.app (counted_lines count)
    ["Extracted " ++ str_of_Z (Z.of_nat (List.length snippets))
       ++ " snippets" ++ nl;
     "Step 3: Generating response with context..." ++ nl].

Definition source_line (rt : Runtime) (s : Snippet) : string :=
  "- " ++ Py.str rt (title s) ++ " (" ++ Py.str rt (type s) ++ ")".

Definition answer_lines (rt : Runtime) (response : json) (snippets : list Snippet)
  : list string :=
  List.app ["=== Generated Response ==="; Py.str rt response;
            nl ++ "=== Sources Used ==="]
           (map (source_line rt) snippets).

Definition filter_announced (query : string) (content_types : list string)
  (limit : Z) (w : World) : World :=
  printed ("Limit: " ++ str_of_Z limit ++ nl)
    (printed ("Content types: " ++ String.concat ", " content_types)
       (printed ("Searching for: '" ++ query ++ "'") w)).

(** Code that raises nothing but exceptions of the [Exception] family,
    and code that neither sends a request nor touches the token cache. *)
Definition safe {A} (m : M A) : Prop :=
  forall w e w', m w = (Raise e, w') -> is_Exception e = true.

Definition quiet {A} (m : M A) : Prop :=
  forall w r w', m w = (r, w') ->
    sent w' = sent w /\ access_token_info w' = access_token_info w.

(** Code that ends normally or by [sys.exit(1)]. *)
Definition ends {A} (m : M A) : Prop :=
  forall w r w', m w = (r, w') -> (exists a, r = Ok a) \/ r = Raise (SystemExit 1).

(** Code that always exits with status 1 and sends nothing, and code that
    always returns and sends nothing. *)
Definition stops {A} (m : M A) : Prop :=
  forall w, fst (m w) = Raise (SystemExit 1) /\ sent (snd (m w)) = sent w.

Definition passes {A} (m : M A) : Prop :=
  forall w, exists a w', m w = (Ok a, w') /\ sent w' = sent w.

(** Credentials that pass [validate_credentials]. *)
Definition credentials_set (cfg : Config.Settings) : Prop :=
  Auth.not_set "YOUR_CLIENT_ID" (Some (Config.CLIENT_ID cfg)) = false
  /\ Auth.not_set "YOUR_CLIENT_SECRET" (Some (Config.CLIENT_SECRET cfg)) = false.

(** The limit carried by a search request. *)
Definition limit_of (req : Request) : option json :=
  match payload req with
  | Json (JDict body) => lookup "limit" body
  | _ => None
  end.

Definition limit_in_range (req : Request) : Prop :=
  exists limit, limit_of req = Some (JInt limit) /\ 1 <= limit <= 100.

End Spec.

(* ================================================================== *)
(** * Sample surroundings for the examples                            *)
(* ================================================================== *)

Module Sample.

(** A runtime for the examples, which hold no float, list or dict to
    print and print no builtin exception. *)
Definition runtime : Runtime :=
  mkRuntime (fun _ => "?") (fun _ => "?") (fun _ => Raise TypeError) 4300.

(** The settings of an empty process environment. *)
Definition settings : Config.Settings :=
  Config.mkSettings "YOUR_CLIENT_ID" "YOUR_CLIENT_SECRET" "your-tenant-name"
                    3000 3000 5 350.

Definition result (item_title snippet : string) (certainty : Q) : json :=
  JDict [("properties", JDict [("item_title", JStr item_title);
                               ("type", JStr "Article");
                               ("snippet", JStr snippet)]);
         ("metadata", JDict [("certainty", JFloat (Finite certainty))])].

Definition token_manager : Auth.TokenManager := Server.token_manager settings.

Definition reply (status : Z) (body : json) : Outcome :=
  Replied (mkResponse status "" "" "" (Parsed body)).

(** A clock that stands still and a server that answers by endpoint. *)
Definition env (now : Q) (token search completion : Outcome) : Env :=
  mkEnv (fun _ => now)
        (fun _ req =>
           if (url req =? Config.TOKEN_URL)%string then token
           else if (url req =? Config.SEARCH_URL)%string then search
           else completion).

Definition token_body (expires_in : Z) : json :=
  JDict [("access_token", JStr "t"); ("token_type", JStr "Bearer");
         ("expires_in", JInt expires_in)].

Definition completion_body (answer : string) : json :=
  JDict [("choices",
          JList [JDict [("message", JDict [("role", JStr "assistant");
                                           ("content", JStr answer)])]])].


(** A token endpoint whose reply lacks [expires_in]. *)
Definition no_expires_in : Env :=
  env 1000 (reply 200 (JDict [("access_token", JStr "t")]))
      (reply 200 JNull) (reply 200 JNull).

(** A world whose cached credential expires at 2000 s. *)
Definition cached_world : World :=
  mkWorld [("access_token", JStr "old"); ("expires_at", JInt 2000)] 0 [] [] [].

Definition three_results : list json :=
  [result "A" "alpha" (5 # 10); result "B" "beta" (9 # 10);
   result "C" "gamma" (7 # 10)].

Definition found (results : list json) : Outcome :=
  reply 200 (JDict [("data", JList results)]).

(** Everything up: a one-hour token, three results, an answer. *)
Definition all_up : Env :=
  env 1000 (reply 200 (token_body 3600)) (found three_results)
      (reply 200 (completion_body "An answer.")).

(** The search endpoint finds nothing. *)
Definition no_results : Env :=
  env 1000 (reply 200 (token_body 3600)) (found [])
      (reply 200 (completion_body "An answer.")).

(** The search endpoint is down. *)
Definition search_down : Env :=
  env 1000 (reply 200 (token_body 3600)) (reply 500 JNull)
      (reply 200 (completion_body "An answer.")).

(** The completion endpoint is down. *)
Definition generation_down : Env :=
  env 1000 (reply 200 (token_body 3600)) (found three_results)
      (reply 500 JNull).

Definition question : json := JDict [("query", JStr "What is X?")].

(** A result whose snippet is null. *)
Definition null_snippet : json :=
  JDict [("properties", JDict [("item_title", JStr "D"); ("snippet", JNull)])].

(** The token endpoint is down. *)
Definition token_down : Env :=
  env 1000 (reply 500 JNull) (found three_results)
      (reply 200 (completion_body "An answer.")).

(** The completion endpoint answers without any choice. *)
Definition no_choices : Env :=
  env 1000 (reply 200 (token_body 3600)) (found three_results)
      (reply 200 (JDict [("choices", JList [])])).

(** Query parameters and process environments for the examples. *)
Definition params (q limit : option string) (name : string) : option string :=
  if (name =? "q")%string then q
  else if (name =? "limit")%string then limit else None.

Definition with_credentials (name : string) : option string :=
  if (name =? "GLOO_CLIENT_ID")%string then Some "id"
  else if (name =? "GLOO_CLIENT_SECRET")%string then Some "secret"
  else if (name =? "RAG_CONTEXT_MAX_SNIPPETS")%string then Some "2"
  else None.

Definition configured : Config.Settings :=
  Config.mkSettings "id" "secret" "your-tenant-name" 3000 3000 2 350.

End Sample.

(* ================================================================== *)
(** * Properties                                                      *)
(* ================================================================== *)

(** ** Builtins *)

(** [int] raises OverflowError on an infinite float and on nothing else;
    its other failures are TypeError and ValueError. *)
Lemma int_raises (rt : Runtime) (v : json) (e : exn) :
  Py.int rt v = Raise e ->
  (e = OverflowError /\ exists negative, v = JFloat (Inf negative))
  \/ ((e = TypeError \/ e = ValueError)
      /\ forall negative, v <> JFloat (Inf negative)).
Proof.
  destruct v as [| b | z | [q | negative |] | s | l | d]; simpl;
    try discriminate;
    try (intros [= <-]; right; split; [auto | discriminate]).
  - intros [= <-]. left. split; [reflexivity | now exists negative].
  - destruct (parse_int rt s); [discriminate |].
    intros [= <-]. right. split; [auto | discriminate].
Qed.

Lemma int_infinite (rt : Runtime) (negative : bool) :
  Py.int rt (JFloat (Inf negative)) = Raise OverflowError.
Proof. reflexivity. Qed.

Lemma substring_min (s : string) (n : nat) :
  substring 0 (Nat.min n (String.length s)) s = substring 0 n s.
Proof.
  revert n; induction s as [| c s IH]; intros [| n]; simpl; auto.
  now rewrite IH.
Qed.

Lemma substring_length (s : string) (n : nat) :
  String.length (substring 0 n s) = Nat.min n (String.length s).
Proof.
  revert n; induction s as [| c s IH]; intros [| n]; simpl; auto.
Qed.

Lemma firstn_min {A} (l : list A) (n : nat) :
  firstn (Nat.min n (List.length l)) l = firstn n l.
Proof.
  revert n; induction l as [| x l IH]; intros [| n]; simpl; auto.
  now rewrite IH.
Qed.

Lemma slice_count_nonneg (n : Z) (size : nat) :
  0 <= n -> slice_count n size = Nat.min (Z.to_nat n) size.
Proof.
  intros H; unfold slice_count.
  destruct (Z.leb_spec 0 n); [reflexivity | lia].
Qed.

Lemma mapM_total {A B} (f : A -> Result B) (g : A -> B) (l : list A) :
  Forall (fun x => f x = Ok (g x)) l -> mapM f l = Ok (map g l).
Proof.
  induction 1 as [| x l Hx _ IH]; simpl; [reflexivity |].
  now rewrite Hx, IH.
Qed.

Lemma Forall_firstn_of {A} (P : A -> Prop) (l : list A) (n : nat) :
  Forall P l -> Forall P (firstn n l).
Proof.
  intros H; revert n; induction H; intros [| n]; simpl; auto.
Qed.

(** The builtins on a few inputs. *)
Example parse_int_examples :
  parse_int Sample.runtime " +1_000 " = Some 1000
  /\ parse_int Sample.runtime "-12" = Some (-12)
  /\ parse_int Sample.runtime "007" = Some 7
  /\ parse_int Sample.runtime "1__0" = None
  /\ parse_int Sample.runtime "_1" = None
  /\ parse_int Sample.runtime "5 5" = None
  /\ parse_int Sample.runtime "" = None.
Proof. repeat split. Qed.

Example slice_examples :
  str_slice 2 "abc" = "ab" /\ str_slice 5 "abc" = "abc"
  /\ str_slice (-1) "abc" = "ab" /\ str_slice (-5) "abc" = ""
  /\ list_slice (-1) [1; 2; 3] = [1; 2] /\ trunc (-7 # 2) = -3.
Proof. repeat split. Qed.

Example float_examples :
  Py.int Sample.runtime (JFloat (Finite (-7 # 2))) = Ok (-3)
  /\ Py.int Sample.runtime (JFloat (Inf false)) = Raise OverflowError
  /\ Py.int Sample.runtime (JFloat (Inf true)) = Raise OverflowError
  /\ Py.int Sample.runtime (JFloat NaN) = Raise ValueError
  /\ truthy (JFloat NaN) = true /\ truthy (JFloat (Finite 0)) = false
  /\ int_add 1000 (JFloat (Inf false)) = Ok (JFloat (Inf false))
  /\ float_gt 1000 (JFloat (Inf false)) = Ok false
  /\ float_gt 1000 (JFloat (Inf true)) = Ok true
  /\ float_gt 1000 (JFloat NaN) = Ok false
  /\ float_gt 1000 (JInt 999) = Ok true.
Proof. repeat split. Qed.

Example sorted_with_infinities :
  SearchAdvanced.sorted_reverse Sample.runtime
    [(JFloat (Finite (1 # 2)), JStr "a"); (JFloat (Inf true), JStr "b");
     (JFloat (Inf false), JStr "c"); (JInt 1, JStr "d");
     (JFloat (Inf false), JStr "e")]
  = Ok [JStr "c"; JStr "e"; JStr "d"; JStr "a"; JStr "b"].
Proof. reflexivity. Qed.

Example settings_of_empty_environment :
  Config.load Sample.runtime (fun _ => None) = Ok Sample.settings.
Proof. reflexivity. Qed.

(** ** utils.py *)

Section NormalizeLimit.
Context (rt : Runtime).

Lemma normalize_limit_parsed (value : json) (fallback lo hi parsed : Z) :
  Py.int rt value = Ok parsed ->
  Utils.normalize_limit rt value fallback lo hi = Ok (Z.max lo (Z.min parsed hi)).
Proof. unfold Utils.normalize_limit; now intros ->. Qed.

Lemma normalize_limit_unparsed (value : json) (fallback lo hi : Z) (e : exn) :
  Py.int rt value = Raise e ->
  (forall negative, value <> JFloat (Inf negative)) ->
  Utils.normalize_limit rt value fallback lo hi = Ok fallback.
Proof.
  intros H Hfinite; unfold Utils.normalize_limit; rewrite H.
  destruct (int_raises _ _ _ H) as [(_ & negative & ->) | ([-> | ->] & _)];
    [now destruct (Hfinite negative) | reflexivity | reflexivity].
Qed.

Lemma normalize_limit_text_unparsed (raw : string) (fallback lo hi : Z) (e : exn) :
  Py.int rt (JStr raw) = Raise e ->
  Utils.normalize_limit rt (JStr raw) fallback lo hi = Ok fallback.
Proof. intros H. apply (normalize_limit_unparsed _ _ _ _ e H). discriminate. Qed.

Lemma normalize_limit_infinite (negative : bool) (fallback lo hi : Z) :
  Utils.normalize_limit rt (JFloat (Inf negative)) fallback lo hi
  = Raise OverflowError.
Proof. reflexivity. Qed.

(** What [normalize_limit] raises, it raises on an infinite float. *)
Lemma normalize_limit_raises (value : json) (fallback lo hi : Z) (e : exn) :
  Utils.normalize_limit rt value fallback lo hi = Raise e ->
  e = OverflowError /\ exists negative, value = JFloat (Inf negative).
Proof.
  destruct (Py.int rt value) as [parsed | e'] eqn:H.
  - now rewrite (normalize_limit_parsed _ fallback lo hi _ H).
  - destruct (int_raises _ _ _ H) as [(-> & negative & ->) | (_ & Hfinite)].
    + intros [= <-]. split; [reflexivity | now exists negative].
    + now rewrite (normalize_limit_unparsed _ fallback lo hi _ H Hfinite).
Qed.


End NormalizeLimit.



(** ** RAGHelper.extract_snippets *)

Section ExtractSnippets.
Import SearchAdvanced.

Lemma extract_one_search_result (max_chars : Z) (r : json) :
  0 <= max_chars ->
  Spec.is_search_result r = true ->
  extract_one max_chars r
  = Ok (mkSnippet
          (JStr (substring 0 (Z.to_nat max_chars) (Spec.snippetText r)))
          (Spec.field r "properties" "item_title" (JStr "N/A"))
          (Spec.field r "properties" "type" (JStr "N/A"))
          (Spec.field r "metadata" "certainty" (JInt 0))).
Proof.
  intros Hmc.
  unfold Spec.is_search_result, Spec.snippetText, Spec.snippet_of, Spec.field,
    Spec.part, extract_one.
  destruct r as [| | | | | | d]; try discriminate.
  unfold get at 1. simpl bind.
  destruct (lookup "properties" d) as [[| | | | | | p] |] eqn:Hp; try discriminate.
  - unfold get at 1; simpl bind.
    destruct (lookup "snippet" p) as [[| | | | s | |] |] eqn:Hs; try discriminate;
      destruct (lookup "metadata" d) as [[| | | | | | m] |] eqn:Hm;
      try discriminate; intros _; simpl;
      unfold str_slice; rewrite slice_count_nonneg by assumption;
      rewrite substring_min; reflexivity.
  - destruct (lookup "metadata" d) as [[| | | | | | m] |] eqn:Hm;
      try discriminate; intros _; simpl;
      unfold str_slice; rewrite slice_count_nonneg by assumption;
      rewrite substring_min; reflexivity.
Qed.

Lemma extract_length (rs : list json) (n m : nat) :
  List.length (Spec.extract rs n m) = Nat.min (List.length rs) n.
Proof.
  unfold Spec.extract. rewrite length_map, length_firstn. apply Nat.min_comm.
Qed.

Lemma extract_text_bound (rs : list json) (n m : nat) :
  Forall (fun s => (Spec.text_length s <= m)%nat) (Spec.extract rs n m).
Proof.
  unfold Spec.extract. apply Forall_map, Forall_forall. intros r _.
  unfold Spec.text_length; simpl. rewrite substring_length. apply Nat.le_min_l.
Qed.

Lemma extract_text_longer (rs : list json) (n m k : nat) :
  (m <= k)%nat ->
  Forall (fun r => String.length (Spec.snippetText r) = k) rs ->
  Forall (fun s => Spec.text_length s = m) (Spec.extract rs n m).
Proof.
  intros Hmk H. unfold Spec.extract. apply Forall_map.
  apply Forall_firstn_of. revert H. apply Forall_impl. intros r Hr.
  unfold Spec.text_length; simpl. rewrite substring_length, Hr.
  now apply Nat.min_l.
Qed.

Lemma extract_snippets_refines (d : dict) (rs : list json) (ms mc : Z) :
  lookup "data" d = Some (JList rs) ->
  forallb Spec.is_search_result rs = true ->
  0 <= ms -> 0 <= mc ->
  extract_snippets (JDict d) ms mc
  = Ok (Spec.extract rs (Z.to_nat ms) (Z.to_nat mc)).
Proof.
  intros Hd Hrs Hms Hmc. unfold extract_snippets, get, item. rewrite Hd. simpl bind.
  destruct rs as [| r rs'] eqn:Ers.
  - simpl. unfold Spec.extract. now rewrite firstn_nil.
  - rewrite <- Ers in *. replace (negb (truthy (JList rs))) with false
      by (rewrite Ers; reflexivity).
    simpl. unfold list_slice. rewrite slice_count_nonneg by assumption.
    rewrite firstn_min. unfold Spec.extract.
    apply mapM_total. apply Forall_firstn_of.
    rewrite forallb_forall in Hrs. apply Forall_forall. intros x Hx.
    apply extract_one_search_result; auto.
Qed.

(** C4, as amended: for bounds that are not negative, extraction is the
    specification's [extract]: the first min(len(results), maxSnippets)
    results in their order, each text the plain prefix of at most
    maxCharsPerSnippet characters, the empty string where the snippet
    field is missing; so both bounds hold, and 8 results of 500
    characters under the bounds 5 and 350 give exactly 5 snippets of 350
    characters, the prefixes of the first five results in order. *)
Theorem extract_snippets_bounded (d : dict) (rs : list json) (ms mc : Z) :
  lookup "data" d = Some (JList rs) ->
  forallb Spec.is_search_result rs = true ->
  0 <= ms -> 0 <= mc ->
  let snippets := Spec.extract rs (Z.to_nat ms) (Z.to_nat mc) in
  extract_snippets (JDict d) ms mc = Ok snippets /\
  List.length snippets = Nat.min (List.length rs) (Z.to_nat ms) /\
  Z.of_nat (List.length snippets) <= ms /\
  Forall (fun s => Z.of_nat (Spec.text_length s) <= mc) snippets /\
  (forall i r p, nth_error rs i = Some r -> (i < Z.to_nat ms)%nat ->
     Spec.part r "properties" = Some p -> lookup "snippet" p = None ->
     exists s, nth_error snippets i = Some s /\ text s = JStr "") /\
  (List.length rs = 8%nat ->
   Forall (fun r => String.length (Spec.snippetText r) = 500%nat) rs ->
   ms = 5 -> mc = 350 ->
   List.length snippets = 5%nat /\
   Forall (fun s => Spec.text_length s = 350%nat) snippets /\
   map text snippets
   = map (fun r => JStr (substring 0 350 (Spec.snippetText r))) (firstn 5 rs)).
Proof.
  intros Hd Hrs Hms Hmc snippets. subst snippets.
  split; [now apply extract_snippets_refines |].
  split; [apply extract_length |].
  split; [rewrite extract_length; lia |].
  split.
  { generalize (extract_text_bound rs (Z.to_nat ms) (Z.to_nat mc)).
    apply Forall_impl. intros s Hs. lia. }
  split.
  { intros i r p Hi Hlt Hp Hs. unfold Spec.extract.
    rewrite nth_error_map, nth_error_firstn.
    destruct (Nat.ltb_spec i (Z.to_nat ms)) as [_ | Hge]; [| lia].
    rewrite Hi. simpl. eexists; split; [reflexivity |]. simpl.
    unfold Spec.snippetText, Spec.snippet_of. rewrite Hp, Hs.
    now destruct (Z.to_nat mc). }
  intros Hlen Hall -> ->. split; [rewrite extract_length, Hlen; reflexivity |].
  split.
  - apply extract_text_longer with (k := 500%nat); [lia | assumption].
  - unfold Spec.extract. rewrite map_map. reflexivity.
Qed.

End ExtractSnippets.

Lemma extract_snippets_bounded_witness :
  SearchAdvanced.extract_snippets (JDict [("data", JList Sample.three_results)]) 2 3
  = Ok (Spec.extract Sample.three_results 2 3).
Proof.
  apply (extract_snippets_bounded [("data", JList Sample.three_results)]
           Sample.three_results 2 3); [reflexivity | reflexivity | lia | lia].
Defined.

(** C4 as stated fails for a negative bound: [x[:-1]] drops the last
    item, so three results under maxSnippets = -1 give two snippets, and a
    five-character text under maxCharsPerSnippet = -1 keeps four
    characters. *)
Lemma extract_snippets_negative_bound :
  exists snippets,
    SearchAdvanced.extract_snippets
      (JDict [("data", JList Sample.three_results)]) (-1) (-1) = Ok snippets /\
    ~ (Z.of_nat (List.length snippets) <= -1) /\
    ~ Forall (fun s => Z.of_nat (Spec.text_length s) <= -1) snippets.
Proof.
  eexists. split; [reflexivity |]. split.
  - simpl. lia.
  - intros H. inversion H as [| s l Hs _]. simpl in Hs. lia.
Qed.

(** ** RAGHelper.format_context_for_llm *)

Section FormatContext.
Import SearchAdvanced.
Context (rt : Runtime).

Lemma append_assoc (a b c : string) : (a ++ b) ++ c = a ++ (b ++ c).
Proof. induction a as [| x a IH]; simpl; [reflexivity | now rewrite IH]. Qed.

Lemma context_part_block (i : Z) (s : Snippet) :
  context_part rt i s = Spec.block rt i s ++ nl.
Proof.
  unfold context_part, Spec.block, Spec.header, nl.
  rewrite !append_assoc. reflexivity.
Qed.

Lemma context_parts_enumerate (snippets : list Snippet) (n : nat) :
  context_parts rt (Z.of_nat n) snippets
  = map (fun p => Spec.block rt (fst p) (snd p) ++ nl)
        (combine (map Z.of_nat (seq n (List.length snippets))) snippets).
Proof.
  revert n; induction snippets as [| s l IH]; intros n; simpl; [reflexivity |].
  f_equal.
  - apply context_part_block.
  - replace (Z.of_nat n + 1) with (Z.of_nat (S n)) by lia. apply IH.
Qed.

(** C5, as amended: the context is the blocks joined by the separator,
    the block of the i-th snippet (counting from 1) being the header line
    [[Source i: title (type)]], the text and a newline after the text;
    the same list always gives the same string. *)
Theorem format_context_for_llm_blocks (snippets : list Snippet) :
  format_context_for_llm rt snippets
  = String.concat separator
      (map (fun p => Spec.block rt (fst p) (snd p) ++ nl) (Spec.enumerate snippets))
  /\ forall again, again = snippets ->
       format_context_for_llm rt again = format_context_for_llm rt snippets.
Proof.
  split.
  - unfold format_context_for_llm, Spec.enumerate.
    change 1 with (Z.of_nat 1).
    now rewrite (context_parts_enumerate snippets 1).
  - now intros again ->.
Qed.

(** C10: no snippet, no text: neither header nor separator is emitted. *)
Theorem format_context_for_llm_empty :
  format_context_for_llm rt [] = "".
Proof. reflexivity. Qed.

End FormatContext.

Lemma format_context_for_llm_blocks_witness :
  SearchAdvanced.format_context_for_llm Sample.runtime
    (Spec.extract Sample.three_results 2 3)
  = SearchAdvanced.format_context_for_llm Sample.runtime
      (Spec.extract Sample.three_results 2 3).
Proof.
  apply (proj2 (format_context_for_llm_blocks Sample.runtime
                  (Spec.extract Sample.three_results 2 3))).
  reflexivity.
Defined.

(** C5 as stated fails: the string is not just header line and text per
    block, every block also ends in a newline. *)
Lemma format_context_for_llm_trailing_newline :
  SearchAdvanced.format_context_for_llm Sample.runtime
    (Spec.extract Sample.three_results 1 5)
  = "[Source 1: A (Article)]" ++ SearchAdvanced.nl ++ "alpha" ++ SearchAdvanced.nl
  /\ Spec.compose Sample.runtime (Spec.extract Sample.three_results 1 5)
     = "[Source 1: A (Article)]" ++ SearchAdvanced.nl ++ "alpha"
  /\ SearchAdvanced.format_context_for_llm Sample.runtime
       (Spec.extract Sample.three_results 1 5)
     <> Spec.compose Sample.runtime (Spec.extract Sample.three_results 1 5).
Proof. repeat split; discriminate. Qed.

(** ** The stable descending sort *)

Section SortDesc.
Import SearchAdvanced.
Context {K A : Type} (ltb : K -> K -> bool).
Hypothesis ltb_asym : forall a b, ltb a b = true -> ltb b a = false.
Hypothesis geb_trans :
  forall a b c, ltb a b = false -> ltb b c = false -> ltb a c = false.

Let not_below := @Spec.not_below K A ltb.
Let tied := @Spec.tied K A ltb.

Lemma insert_desc_perm (x : K * A) (s : list (K * A)) :
  Permutation (insert_desc ltb x s) (x :: s).
Proof.
  induction s as [| y s IH]; simpl; [reflexivity |].
  destruct (ltb (fst x) (fst y)); [| reflexivity].
  rewrite IH. apply perm_swap.
Qed.

Lemma sort_desc_perm (l : list (K * A)) : Permutation (sort_desc ltb l) l.
Proof.
  induction l as [| x l IH]; simpl; [reflexivity |].
  rewrite insert_desc_perm. now constructor.
Qed.

Lemma insert_desc_sorted (x : K * A) (s : list (K * A)) :
  StronglySorted not_below s -> StronglySorted not_below (insert_desc ltb x s).
Proof.
  induction 1 as [| y s Hs IH Hy]; simpl.
  - repeat constructor.
  - destruct (ltb (fst x) (fst y)) eqn:Hxy.
    + constructor; [assumption |].
      apply Forall_forall. intros z Hz.
      apply (Permutation_in _ (insert_desc_perm x s)) in Hz.
      destruct Hz as [<- | Hz].
      * now apply ltb_asym.
      * rewrite Forall_forall in Hy. now apply Hy.
    + constructor; [now constructor |].
      constructor; [exact Hxy |].
      revert Hy. apply Forall_impl. intros z Hz.
      now apply geb_trans with (fst y).
Qed.

Lemma sort_desc_sorted (l : list (K * A)) :
  StronglySorted not_below (sort_desc ltb l).
Proof.
  induction l as [| x l IH]; simpl; [constructor |].
  now apply insert_desc_sorted.
Qed.

Lemma insert_desc_stable (q : K) (x : K * A) (s : list (K * A)) :
  filter (tied q) (insert_desc ltb x s)
  = if tied q x then x :: filter (tied q) s else filter (tied q) s.
Proof.
  induction s as [| y s IH]; simpl; [reflexivity |].
  destruct (ltb (fst x) (fst y)) eqn:Hxy; simpl; [| reflexivity].
  rewrite IH.
  destruct (tied q x) eqn:Hx, (tied q y) eqn:Hy; try reflexivity.
  exfalso. unfold tied, Spec.tied in Hx, Hy.
  apply andb_prop in Hx as [_ Hx], Hy as [Hy _].
  apply negb_true_iff in Hx, Hy.
  rewrite (geb_trans _ _ _ Hx Hy) in Hxy. discriminate.
Qed.

Lemma sort_desc_stable (q : K) (l : list (K * A)) :
  filter (tied q) (sort_desc ltb l) = filter (tied q) l.
Proof.
  induction l as [| x l IH]; simpl; [reflexivity |].
  rewrite insert_desc_stable, IH. reflexivity.
Qed.

End SortDesc.

Lemma Qltb_lt (a b : Q) : Qltb a b = true <-> (a < b)%Q.
Proof.
  unfold Qltb. rewrite negb_true_iff, <- not_true_iff_false, Qle_bool_iff.
  split; [apply Qnot_le_lt | apply Qlt_not_le].
Qed.

Lemma Qltb_ge (a b : Q) : Qltb a b = false <-> (b <= a)%Q.
Proof.
  unfold Qltb. now rewrite negb_false_iff, Qle_bool_iff.
Qed.

Lemma Qltb_asym (a b : Q) : Qltb a b = true -> Qltb b a = false.
Proof. rewrite Qltb_lt, Qltb_ge. apply Qlt_le_weak. Qed.

Lemma Qgeb_trans (a b c : Q) :
  Qltb a b = false -> Qltb b c = false -> Qltb a c = false.
Proof. rewrite !Qltb_ge. intros Hab Hbc. now apply Qle_trans with b. Qed.

Lemma tied_Qeq (A : Type) (q : Q) (x : Q * A) :
  Spec.tied Qltb q x = Qeq_bool (fst x) q.
Proof.
  unfold Spec.tied. apply eq_true_iff_eq.
  rewrite andb_true_iff, !negb_true_iff, !Qltb_ge, Qeq_bool_iff.
  split.
  - intros [H1 H2]. now apply Qle_antisym.
  - intros H. rewrite H. split; apply Qle_refl.
Qed.

(** ** sorted(data, key=certainty, reverse=True) *)

Section SortedByCertainty.
Import SearchAdvanced.
Context (rt : Runtime).

Let cert (r : json) : Q :=
  match Spec.certainty r with Some q => q | None => 0%Q end.
Let decorate (rs : list json) : list (Q * json) := map (fun r => (cert r, r)) rs.
Let keyed (p : Q * json) : Prop := Spec.certainty (snd p) = Some (fst p).

Lemma certainty_key_scored (r : json) :
  Spec.scored r = true ->
  exists k, certainty_key r = Ok k /\ as_number k = Some (cert r).
Proof.
  unfold Spec.scored, cert, Spec.certainty, Spec.part, certainty_key, get.
  destruct r as [| | | | | | d]; try discriminate. simpl bind.
  destruct (lookup "metadata" d) as [[| | | | | | m] |]; try discriminate.
  - destruct (lookup "certainty" m) as [v |].
    + destruct (as_number v) eqn:Hv; [| discriminate]. intros _. now exists v.
    + intros _. now exists (JInt 0).
  - simpl. intros _. now exists (JInt 0).
Qed.

Lemma keys_scored (rs : list json) :
  forallb Spec.scored rs = true ->
  exists ks,
    mapM (fun x => bind (certainty_key x) (fun k => Ok (k, x))) rs = Ok ks
    /\ keys_as as_number ks = Some (decorate rs).
Proof.
  induction rs as [| r rs IH]; simpl; [now exists [] |].
  intros H. apply andb_prop in H as [Hr Hrs].
  destruct (certainty_key_scored r Hr) as (k & Hk & Hn).
  destruct (IH Hrs) as (ks & Hks & Hd).
  exists ((k, r) :: ks). rewrite Hk. simpl. rewrite Hks. simpl.
  now rewrite Hn, Hd.
Qed.

Lemma decorate_keyed (rs : list json) :
  forallb Spec.scored rs = true -> Forall keyed (decorate rs).
Proof.
  intros H. apply Forall_map, Forall_forall. intros r Hr.
  rewrite forallb_forall in H. specialize (H r Hr).
  unfold keyed, cert, Spec.scored in *. simpl.
  now destruct (Spec.certainty r).
Qed.

Lemma sorted_keyed (l : list (Q * json)) :
  Forall keyed l ->
  StronglySorted (Spec.not_below Qltb) l ->
  StronglySorted Spec.certainty_at_least (map snd l).
Proof.
  intros Hk Hs. induction Hs as [| p l Hs IH Hp]; simpl; constructor.
  - apply IH. now inversion Hk.
  - inversion Hk as [| ? ? Hkp Hkl]; subst.
    apply Forall_map, Forall_forall. intros z Hz.
    rewrite Forall_forall in Hp, Hkl.
    specialize (Hp z Hz). specialize (Hkl z Hz).
    unfold Spec.certainty_at_least, keyed, Spec.not_below in *.
    rewrite Hkp, Hkl. now apply Qltb_ge.
Qed.

Lemma filter_keyed (q : Q) (l : list (Q * json)) :
  Forall keyed l ->
  filter (Spec.has_certainty q) (map snd l)
  = map snd (filter (Spec.tied Qltb q) l).
Proof.
  induction 1 as [| p l Hp _ IH]; simpl; [reflexivity |].
  rewrite tied_Qeq. unfold Spec.has_certainty at 1. rewrite Hp.
  destruct (Qeq_bool (fst p) q); simpl; now rewrite IH.
Qed.

Lemma sorted_by_certainty_stable (rs : list json) :
  forallb Spec.scored rs = true ->
  exists ordered,
    sorted_by_certainty rt (JList rs) = Ok ordered
    /\ Permutation rs ordered
    /\ StronglySorted Spec.certainty_at_least ordered
    /\ forall q, filter (Spec.has_certainty q) ordered
                 = filter (Spec.has_certainty q) rs.
Proof.
  intros Hrs.
  destruct (keys_scored rs Hrs) as (ks & Hks & Hd).
  pose proof (decorate_keyed rs Hrs) as Hkeyed.
  assert (Hperm : Permutation (sort_desc Qltb (decorate rs)) (decorate rs))
    by apply sort_desc_perm.
  assert (Hsk : Forall keyed (sort_desc Qltb (decorate rs))).
  { apply Forall_forall. intros p Hp.
    rewrite Forall_forall in Hkeyed. apply Hkeyed.
    now apply (Permutation_in _ Hperm). }
  assert (Hid : map snd (decorate rs) = rs).
  { unfold decorate. rewrite map_map. simpl. apply map_id. }
  exists (map snd (sort_desc Qltb (decorate rs))). split; [| split; [| split]].
  - unfold sorted_by_certainty. simpl iter. simpl bind at 1.
    rewrite Hks. simpl. unfold sorted_reverse. now rewrite Hd.
  - rewrite <- Hid at 1. apply Permutation_map. now symmetry.
  - apply sorted_keyed; [assumption |].
    apply sort_desc_sorted; [apply Qltb_asym | apply Qgeb_trans].
  - intros q. rewrite filter_keyed by assumption.
    rewrite sort_desc_stable by apply Qgeb_trans.
    rewrite <- filter_keyed by assumption. now rewrite Hid.
Qed.

Lemma sorted_by_certainty_keys (rs : list json) (ks : list (json * json)) :
  mapM (fun x => bind (certainty_key x) (fun k => Ok (k, x))) rs = Ok ks ->
  sorted_by_certainty rt (JList rs) = sorted_reverse rt ks.
Proof.
  intros H. unfold sorted_by_certainty. simpl iter. simpl bind at 1.
  now rewrite H.
Qed.

Lemma has_certainty_cert (q : Q) (r : json) :
  Spec.has_certainty q r = true -> Spec.scored r = true /\ (cert r == q)%Q.
Proof.
  unfold Spec.has_certainty, Spec.scored, cert.
  destruct (Spec.certainty r); [| discriminate].
  intros H. split; [reflexivity | now apply Qeq_bool_iff].
Qed.

(** Certainties 0.5, 0.9, 0.7 come out as 0.9, 0.7, 0.5. *)
Lemma sorted_by_certainty_three (a b c : json) :
  Spec.has_certainty (5 # 10) a = true ->
  Spec.has_certainty (9 # 10) b = true ->
  Spec.has_certainty (7 # 10) c = true ->
  sorted_by_certainty rt (JList [a; b; c]) = Ok [b; c; a].
Proof.
  intros Ha Hb Hc.
  apply has_certainty_cert in Ha as [Sa Ha], Hb as [Sb Hb], Hc as [Sc Hc].
  assert (Hrs : forallb Spec.scored [a; b; c] = true)
    by (simpl; now rewrite Sa, Sb, Sc).
  destruct (keys_scored [a; b; c] Hrs) as (ks & Hks & Hd).
  rewrite (sorted_by_certainty_keys _ _ Hks).
  unfold sorted_reverse. rewrite Hd.
  unfold decorate, sort_desc. simpl.
  assert (Hbc : Qltb (cert b) (cert c) = false)
    by (apply Qltb_ge; rewrite Hb, Hc; unfold Qle; simpl; lia).
  assert (Hab : Qltb (cert a) (cert b) = true)
    by (apply Qltb_lt; rewrite Ha, Hb; unfold Qlt; simpl; lia).
  assert (Hac : Qltb (cert a) (cert c) = true)
    by (apply Qltb_lt; rewrite Ha, Hc; unfold Qlt; simpl; lia).
  rewrite Hbc. simpl. rewrite Hab. simpl. rewrite Hac. reflexivity.
Qed.

End SortedByCertainty.

(** ** auth.py *)

(** Case analysis on the innermost scrutinee of the goal. *)
Ltac case_step :=
  match goal with
  | |- context [match ?x with _ => _ end] =>
      lazymatch x with
      | context [match _ with _ => _ end] => fail
      | _ => destruct x eqn:?
      end
  end.

Lemma lookup_store_same (k : string) (v : json) (d : dict) :
  lookup k (store k v d) = Some v.
Proof.
  induction d as [| [k' v'] d IH]; simpl.
  - now rewrite String.eqb_refl.
  - destruct (String.eqb_spec k k') as [-> | Hne]; simpl.
    + now rewrite String.eqb_refl.
    + apply String.eqb_neq in Hne. now rewrite Hne.
Qed.

Lemma lookup_store_other (k k' : string) (v : json) (d : dict) :
  k <> k' -> lookup k (store k' v d) = lookup k d.
Proof.
  intros Hne. induction d as [| [k0 v0] d IH]; simpl.
  - apply String.eqb_neq in Hne. now rewrite Hne.
  - destruct (String.eqb_spec k' k0) as [-> | Hne']; simpl.
    + apply String.eqb_neq in Hne. now rewrite Hne.
    + now rewrite IH.
Qed.

Section TokenManager.
Import Auth.
Context (rt : Runtime) (env : Env) (tm : TokenManager).

Lemma is_token_expired_none (w : World) :
  lookup "expires_at" (access_token_info w) = None ->
  is_token_expired env w = (Ok true, w).
Proof.
  intros H. unfold is_token_expired, bindM, read_cache. rewrite H.
  now rewrite orb_true_r.
Qed.

Lemma sub_int_number (e : json) (T : Q) (n : Z) :
  as_number e = Some T ->
  exists b q, sub_int e n = Ok b /\ as_number b = Some q
              /\ (q == T - inject_Z n)%Q.
Proof.
  destruct e as [| b | z | [q | negative |] | s | l | d]; simpl;
    try discriminate; intros [= <-];
    eexists _, _; (split; [reflexivity | split; [reflexivity |]]).
  - unfold Qeq; simpl; lia.
  - unfold Qeq; simpl; lia.
  - reflexivity.
Qed.

Lemma as_number_float (v : json) (q : Q) :
  as_number v = Some q -> as_float v = Some (Finite q).
Proof.
  destruct v as [| b | z | [q' | negative |] | s | l | d]; simpl;
    try discriminate; now intros [= <-].
Qed.

Lemma is_token_expired_some (w : World) (T : Q) :
  Spec.expiresAt (access_token_info w) = Some T ->
  exists b, is_token_expired env w = (Ok b, tick w)
            /\ (b = true <-> (T - 60 < clock env (ticks w))%Q).
Proof.
  unfold Spec.expiresAt. intros H.
  destruct (lookup "expires_at" (access_token_info w)) as [e |] eqn:He;
    [| discriminate].
  destruct (sub_int_number e T 60 H) as (b & q & Hb & Hq & Heq).
  exists (Qltb q (clock env (ticks w))). split.
  - unfold is_token_expired, bindM, read_cache, time_time, lift, item.
    rewrite He.
    destruct (access_token_info w) as [| kv d] eqn:Hinfo; [discriminate |].
    simpl. rewrite Hb. unfold float_gt. now rewrite (as_number_float _ _ Hq).
  - rewrite Qltb_lt. now rewrite Heq.
Qed.

Lemma get_access_token_sent (w w' : World) (r : Result json) :
  get_access_token rt env tm w = (r, w') ->
  sent w' = (sent w ++ [grant_request tm])%list.
Proof.
  unfold get_access_token, try_except, bindM, requests_post, lift, time_time,
    write_cache, ret, raise.
  repeat (case_step; simpl); intros [= <- <-]; reflexivity.
Qed.

End TokenManager.

Section EnsureValidToken.
Import Auth.
Context (rt : Runtime) (env : Env) (tm : TokenManager).

Lemma raise_for_status_raises (r : Response) (e : exn) :
  raise_for_status r = Raise e -> exists msg, e = RequestException msg (Some r).
Proof.
  unfold raise_for_status. repeat case_step; try discriminate;
    intros [= <-]; eauto.
Qed.

Lemma raise_for_status_ok (r : Response) :
  raise_for_status r = Ok tt <-> ~ (400 <= status_code r < 600).
Proof.
  unfold raise_for_status.
  destruct (Z.leb_spec 400 (status_code r)), (Z.ltb_spec (status_code r) 500),
    (Z.leb_spec 500 (status_code r)), (Z.ltb_spec (status_code r) 600);
    simpl; split; intros; try discriminate; try reflexivity; lia.
Qed.


Lemma ensure_valid_token_reuse (w w1 : World) :
  is_token_expired env w = (Ok false, w1) ->
  ensure_valid_token rt env tm w
  = (item (JDict (access_token_info w1)) "access_token", w1).
Proof.
  intros H. unfold ensure_valid_token, bindM. rewrite H. reflexivity.
Qed.

Lemma ensure_valid_token_renew (w w1 : World) :
  is_token_expired env w = (Ok true, w1) ->
  ensure_valid_token rt env tm w
  = match get_access_token rt env tm w1 with
    | (Ok _, w2) => (item (JDict (access_token_info w2)) "access_token", w2)
    | (Raise e, w2) => (Raise e, w2)
    end.
Proof.
  intros H. unfold ensure_valid_token, bindM. rewrite H.
  destruct (get_access_token rt env tm w1) as [[a | e] w2]; reflexivity.
Qed.

(** A stale cache makes [is_token_expired] answer yes, after at most one
    reading of the clock. *)
Lemma stale_expired (w : World) :
  Spec.stale env w ->
  exists w1, is_token_expired env w = (Ok true, w1)
             /\ (w1 = w \/ w1 = tick w).
Proof.
  intros [Hnone | (T & HT & Hlate)].
  - exists w. split; [now apply is_token_expired_none | now left].
  - destruct (is_token_expired_some env w T HT) as (b & Hb & Hiff).
    exists (tick w). split; [| now right].
    rewrite Hb. now rewrite (proj2 Hiff Hlate).
Qed.



End EnsureValidToken.



(** ** Failures of the token endpoint *)

Section TokenFailures.
Import Auth.
Context (rt : Runtime) (env : Env) (tm : TokenManager).

Lemma int_add_number (z : Z) (v : json) :
  is_number v = true -> exists e, int_add z v = Ok e.
Proof.
  destruct v as [| b | n | [q | negative |] | s | l | d]; simpl;
    try discriminate; eauto.
Qed.

Lemma int_add_other (z : Z) (v : json) :
  is_number v = false -> int_add z v = Raise TypeError.
Proof.
  destruct v as [| b | n | [q | negative |] | s | l | d]; simpl;
    try discriminate; reflexivity.
Qed.

Lemma ensure_valid_token_stale_run (w : World) :
  Spec.stale env w ->
  exists w1,
    List.length (sent w1) = List.length (sent w)
    /\ ensure_valid_token rt env tm w
       = match get_access_token rt env tm w1 with
         | (Ok _, w2) => (item (JDict (access_token_info w2)) "access_token", w2)
         | (Raise e, w2) => (Raise e, w2)
         end.
Proof.
  intros Hstale. destruct (stale_expired env w Hstale) as (w1 & Hexp & Hw1).
  exists w1. split; [destruct Hw1 as [-> | ->]; reflexivity |].
  now apply ensure_valid_token_renew.
Qed.

(** C7, as amended.  When the token endpoint is asked, a transport
    failure, a 4xx or 5xx status and an undecodable body all surface as
    the exception "Failed to obtain access token: ..."; a decoded body
    that is no object, or whose [expires_in] is no number, surfaces as a
    bare TypeError; a decoded object that lacks [expires_in], or has a
    numeric [expires_in] and lacks [access_token], surfaces as the
    KeyError of the missing field; the access token is returned when the
    reply is an object with a numeric [expires_in] and an
    [access_token], and only then. *)
Theorem ensure_valid_token_failures (w : World) :
  Spec.stale env w ->
  let outcome := server env (List.length (sent w)) (grant_request tm) in
  let result := fst (ensure_valid_token rt env tm w) in
  (forall msg response, outcome = Failed msg response ->
     result = Raise (Exception ("Failed to obtain access token: " ++ msg))) /\
  (forall resp, outcome = Replied resp -> 400 <= status_code resp < 600 ->
     Spec.auth_failure result) /\
  (forall resp why, outcome = Replied resp ->
     ~ (400 <= status_code resp < 600) -> decoded resp = Undecodable why ->
     result = Raise (Exception ("Failed to obtain access token: " ++ why))) /\
  (forall resp v, outcome = Replied resp ->
     ~ (400 <= status_code resp < 600) -> decoded resp = Parsed v ->
     (forall body, v <> JDict body) ->
     result = Raise TypeError) /\
  (forall resp body, outcome = Replied resp ->
     ~ (400 <= status_code resp < 600) -> decoded resp = Parsed (JDict body) ->
     (lookup "expires_in" body = None ->
        result = Raise (KeyError (JStr "expires_in"))) /\
     (forall v, lookup "expires_in" body = Some v -> is_number v = false ->
        result = Raise TypeError) /\
     (forall v, lookup "expires_in" body = Some v -> is_number v = true ->
        lookup "access_token" body = None ->
        result = Raise (KeyError (JStr "access_token"))) /\
     (forall v tok, lookup "expires_in" body = Some v -> is_number v = true ->
        lookup "access_token" body = Some tok ->
        result = Ok tok)) /\
  (forall tok, result = Ok tok ->
     exists resp body v,
       outcome = Replied resp /\ ~ (400 <= status_code resp < 600)
       /\ decoded resp = Parsed (JDict body)
       /\ lookup "expires_in" body = Some v /\ is_number v = true
       /\ lookup "access_token" body = Some tok).
Proof.
  intros Hstale outcome result.
  assert (Hcases :
    (forall msg response, outcome = Failed msg response ->
       result = Raise (Exception ("Failed to obtain access token: " ++ msg))) /\
    (forall resp, outcome = Replied resp -> 400 <= status_code resp < 600 ->
       Spec.auth_failure result) /\
    (forall resp why, outcome = Replied resp ->
       ~ (400 <= status_code resp < 600) -> decoded resp = Undecodable why ->
       result = Raise (Exception ("Failed to obtain access token: " ++ why))) /\
    (forall resp v, outcome = Replied resp ->
       ~ (400 <= status_code resp < 600) -> decoded resp = Parsed v ->
       (forall body, v <> JDict body) ->
       result = Raise TypeError) /\
    (forall resp body, outcome = Replied resp ->
       ~ (400 <= status_code resp < 600) -> decoded resp = Parsed (JDict body) ->
       (lookup "expires_in" body = None ->
          result = Raise (KeyError (JStr "expires_in"))) /\
       (forall v, lookup "expires_in" body = Some v -> is_number v = false ->
          result = Raise TypeError) /\
       (forall v, lookup "expires_in" body = Some v -> is_number v = true ->
          lookup "access_token" body = None ->
          result = Raise (KeyError (JStr "access_token"))) /\
       (forall v tok, lookup "expires_in" body = Some v -> is_number v = true ->
          lookup "access_token" body = Some tok ->
          result = Ok tok))).
  { subst outcome result.
    destruct (ensure_valid_token_stale_run w Hstale) as (w1 & Hlen & Hrun).
    rewrite Hrun, <- Hlen. clear Hrun Hlen Hstale.
    unfold get_access_token, try_except, bindM, requests_post, lift, time_time,
      write_cache, ret, raise, response_json.
    split; [| split; [| split; [| split]]].
    - intros msg response ->. reflexivity.
    - intros resp -> Hst.
      destruct (raise_for_status resp) as [[] | e] eqn:Hr.
      + apply raise_for_status_ok in Hr. contradiction.
      + destruct (raise_for_status_raises _ _ Hr) as (msg & ->). simpl.
        now exists msg.
    - intros resp why -> Hst Hd. apply raise_for_status_ok in Hst.
      rewrite Hst, Hd. reflexivity.
    - intros resp v -> Hst Hd Hv. apply raise_for_status_ok in Hst.
      rewrite Hst, Hd. simpl.
      destruct v as [| b | z | x | s | l | d]; try reflexivity.
      now destruct (Hv d).
    - intros resp body -> Hst Hd. apply raise_for_status_ok in Hst.
      rewrite Hst, Hd. simpl. split; [| split; [| split]].
      + intros ->. reflexivity.
      + intros v -> Hv.
        now rewrite (int_add_other (trunc (clock env (ticks w1))) v Hv).
      + intros v -> Hv Htok.
        destruct (int_add_number (trunc (clock env (ticks w1))) v Hv) as (e & ->).
        simpl. rewrite lookup_store_other by discriminate. now rewrite Htok.
      + intros v tok -> Hv Htok.
        destruct (int_add_number (trunc (clock env (ticks w1))) v Hv) as (e & ->).
        simpl. rewrite lookup_store_other by discriminate. now rewrite Htok. }
  destruct Hcases as (Hfailed & Hstatus & Hbody & Hshape & Hfields).
  repeat (split; [assumption |]).
  intros tok Hok.
  destruct outcome as [resp | msg response] eqn:Hout;
    [| rewrite (Hfailed msg response eq_refl) in Hok; discriminate].
  destruct (raise_for_status resp) as [[] | e] eqn:Hr.
  - apply raise_for_status_ok in Hr.
    destruct (decoded resp) as [v | why] eqn:Hd;
      [| rewrite (Hbody resp why eq_refl Hr Hd) in Hok; discriminate].
    destruct v as [| b | z | x | s | l | body];
      try (rewrite (Hshape resp _ eq_refl Hr Hd) in Hok;
           [discriminate | intros body'; discriminate]).
    destruct (Hfields resp body eq_refl Hr Hd) as (Hnone & Hother & Hno & Hyes).
    destruct (lookup "expires_in" body) as [v |] eqn:Hv;
      [| rewrite (Hnone eq_refl) in Hok; discriminate].
    destruct (is_number v) eqn:Hnum;
      [| rewrite (Hother v eq_refl Hnum) in Hok; discriminate].
    destruct (lookup "access_token" body) as [tok' |] eqn:Htok;
      [| rewrite (Hno v eq_refl Hnum eq_refl) in Hok; discriminate].
    rewrite (Hyes v tok' eq_refl Hnum eq_refl) in Hok. injection Hok as <-.
    now exists resp, body, v.
  - assert (Hrange : 400 <= status_code resp < 600).
    { destruct (Z_le_dec 400 (status_code resp));
        destruct (Z_lt_dec (status_code resp) 600); try lia;
        assert (Hno : ~ (400 <= status_code resp < 600)) by lia;
        apply raise_for_status_ok in Hno; congruence. }
    destruct (Hstatus resp eq_refl Hrange) as (why & Hwhy).
    rewrite Hwhy in Hok. discriminate.
Qed.

End TokenFailures.

Lemma ensure_valid_token_failures_witness :
  fst (Auth.ensure_valid_token Sample.runtime Sample.no_expires_in
         Sample.token_manager Auth.initial_world)
  = Raise (KeyError (JStr "expires_in")).
Proof.
  destruct (ensure_valid_token_failures Sample.runtime Sample.no_expires_in
              Sample.token_manager Auth.initial_world (or_introl eq_refl))
    as (_ & _ & _ & _ & H & _).
  destruct (H (mkResponse 200 "" "" "" (Parsed (JDict [("access_token", JStr "t")])))
              [("access_token", JStr "t")] eq_refl) as (Hmissing & _).
  - simpl. lia.
  - reflexivity.
  - apply Hmissing. reflexivity.
Defined.

(** C7 as stated fails: a 200 reply without [expires_in] surfaces as a
    KeyError, not as the failure the token manager raises. *)
Lemma ensure_valid_token_key_error :
  fst (Auth.ensure_valid_token Sample.runtime Sample.no_expires_in
         Sample.token_manager Auth.initial_world)
  = Raise (KeyError (JStr "expires_in"))
  /\ ~ Spec.auth_failure
         (fst (Auth.ensure_valid_token Sample.runtime Sample.no_expires_in
                 Sample.token_manager Auth.initial_world)).
Proof.
  split; [reflexivity |]. intros (why & H). discriminate H.
Qed.

(** ** Running the steps *)

Lemma bindM_ok {A B} (m : M A) (k : A -> M B) (w w1 : World) (a : A) :
  m w = (Ok a, w1) -> bindM m k w = k a w1.
Proof. unfold bindM. now intros ->. Qed.

Lemma bindM_raise {A B} (m : M A) (k : A -> M B) (w w1 : World) (e : exn) :
  m w = (Raise e, w1) -> bindM m k w = (Raise e, w1).
Proof. unfold bindM. now intros ->. Qed.

Lemma try_except_ok {A} (m : M A) caught handler (w w1 : World) (a : A) :
  m w = (Ok a, w1) -> try_except m caught handler w = (Ok a, w1).
Proof. unfold try_except. now intros ->. Qed.

Lemma try_except_caught {A} (m : M A) caught handler (w w1 : World) (e : exn) :
  m w = (Raise e, w1) -> caught e = true ->
  try_except m caught handler w = handler e w1.
Proof. unfold try_except. now intros -> ->. Qed.

Lemma store_lookup (k : string) (v : json) (d : dict) :
  lookup k d = Some v -> store k v d = d.
Proof.
  induction d as [| [k' v'] d IH]; simpl; [discriminate |].
  destruct (String.eqb_spec k k') as [-> | Hne].
  - now intros [= ->].
  - intros H. now rewrite IH.
Qed.

Section Steps.
Import Auth SearchAdvanced.
Context (rt : Runtime) (env : Env) (cfg : Config.Settings) (tm : TokenManager).

Lemma is_token_expired_frame (w w1 : World) (r : Result bool) :
  is_token_expired env w = (r, w1) -> w1 = w \/ w1 = tick w.
Proof.
  unfold is_token_expired, bindM, read_cache, time_time, lift, ret.
  repeat (case_step; simpl); intros [= <- <-]; auto.
Qed.

(** A call of [ensure_valid_token] sends nothing or the grant request. *)
Lemma ensure_valid_token_sent (w w' : World) (r : Result json) :
  ensure_valid_token rt env tm w = (r, w') ->
  exists grant, sent w' = (sent w ++ grant)%list
                /\ (grant = [] \/ grant = [grant_request tm]).
Proof.
  intros Hrun. apply (f_equal snd) in Hrun. simpl in Hrun. subst w'.
  destruct (is_token_expired env w) as [[b | e] w1] eqn:Hexp;
    pose proof (is_token_expired_frame _ _ _ Hexp) as Hframe.
  - destruct b.
    + rewrite (ensure_valid_token_renew rt env tm w w1 Hexp).
      exists [grant_request tm]. split; [| now right].
      destruct (get_access_token rt env tm w1) as [[a | e] w2] eqn:Hget;
        apply get_access_token_sent in Hget; simpl; rewrite Hget;
        destruct Hframe as [-> | ->]; reflexivity.
    + rewrite (ensure_valid_token_reuse rt env tm w w1 Hexp).
      exists []. split; [| now left]. simpl. rewrite app_nil_r.
      destruct Hframe as [-> | ->]; reflexivity.
  - unfold ensure_valid_token. rewrite (bindM_raise _ _ _ _ _ Hexp).
    exists []. split; [| now left]. simpl. rewrite app_nil_r.
    destruct Hframe as [-> | ->]; reflexivity.
Qed.

(** [ensure_valid_token] ends in an exception of the [Exception] family. *)
Lemma ensure_valid_token_raises (w w' : World) (e : exn) :
  ensure_valid_token rt env tm w = (Raise e, w') -> is_Exception e = true.
Proof.
  unfold ensure_valid_token, is_token_expired, get_access_token, try_except,
    bindM, read_cache, time_time, requests_post, write_cache, lift, ret, raise,
    raise_for_status, response_json, item, sub_int, int_add, float_gt, setitem.
  repeat (case_step; simpl); intros [= <- <-]; try reflexivity;
    try discriminate.
Qed.

Lemma search_no_token (query : json) (limit : Z) (sort_by : string)
  (w w1 : World) (e : exn) :
  ensure_valid_token rt env tm w = (Raise e, w1) ->
  search rt env cfg tm query limit sort_by w = (Raise e, w1).
Proof. intros H. unfold search. now apply bindM_raise. Qed.

(** With a token, [search] sends the one search request, whatever comes
    of it. *)
Lemma search_sent (query : json) (limit : Z) (sort_by : string)
  (w w1 w' : World) (token : json) (r : Result json) :
  ensure_valid_token rt env tm w = (Ok token, w1) ->
  search rt env cfg tm query limit sort_by w = (r, w') ->
  sent w' = (sent w1 ++ [search_request rt cfg token query limit])%list.
Proof.
  intros H. unfold search. rewrite (bindM_ok _ _ _ _ _ H).
  unfold try_except, bindM, requests_post, lift, ret, raise, print.
  repeat (case_step; simpl); intros [= <- <-]; reflexivity.
Qed.

Lemma search_relevance (query : json) (limit : Z)
  (w w1 : World) (token : json) (resp : Response) (results : json) :
  ensure_valid_token rt env tm w = (Ok token, w1) ->
  server env (List.length (sent w1)) (search_request rt cfg token query limit)
  = Replied resp ->
  raise_for_status resp = Ok tt ->
  decoded resp = Parsed results ->
  search rt env cfg tm query limit "relevance" w
  = (Ok results, record (search_request rt cfg token query limit) w1).
Proof.
  intros H Hs Hst Hd. unfold search. rewrite (bindM_ok _ _ _ _ _ H).
  unfold try_except, bindM, requests_post, lift, ret, response_json.
  rewrite Hs, Hst, Hd. reflexivity.
Qed.

Lemma search_certainty (query : json) (limit : Z)
  (w w1 : World) (token : json) (resp : Response) (d : dict)
  (rs ordered : list json) :
  ensure_valid_token rt env tm w = (Ok token, w1) ->
  server env (List.length (sent w1)) (search_request rt cfg token query limit)
  = Replied resp ->
  raise_for_status resp = Ok tt ->
  decoded resp = Parsed (JDict d) ->
  lookup "data" d = Some (JList rs) ->
  sorted_by_certainty rt (JList rs) = Ok ordered ->
  search rt env cfg tm query limit "certainty" w
  = (Ok (JDict (store "data" (JList ordered) d)),
     record (search_request rt cfg token query limit) w1).
Proof.
  intros H Hs Hst Hd Hdata Hsort. unfold search. rewrite (bindM_ok _ _ _ _ _ H).
  unfold try_except, bindM, requests_post, lift, ret, response_json, get, item.
  rewrite Hs, Hst, Hd. simpl. rewrite Hdata.
  destruct rs as [| r rs'] eqn:Ers.
  - simpl. simpl in Hsort. injection Hsort as <-.
    now rewrite (store_lookup _ _ _ Hdata).
  - rewrite <- Ers in *.
    replace (truthy (JList rs)) with true by (rewrite Ers; reflexivity).
    rewrite Hsort. reflexivity.
Qed.

End Steps.

(** ** AdvancedSearchClient.search *)

Section SearchOrder.
Import Auth SearchAdvanced.
Context (rt : Runtime) (env : Env) (cfg : Config.Settings) (tm : TokenManager).

(** C6: a search that succeeds returns the reply as the server ordered it
    by default; under the certainty sort its [data] is the same results
    rearranged into descending certainty, results of equal certainty in
    the order they had; certainties 0.5, 0.9, 0.7 come out as 0.9, 0.7,
    0.5 and stay as they are by default. *)
Theorem search_sort_order (query : json) (limit : Z) (w w1 : World)
  (token : json) (resp : Response) (d : dict) (rs : list json) :
  ensure_valid_token rt env tm w = (Ok token, w1) ->
  server env (List.length (sent w1)) (search_request rt cfg token query limit)
  = Replied resp ->
  ~ (400 <= status_code resp < 600) ->
  decoded resp = Parsed (JDict d) ->
  lookup "data" d = Some (JList rs) ->
  fst (search rt env cfg tm query limit "relevance" w) = Ok (JDict d) /\
  (forallb Spec.scored rs = true ->
   exists ordered,
     fst (search rt env cfg tm query limit "certainty" w)
     = Ok (JDict (store "data" (JList ordered) d))
     /\ Permutation rs ordered
     /\ StronglySorted Spec.certainty_at_least ordered
     /\ forall q, filter (Spec.has_certainty q) ordered
                  = filter (Spec.has_certainty q) rs) /\
  (forall a b c,
     rs = [a; b; c] ->
     Spec.has_certainty (5 # 10) a = true ->
     Spec.has_certainty (9 # 10) b = true ->
     Spec.has_certainty (7 # 10) c = true ->
     fst (search rt env cfg tm query limit "certainty" w)
     = Ok (JDict (store "data" (JList [b; c; a]) d))).
Proof.
  intros Htok Hs Hst Hd Hdata. apply raise_for_status_ok in Hst.
  split; [| split].
  - now rewrite (search_relevance rt env cfg tm query limit w w1 token resp
                   (JDict d) Htok Hs Hst Hd).
  - intros Hrs.
    destruct (sorted_by_certainty_stable rt rs Hrs)
      as (ordered & Hsort & Hperm & Hsorted & Hstable).
    exists ordered. split; [| now repeat split].
    now rewrite (search_certainty rt env cfg tm query limit w w1 token resp d
                   rs ordered Htok Hs Hst Hd Hdata Hsort).
  - intros a b c -> Ha Hb Hc.
    now rewrite (search_certainty rt env cfg tm query limit w w1 token resp d
                   [a; b; c] [b; c; a] Htok Hs Hst Hd Hdata
                   (sorted_by_certainty_three rt a b c Ha Hb Hc)).
Qed.

End SearchOrder.

Lemma search_sort_order_witness :
  fst (SearchAdvanced.search Sample.runtime Sample.all_up Sample.settings
         Sample.token_manager (JStr "What is X?") 10 "relevance"
         Auth.initial_world)
  = Ok (JDict [("data", JList Sample.three_results)]).
Proof.
  apply (search_sort_order Sample.runtime Sample.all_up Sample.settings
           Sample.token_manager (JStr "What is X?") 10 Auth.initial_world
           (snd (Auth.ensure_valid_token Sample.runtime Sample.all_up
                   Sample.token_manager Auth.initial_world))
           (JStr "t")
           (mkResponse 200 "" "" ""
              (Parsed (JDict [("data", JList Sample.three_results)])))
           [("data", JList Sample.three_results)] Sample.three_results);
    try reflexivity.
  simpl. lia.
Defined.

(** ** RAGHelper.generate_with_context *)

Section Generate.
Import Auth SearchAdvanced.
Context (rt : Runtime) (env : Env) (cfg : Config.Settings) (tm : TokenManager).

Lemma generate_no_token (query : json) (context : string) (sp : json)
  (w w1 : World) (e : exn) :
  ensure_valid_token rt env tm w = (Raise e, w1) ->
  generate_with_context rt env cfg tm query context sp w = (Raise e, w1).
Proof. intros H. unfold generate_with_context. now apply bindM_raise. Qed.

Lemma generate_sent (query : json) (context : string) (sp : json)
  (w w1 w' : World) (token : json) (r : Result json) :
  ensure_valid_token rt env tm w = (Ok token, w1) ->
  generate_with_context rt env cfg tm query context sp w = (r, w') ->
  sent w' = (sent w1 ++ [completion_request rt cfg token query context sp])%list.
Proof.
  intros H. unfold generate_with_context. rewrite (bindM_ok _ _ _ _ _ H).
  unfold try_except, bindM, requests_post, lift, ret, raise, print.
  repeat (case_step; simpl); intros [= <- <-]; reflexivity.
Qed.

Lemma messages_shape (query : json) (context : string) (sp : json) :
  messages rt query context sp
  = JList [Spec.system_message
             (if truthy sp then sp else JStr default_system_prompt);
           Spec.user_message context (Py.str rt query)].
Proof.
  unfold messages, Spec.system_message, Spec.user_message, nl.
  destruct (truthy sp); simpl; rewrite ?append_assoc; reflexivity.
Qed.

Lemma generate_trace (query : json) (context : string) (sp : json)
  (w w' : World) (r : Result json) :
  generate_with_context rt env cfg tm query context sp w = (r, w') ->
  exists grant calls,
    sent w' = (sent w ++ grant ++ calls)%list
    /\ (grant = [] \/ grant = [grant_request tm])
    /\ (calls = []
        \/ exists token,
             calls = [completion_request rt cfg token query context sp]).
Proof.
  intros Hrun.
  destruct (ensure_valid_token rt env tm w) as [[token | e] w1] eqn:Htok;
    destruct (ensure_valid_token_sent rt env tm _ _ _ Htok)
      as (grant & Hgrant & Hshape);
    exists grant.
  - exists [completion_request rt cfg token query context sp].
    split; [| split; [assumption | right; now exists token]].
    rewrite (generate_sent _ _ _ _ _ _ _ _ Htok Hrun), Hgrant.
    now rewrite app_assoc.
  - exists []. split; [| split; [assumption | now left]].
    rewrite (generate_no_token _ _ _ _ _ _ Htok) in Hrun.
    injection Hrun as _ <-. now rewrite app_nil_r.
Qed.

Lemma generate_raises (query : json) (context : string) (sp : json)
  (w w' : World) (e : exn) :
  generate_with_context rt env cfg tm query context sp w = (Raise e, w') ->
  is_Exception e = true.
Proof.
  destruct (ensure_valid_token rt env tm w) as [[token | e0] w1] eqn:Htok.
  - unfold generate_with_context. rewrite (bindM_ok _ _ _ _ _ Htok).
    unfold try_except, bindM, requests_post, lift, ret, raise, print,
      raise_for_status, response_json, bind, get, item0.
    repeat (case_step; simpl); intros [= <- <-]; try reflexivity;
      try discriminate.
  - rewrite (generate_no_token _ _ _ _ _ _ Htok). intros [= <- <-].
    now apply ensure_valid_token_raises in Htok.
Qed.

(** C9, as amended: a generation call sends one request to the
    completion endpoint, after the grant request when the token had to be
    renewed, and its body holds exactly two messages: the system message,
    whose content is the caller's prompt when that is truthy and
    otherwise (no prompt, None, or an empty one) the fixed default "You
    are a helpful assistant. Answer the user's question based on the
    provided context. If the context doesn't contain relevant
    information, say so honestly."; then the user message
    "Context:\n<context>\n\nQuestion: <query>". *)
Theorem generate_with_context_messages (query : json) (context : string)
  (system_prompt : json) (w : World) :
  let default :=
    JStr ("You are a helpful assistant. Answer the user's question based on "
          ++ "the provided context. If the context doesn't contain relevant "
          ++ "information, say so honestly.") in
  (forall r w',
     generate_with_context rt env cfg tm query context system_prompt w = (r, w') ->
     exists grant calls,
       sent w' = (sent w ++ grant ++ calls)%list
       /\ (grant = [] \/ grant = [grant_request tm])
       /\ (calls = []
           \/ exists token,
                calls = [completion_request rt cfg token query context
                           system_prompt])) /\
  (forall token w1 r w',
     ensure_valid_token rt env tm w = (Ok token, w1) ->
     generate_with_context rt env cfg tm query context system_prompt w = (r, w') ->
     sent w' = (sent w1 ++ [completion_request rt cfg token query context
                              system_prompt])%list) /\
  (forall token,
     url (completion_request rt cfg token query context system_prompt)
     = Config.COMPLETIONS_URL
     /\ exists body,
          payload (completion_request rt cfg token query context system_prompt)
          = Json body
          /\ item body "messages"
             = Ok (JList [Spec.system_message
                            (if truthy system_prompt then system_prompt
                             else default);
                          Spec.user_message context (Py.str rt query)])) /\
  (system_prompt = JNull ->
     messages rt query context system_prompt
     = JList [Spec.system_message default;
              Spec.user_message context (Py.str rt query)]) /\
  (truthy system_prompt = false ->
     messages rt query context system_prompt
     = JList [Spec.system_message default;
              Spec.user_message context (Py.str rt query)]) /\
  (truthy system_prompt = true ->
     messages rt query context system_prompt
     = JList [Spec.system_message system_prompt;
              Spec.user_message context (Py.str rt query)]).
Proof.
  cbv zeta.
  change (JStr ("You are a helpful assistant. Answer the user's question based on "
                ++ "the provided context. If the context doesn't contain relevant "
                ++ "information, say so honestly."))
    with (JStr default_system_prompt).
  split; [| split; [| split; [| split; [| split]]]].
  - intros r w' Hrun. now apply generate_trace with r.
  - intros token w1 r w' Htok Hrun. now apply generate_sent with w r.
  - intros token. split; [reflexivity |].
    eexists. split; [reflexivity |]. simpl. now rewrite messages_shape.
  - intros ->. now rewrite messages_shape.
  - intros H. now rewrite messages_shape, H.
  - intros H. now rewrite messages_shape, H.
Qed.

End Generate.

Lemma generate_with_context_messages_witness :
  SearchAdvanced.messages Sample.runtime (JStr "What is X?") "ctx" JNull
  = JList [Spec.system_message
             (JStr ("You are a helpful assistant. Answer the user's question "
                    ++ "based on the provided context. If the context doesn't "
                    ++ "contain relevant information, say so honestly."));
           Spec.user_message "ctx" "What is X?"]
  /\ SearchAdvanced.messages Sample.runtime (JStr "What is X?") "ctx"
       (JStr "Be brief.")
     = JList [Spec.system_message (JStr "Be brief.");
              Spec.user_message "ctx" "What is X?"]
  /\ exists w',
       sent w' = (sent (snd (Auth.ensure_valid_token Sample.runtime Sample.all_up
                               Sample.token_manager Auth.initial_world))
                  ++ [SearchAdvanced.completion_request Sample.runtime
                        Sample.settings (JStr "t") (JStr "What is X?") "ctx"
                        JNull])%list.
Proof.
  split; [| split].
  - apply (generate_with_context_messages Sample.runtime Sample.all_up
             Sample.settings Sample.token_manager (JStr "What is X?") "ctx"
             JNull Auth.initial_world). reflexivity.
  - apply (generate_with_context_messages Sample.runtime Sample.all_up
             Sample.settings Sample.token_manager (JStr "What is X?") "ctx"
             (JStr "Be brief.") Auth.initial_world). reflexivity.
  - eexists.
    apply (proj1 (proj2 (generate_with_context_messages Sample.runtime
                           Sample.all_up Sample.settings Sample.token_manager
                           (JStr "What is X?") "ctx" JNull Auth.initial_world))
             (JStr "t") _
             (fst (SearchAdvanced.generate_with_context Sample.runtime
                     Sample.all_up Sample.settings Sample.token_manager
                     (JStr "What is X?") "ctx" JNull Auth.initial_world)));
      reflexivity.
Defined.

(** C9 as stated fails on a prompt that is supplied but empty: the system
    message then holds the default, not the caller's prompt; and the
    default asks for an answer based on the context, the word "only" is
    not in it. *)
Lemma generate_with_context_empty_prompt :
  SearchAdvanced.messages Sample.runtime (JStr "What is X?") "ctx" (JStr "")
  = JList [Spec.system_message
             (JStr ("You are a helpful assistant. Answer the user's question "
                    ++ "based on the provided context. If the context doesn't "
                    ++ "contain relevant information, say so honestly."));
           Spec.user_message "ctx" "What is X?"]
  /\ SearchAdvanced.messages Sample.runtime (JStr "What is X?") "ctx" (JStr "")
     <> JList [Spec.system_message (JStr "");
               Spec.user_message "ctx" "What is X?"]
  /\ String.index 0 "only" SearchAdvanced.default_system_prompt = None
  /\ String.index 0 "based on the provided context"
       SearchAdvanced.default_system_prompt = Some 56%nat.
Proof.
  split; [reflexivity |]. split; [discriminate |]. split; reflexivity.
Qed.

(** ** The pipeline: api_rag and rag_search *)

Section Pipeline.
Import Auth SearchAdvanced.
Context (rt : Runtime) (env : Env) (cfg : Config.Settings).

Let tm : TokenManager := Server.token_manager cfg.

Lemma search_trace (query : json) (limit : Z) (sort_by : string)
  (w w' : World) (r : Result json) :
  search rt env cfg tm query limit sort_by w = (r, w') ->
  exists grant calls,
    sent w' = (sent w ++ grant ++ calls)%list
    /\ (grant = [] \/ grant = [grant_request tm])
    /\ (calls = []
        \/ exists token, calls = [search_request rt cfg token query limit]).
Proof.
  intros Hrun.
  destruct (ensure_valid_token rt env tm w) as [[token | e] w1] eqn:Htok;
    destruct (ensure_valid_token_sent rt env tm _ _ _ Htok)
      as (grant & Hgrant & Hshape);
    exists grant.
  - exists [search_request rt cfg token query limit].
    split; [| split; [assumption | right; now exists token]].
    rewrite (search_sent _ _ _ _ _ _ _ _ _ _ _ _ Htok Hrun), Hgrant.
    now rewrite app_assoc.
  - exists []. split; [| split; [assumption | now left]].
    rewrite (search_no_token _ _ _ _ _ _ _ _ _ _ Htok) in Hrun.
    injection Hrun as _ <-. now rewrite app_nil_r.
Qed.

Lemma search_relevance_raises (query : json) (limit : Z) (w w' : World)
  (e : exn) :
  search rt env cfg tm query limit "relevance" w = (Raise e, w') ->
  is_Exception e = true.
Proof.
  destruct (ensure_valid_token rt env tm w) as [[token | e0] w1] eqn:Htok.
  - unfold search. rewrite (bindM_ok _ _ _ _ _ Htok).
    unfold try_except, bindM, requests_post, lift, ret, raise, print,
      raise_for_status, response_json.
    repeat (case_step; simpl); intros [= <- <-]; try reflexivity;
      try discriminate.
  - rewrite (search_no_token _ _ _ _ _ _ _ _ _ _ Htok). intros [= <- <-].
    now apply ensure_valid_token_raises in Htok.
Qed.

Lemma search_no_generation (query : json) (limit : Z) (sort_by : string)
  (w w' : World) (r : Result json) :
  search rt env cfg tm query limit sort_by w = (r, w') ->
  Spec.generation_requests (sent w') = Spec.generation_requests (sent w)
  /\ exists delta, sent w' = (sent w ++ delta)%list
                   /\ (List.length (Spec.search_requests delta) <= 1)%nat.
Proof.
  intros Hrun.
  destruct (search_trace _ _ _ _ _ _ Hrun) as (grant & calls & Hsent & Hg & Hc).
  rewrite Hsent. unfold Spec.generation_requests, Spec.search_requests.
  split.
  - rewrite !filter_app.
    destruct Hg as [-> | ->], Hc as [-> | (token & ->)]; simpl;
      now rewrite ?app_nil_r.
  - exists (grant ++ calls)%list. split; [reflexivity |].
    rewrite filter_app, length_app.
    destruct Hg as [-> | ->], Hc as [-> | (token & ->)]; simpl; lia.
Qed.

Lemma extract_one_raises (mc : Z) (r : json) (e : exn) :
  extract_one mc r = Raise e -> is_Exception e = true.
Proof.
  unfold extract_one, bind, get, slice.
  repeat (case_step; simpl); intros [= <-]; reflexivity.
Qed.

Lemma mapM_raises {A B} (f : A -> Result B) (l : list A) (e : exn) :
  (forall x e', f x = Raise e' -> is_Exception e' = true) ->
  mapM f l = Raise e -> is_Exception e = true.
Proof.
  intros Hf. induction l as [| x l IH]; simpl; [discriminate |].
  destruct (f x) as [y | e'] eqn:Hx; simpl.
  - destruct (mapM f l) as [ys | e'']; simpl; [discriminate |].
    intros [= <-]. now apply IH.
  - intros [= <-]. now apply Hf with x.
Qed.

Lemma extract_snippets_raises (results : json) (ms mc : Z) (e : exn) :
  extract_snippets results ms mc = Raise e -> is_Exception e = true.
Proof.
  unfold extract_snippets, bind, get, item, slice, iter.
  repeat (case_step; simpl); try (intros [= <-]; reflexivity);
    try discriminate; apply mapM_raises; apply extract_one_raises.
Qed.

(** *** The steps of the RAG route *)

Lemma rag_steps_search_failed (query : json) (limit : Z) (sp : json)
  (w w1 : World) (e : exn) :
  search rt env cfg tm query limit "relevance" w = (Raise e, w1) ->
  Server.rag_steps rt env cfg query limit sp w = (Raise e, w1).
Proof. intros H. unfold Server.rag_steps. now apply bindM_raise. Qed.

Lemma rag_steps_no_results (query : json) (limit : Z) (sp : json)
  (w w1 : World) (results data : json) :
  search rt env cfg tm query limit "relevance" w = (Ok results, w1) ->
  get results "data" JNull = Ok data ->
  truthy data = false ->
  Server.rag_steps rt env cfg query limit sp w = (Ok Spec.no_content_answer, w1).
Proof.
  intros H Hd Ht. unfold Server.rag_steps. rewrite (bindM_ok _ _ _ _ _ H).
  unfold bindM, lift, ret. now rewrite Hd, Ht.
Qed.

Lemma rag_steps_results (query : json) (limit : Z) (sp : json)
  (w w1 : World) (results data : json) :
  search rt env cfg tm query limit "relevance" w = (Ok results, w1) ->
  get results "data" JNull = Ok data ->
  truthy data = true ->
  Server.rag_steps rt env cfg query limit sp w
  = match extract_snippets results
            (Z.min limit (Config.RAG_CONTEXT_MAX_SNIPPETS cfg))
            (Config.RAG_CONTEXT_MAX_CHARS_PER_SNIPPET cfg) with
    | Ok snippets =>
        match generate_with_context rt env cfg tm query
                (format_context_for_llm rt snippets) sp w1 with
        | (Ok generated, w2) => (Ok (Spec.answer generated snippets), w2)
        | (Raise e, w2) => (Raise e, w2)
        end
    | Raise e => (Raise e, w1)
    end.
Proof.
  intros H Hd Ht. unfold Server.rag_steps. rewrite (bindM_ok _ _ _ _ _ H).
  unfold bindM, lift, ret. rewrite Hd, Ht. simpl.
  destruct (extract_snippets results _ _); reflexivity.
Qed.

Lemma rag_steps_bad_reply (query : json) (limit : Z) (sp : json)
  (w w1 : World) (results : json) (e : exn) :
  search rt env cfg tm query limit "relevance" w = (Ok results, w1) ->
  get results "data" JNull = Raise e ->
  Server.rag_steps rt env cfg query limit sp w = (Raise e, w1).
Proof.
  intros H Hd. unfold Server.rag_steps. rewrite (bindM_ok _ _ _ _ _ H).
  unfold bindM, lift. now rewrite Hd.
Qed.

Lemma get_raises (o : json) (k : string) (default : json) (e : exn) :
  get o k default = Raise e -> is_Exception e = true.
Proof. destruct o; simpl; try discriminate; now intros [= <-]. Qed.

Lemma len_raises (o : json) (e : exn) :
  len o = Raise e -> is_Exception e = true.
Proof. destruct o; simpl; try discriminate; now intros [= <-]. Qed.

Lemma rag_steps_raises (query : json) (limit : Z) (sp : json)
  (w w' : World) (e : exn) :
  Server.rag_steps rt env cfg query limit sp w = (Raise e, w') ->
  is_Exception e = true.
Proof.
  destruct (search rt env cfg tm query limit "relevance" w)
    as [[results | e0] w1] eqn:Hs.
  - destruct (get results "data" JNull) as [data | e1] eqn:Hd.
    + destruct (truthy data) eqn:Ht.
      * rewrite (rag_steps_results _ _ _ _ _ _ _ Hs Hd Ht).
        destruct (extract_snippets results _ _) as [snippets | e2] eqn:Hx.
        -- destruct (generate_with_context rt env cfg tm query _ sp w1)
             as [[g | e3] w2] eqn:Hg; [discriminate |].
           intros [= <- <-]. now apply generate_raises in Hg.
        -- intros [= <- <-]. now apply extract_snippets_raises in Hx.
      * rewrite (rag_steps_no_results _ _ _ _ _ _ _ Hs Hd Ht). discriminate.
    + rewrite (rag_steps_bad_reply _ _ _ _ _ _ _ Hs Hd). intros [= <- <-].
      now apply get_raises in Hd.
  - rewrite (rag_steps_search_failed _ _ _ _ _ _ Hs). intros [= <- <-].
    now apply search_relevance_raises in Hs.
Qed.

Lemma rag_steps_trace (query : json) (limit : Z) (sp : json)
  (w w' : World) (r : Result (json * Z)) :
  Server.rag_steps rt env cfg query limit sp w = (r, w') ->
  exists delta, sent w' = (sent w ++ delta)%list
                /\ (List.length (Spec.search_requests delta) <= 1)%nat
                /\ (List.length (Spec.generation_requests delta) <= 1)%nat.
Proof.
  destruct (search rt env cfg tm query limit "relevance" w)
    as [[results | e0] w1] eqn:Hs;
    destruct (search_no_generation _ _ _ _ _ _ Hs)
      as (Hnone & delta1 & Hsent1 & Hcount1);
    assert (Hgen1 : Spec.generation_requests delta1 = []).
  1, 3: (rewrite Hsent1 in Hnone; unfold Spec.generation_requests in *;
         rewrite filter_app in Hnone;
         apply (f_equal (@List.length _)) in Hnone;
         rewrite length_app in Hnone;
         destruct (filter _ delta1); [reflexivity | simpl in Hnone; lia]).
  - destruct (get results "data" JNull) as [data | e1] eqn:Hd.
    + destruct (truthy data) eqn:Ht.
      * rewrite (rag_steps_results _ _ _ _ _ _ _ Hs Hd Ht).
        destruct (extract_snippets results _ _) as [snippets | e2] eqn:Hx.
        -- destruct (generate_with_context rt env cfg tm query _ sp w1)
             as [r2 w2] eqn:Hg.
           destruct (generate_trace rt env cfg tm _ _ _ _ _ _ Hg)
             as (grant & calls & Hsent2 & Hgr & Hc).
           intros Hrun. exists (delta1 ++ grant ++ calls)%list.
           assert (Hw : w' = w2) by (destruct r2; now injection Hrun).
           subst w'. rewrite Hsent2, Hsent1, <- app_assoc.
           split; [reflexivity |].
           unfold Spec.search_requests, Spec.generation_requests in *.
           rewrite !filter_app, !length_app, Hgen1.
           destruct Hgr as [-> | ->], Hc as [-> | (token & ->)]; simpl; lia.
        -- intros [= <- <-]. exists delta1. rewrite Hgen1. simpl. auto.
      * rewrite (rag_steps_no_results _ _ _ _ _ _ _ Hs Hd Ht).
        intros [= <- <-]. exists delta1. rewrite Hgen1. simpl. auto.
    + rewrite (rag_steps_bad_reply _ _ _ _ _ _ _ Hs Hd).
      intros [= <- <-]. exists delta1. rewrite Hgen1. simpl. auto.
  - rewrite (rag_steps_search_failed _ _ _ _ _ _ Hs).
    intros [= <- <-]. exists delta1. rewrite Hgen1. simpl. auto.
Qed.

(** *** The route around its steps *)

Lemma api_rag_valid (b : dict) (query : json) (limit : Z) (w : World) :
  lookup "query" b = Some query ->
  truthy query = true ->
  Spec.requested_limit rt b = Ok limit ->
  Server.api_rag rt env cfg (JDict b) w
  = try_except (Server.rag_steps rt env cfg query limit (Spec.requested_prompt b))
               is_Exception (Server.rag_failed rt) w.
Proof.
  intros Hq Ht Hl.
  assert (Hb : truthy (JDict b) = true)
    by (destruct b; [discriminate | reflexivity]).
  unfold Server.api_rag, bindM, lift, ret, get, item.
  rewrite Hb, Hq, Ht. cbn -[lookup Utils.normalize_limit].
  unfold Spec.requested_limit in Hl. rewrite Hl. reflexivity.
Qed.

Lemma api_rag_answered (b : dict) (query : json) (limit : Z) (w w1 : World)
  (a : json * Z) :
  lookup "query" b = Some query ->
  truthy query = true ->
  Spec.requested_limit rt b = Ok limit ->
  Server.rag_steps rt env cfg query limit (Spec.requested_prompt b) w = (Ok a, w1) ->
  Server.api_rag rt env cfg (JDict b) w = (Ok a, w1).
Proof.
  intros Hq Ht Hl Hrun. rewrite (api_rag_valid b query limit w Hq Ht Hl).
  now apply try_except_ok.
Qed.

Lemma api_rag_failed (b : dict) (query : json) (limit : Z) (w w1 : World)
  (e : exn) :
  lookup "query" b = Some query ->
  truthy query = true ->
  Spec.requested_limit rt b = Ok limit ->
  Server.rag_steps rt env cfg query limit (Spec.requested_prompt b) w
  = (Raise e, w1) ->
  Server.api_rag rt env cfg (JDict b) w
  = (Ok Spec.generic_error, Spec.logged ("RAG error: " ++ exn_str rt e) w1).
Proof.
  intros Hq Ht Hl Hrun. rewrite (api_rag_valid b query limit w Hq Ht Hl).
  rewrite (try_except_caught _ _ _ _ _ _ Hrun (rag_steps_raises _ _ _ _ _ _ Hrun)).
  reflexivity.
Qed.

End Pipeline.

Section RagSearch.
Import Auth SearchAdvanced.
Context (rt : Runtime) (env : Env) (cfg : Config.Settings).

Lemma rag_search_steps_search_failed (query : string) (limit : Z)
  (w w1 : World) (e : exn) :
  search rt env cfg (token_manager cfg) (JStr query) limit "relevance"
    (Spec.announced query w) = (Raise e, w1) ->
  rag_search_steps rt env cfg query limit w = (Raise e, w1).
Proof.
  intros H. unfold rag_search_steps.
  unfold bindM at 1 2, print at 1 2. cbn beta iota.
  now apply bindM_raise.
Qed.

Lemma rag_search_steps_no_results (query : string) (limit : Z)
  (w w1 : World) (results data : json) :
  search rt env cfg (token_manager cfg) (JStr query) limit "relevance"
    (Spec.announced query w) = (Ok results, w1) ->
  get results "data" JNull = Ok data ->
  truthy data = false ->
  rag_search_steps rt env cfg query limit w
  = (Ok tt, Spec.printed "No results found." w1).
Proof.
  intros H Hd Ht. unfold rag_search_steps.
  unfold bindM at 1 2, print at 1 2. cbn beta iota.
  change (search rt env cfg (token_manager cfg) (JStr query) limit "relevance"
            (Spec.announced query w) = (Ok results, w1)) in H.
  rewrite (bindM_ok _ _ _ _ _ H).
  unfold bindM, lift. rewrite Hd, Ht. reflexivity.
Qed.

End RagSearch.

(** Two worlds that differ in how their output is bracketed. *)
Ltac same_world :=
  unfold Spec.printed, Spec.printed_all, Spec.counted_lines,
    Spec.extracted_lines, Spec.answer_lines;
  cbn [access_token_info ticks sent stdout stderr];
  rewrite <- ?app_assoc; reflexivity.

Section RagSearchRuns.
Import Auth SearchAdvanced.
Context (rt : Runtime) (env : Env) (cfg : Config.Settings).

Lemma print_then {A} (line : string) (k : M A) (w : World) :
  (print line ;; k) w = k (Spec.printed line w).
Proof. reflexivity. Qed.

Lemma printed_all_app (a b : list string) (w : World) :
  Spec.printed_all b (Spec.printed_all a w) = Spec.printed_all (a ++ b)%list w.
Proof. unfold Spec.printed_all. simpl. now rewrite app_assoc. Qed.

Lemma print_sources_run (snippets : list Snippet) (w : World) :
  print_sources rt snippets w
  = (Ok tt, Spec.printed_all (map (Spec.source_line rt) snippets) w).
Proof.
  revert w. induction snippets as [| s l IH]; intros w.
  - simpl. unfold ret, Spec.printed_all. rewrite app_nil_r. now destruct w.
  - cbn [print_sources map]. unfold bindM at 1, print at 1. rewrite IH.
    f_equal. unfold Spec.printed_all, Spec.source_line. simpl.
    now rewrite <- app_assoc.
Qed.

Lemma get_truthy_item (results data : json) (k : string) :
  get results k JNull = Ok data -> truthy data = true ->
  item results k = Ok data.
Proof.
  destruct results as [| | | | | | d]; try discriminate. simpl.
  destruct (lookup k d) as [v |]; intros [= <-]; [reflexivity | discriminate].
Qed.

(** The run of [rag_search_steps] once the search has returned results. *)
Lemma rag_search_steps_results (query : string) (limit : Z)
  (w w1 : World) (results data : json) :
  search rt env cfg (token_manager cfg) (JStr query) limit "relevance"
    (Spec.announced query w) = (Ok results, w1) ->
  get results "data" JNull = Ok data ->
  truthy data = true ->
  rag_search_steps rt env cfg query limit w
  = match len data with
    | Raise e => (Raise e, w1)
    | Ok count =>
        match extract_snippets results
                (Z.min limit (Config.RAG_CONTEXT_MAX_SNIPPETS cfg))
                (Config.RAG_CONTEXT_MAX_CHARS_PER_SNIPPET cfg) with
        | Raise e => (Raise e, Spec.printed_all (Spec.counted_lines count) w1)
        | Ok snippets =>
            match generate_with_context rt env cfg (token_manager cfg)
                    (JStr query) (format_context_for_llm rt snippets) JNull
                    (Spec.printed_all (Spec.extracted_lines count snippets) w1)
            with
            | (Raise e, w2) => (Raise e, w2)
            | (Ok response, w2) =>
                (Ok tt, Spec.printed_all (Spec.answer_lines rt response snippets)
                          w2)
            end
        end
    end.
Proof.
  intros H Hd Ht. unfold rag_search_steps.
  rewrite !print_then.
  change (search rt env cfg (token_manager cfg) (JStr query) limit "relevance"
            (Spec.announced query w) = (Ok results, w1)) in H.
  rewrite (bindM_ok _ _ _ _ _ H).
  unfold bindM at 1, lift at 1. rewrite Hd, Ht. cbn [negb].
  unfold bindM at 1, lift at 1. rewrite (get_truthy_item _ _ _ Hd Ht).
  unfold bindM at 1, lift at 1.
  destruct (len data) as [count | e]; [| reflexivity].
  rewrite !print_then.
  unfold bindM at 1, lift at 1.
  destruct (extract_snippets results _ _) as [snippets | e];
    [| f_equal; same_world].
  rewrite !print_then.
  unfold bindM at 1.
  match goal with
  | |- context [generate_with_context _ _ _ _ _ _ _ ?w0] =>
      replace w0 with (Spec.printed_all (Spec.extracted_lines count snippets) w1)
        by same_world
  end.
  destruct (generate_with_context rt env cfg (token_manager cfg) (JStr query)
              (format_context_for_llm rt snippets) JNull
              (Spec.printed_all (Spec.extracted_lines count snippets) w1))
    as [[response | e] w2]; [| reflexivity].
  rewrite !print_then, print_sources_run. f_equal. same_world.
Qed.

End RagSearchRuns.

Section RagSearchTrace.
Import Auth SearchAdvanced.
Context (rt : Runtime) (env : Env) (cfg : Config.Settings).

Lemma rag_search_steps_bad_reply (query : string) (limit : Z)
  (w w1 : World) (results : json) (e : exn) :
  search rt env cfg (token_manager cfg) (JStr query) limit "relevance"
    (Spec.announced query w) = (Ok results, w1) ->
  get results "data" JNull = Raise e ->
  rag_search_steps rt env cfg query limit w = (Raise e, w1).
Proof.
  intros H Hd. unfold rag_search_steps. rewrite !print_then.
  change (search rt env cfg (token_manager cfg) (JStr query) limit "relevance"
            (Spec.announced query w) = (Ok results, w1)) in H.
  rewrite (bindM_ok _ _ _ _ _ H).
  unfold bindM, lift. now rewrite Hd.
Qed.

(** Whatever [rag_search_steps] raises is caught by [except Exception]. *)
Lemma rag_search_steps_raises (query : string) (limit : Z) (w w' : World)
  (e : exn) :
  rag_search_steps rt env cfg query limit w = (Raise e, w') ->
  is_Exception e = true.
Proof.
  destruct (search rt env cfg (token_manager cfg) (JStr query) limit "relevance"
              (Spec.announced query w)) as [[results | e0] w1] eqn:Hs.
  - destruct (get results "data" JNull) as [data | e1] eqn:Hd.
    + destruct (truthy data) eqn:Ht.
      * rewrite (rag_search_steps_results rt env cfg _ _ _ _ _ _ Hs Hd Ht).
        destruct (len data) as [count | e1] eqn:Hlen.
        -- destruct (extract_snippets results _ _) as [snippets | e2] eqn:Hx.
           ++ destruct (generate_with_context rt env cfg (token_manager cfg)
                          (JStr query) _ JNull _) as [[g | e3] w2] eqn:Hg;
                [discriminate |].
              intros [= <- <-]. now apply generate_raises in Hg.
           ++ intros [= <- <-]. now apply extract_snippets_raises in Hx.
        -- intros [= <- <-]. now apply len_raises in Hlen.
      * rewrite (rag_search_steps_no_results rt env cfg _ _ _ _ _ _ Hs Hd Ht).
        discriminate.
    + rewrite (rag_search_steps_bad_reply _ _ _ _ _ _ Hs Hd). intros [= <- <-].
      now apply get_raises in Hd.
  - rewrite (rag_search_steps_search_failed rt env cfg _ _ _ _ _ Hs).
    intros [= <- <-]. now apply (search_relevance_raises rt env cfg) in Hs.
Qed.

(** One run of [rag_search_steps] sends at most one search request and
    at most one generation request. *)
Lemma rag_search_steps_trace (query : string) (limit : Z)
  (w w' : World) (r : Result unit) :
  rag_search_steps rt env cfg query limit w = (r, w') ->
  exists delta, sent w' = (sent w ++ delta)%list
                /\ (List.length (Spec.search_requests delta) <= 1)%nat
                /\ (List.length (Spec.generation_requests delta) <= 1)%nat.
Proof.
  destruct (search rt env cfg (token_manager cfg) (JStr query) limit "relevance"
              (Spec.announced query w)) as [[results | e0] w1] eqn:Hs;
    destruct (search_no_generation rt env cfg _ _ _ _ _ _ Hs)
      as (Hnone & delta1 & Hsent1 & Hcount1);
    change (sent (Spec.announced query w)) with (sent w) in *;
    assert (Hgen1 : Spec.generation_requests delta1 = []).
  1, 3: (rewrite Hsent1 in Hnone; unfold Spec.generation_requests in *;
         rewrite filter_app in Hnone;
         apply (f_equal (@List.length _)) in Hnone;
         rewrite length_app in Hnone;
         destruct (filter _ delta1); [reflexivity | simpl in Hnone; lia]).
  - destruct (get results "data" JNull) as [data | e1] eqn:Hd.
    + destruct (truthy data) eqn:Ht.
      * rewrite (rag_search_steps_results rt env cfg _ _ _ _ _ _ Hs Hd Ht).
        destruct (len data) as [count | e1] eqn:Hlen.
        -- destruct (extract_snippets results _ _) as [snippets | e2] eqn:Hx.
           ++ destruct (generate_with_context rt env cfg (token_manager cfg)
                          (JStr query) _ JNull _) as [r2 w2] eqn:Hg.
              destruct (generate_trace rt env cfg _ _ _ _ _ _ _ Hg)
                as (grant & calls & Hsent2 & Hgr & Hc).
              change (sent (Spec.printed_all _ w1)) with (sent w1) in Hsent2.
              intros Hrun. exists (delta1 ++ grant ++ calls)%list.
              assert (Hw : sent w' = sent w2)
                by (destruct r2; injection Hrun as _ <-; reflexivity).
              rewrite Hw, Hsent2, Hsent1, <- app_assoc.
              split; [reflexivity |].
              unfold Spec.search_requests, Spec.generation_requests in *.
              rewrite !filter_app, !length_app, Hgen1.
              destruct Hgr as [-> | ->], Hc as [-> | (token & ->)]; simpl; lia.
           ++ intros [= <- <-]. exists delta1. rewrite Hgen1. simpl. auto.
        -- intros [= <- <-]. exists delta1. rewrite Hgen1. simpl. auto.
      * rewrite (rag_search_steps_no_results rt env cfg _ _ _ _ _ _ Hs Hd Ht).
        intros [= <- <-]. exists delta1. rewrite Hgen1. simpl. auto.
    + rewrite (rag_search_steps_bad_reply _ _ _ _ _ _ Hs Hd).
      intros [= <- <-]. exists delta1. rewrite Hgen1. simpl. auto.
  - rewrite (rag_search_steps_search_failed rt env cfg _ _ _ _ _ Hs).
    intros [= <- <-]. exists delta1. rewrite Hgen1. simpl. auto.
Qed.

(** [rag_search] around its steps. *)
Lemma rag_search_returned (query : string) (limit : Z) (w w1 : World) :
  rag_search_steps rt env cfg query limit w = (Ok tt, w1) ->
  rag_search rt env cfg query limit w = (Ok tt, w1).
Proof. intros H. unfold rag_search. now apply try_except_ok. Qed.

Lemma rag_search_exits (query : string) (limit : Z) (w w1 : World) (e : exn) :
  rag_search_steps rt env cfg query limit w = (Raise e, w1) ->
  rag_search rt env cfg query limit w
  = (Raise (SystemExit 1),
     Spec.printed ("RAG search failed: " ++ exn_str rt e) w1).
Proof.
  intros H. unfold rag_search.
  rewrite (try_except_caught _ _ _ _ _ _ H (rag_search_steps_raises _ _ _ _ _ H)).
  reflexivity.
Qed.

End RagSearchTrace.

(** ** C3 and C8: the pipeline as a whole *)

Section Runs.
Import Auth SearchAdvanced.
Context (rt : Runtime) (env : Env) (cfg : Config.Settings).

(** C3, as amended: when the search finds nothing, the RAG route answers
    200 with "No relevant content found." and no sources; the
    command-line run has no answer and no sources to give: it prints "No
    results found." and returns.  Neither issues a generation request. *)
Theorem rag_no_results :
  (forall b query limit w results w1 data,
     lookup "query" b = Some query ->
     truthy query = true ->
     Spec.requested_limit rt b = Ok limit ->
     search rt env cfg (Server.token_manager cfg) query limit "relevance" w
     = (Ok results, w1) ->
     get results "data" JNull = Ok data ->
     truthy data = false ->
     Server.api_rag rt env cfg (JDict b) w
     = (Ok (JDict [("response", JStr "No relevant content found.");
                   ("sources", JList [])], 200), w1)
     /\ Spec.generation_requests (sent w1) = Spec.generation_requests (sent w)) /\
  (forall query limit w results w1 data,
     search rt env cfg (token_manager cfg) (JStr query) limit "relevance"
       (Spec.announced query w) = (Ok results, w1) ->
     get results "data" JNull = Ok data ->
     truthy data = false ->
     rag_search rt env cfg query limit w
     = (Ok tt, Spec.printed "No results found." w1)
     /\ Spec.generation_requests (sent w1) = Spec.generation_requests (sent w)).
Proof.
  split.
  - intros b query limit w results w1 data Hq Ht Hl Hs Hd Hempty. split.
    + apply (api_rag_answered rt env cfg b query limit w w1 _ Hq Ht Hl).
      now apply rag_steps_no_results with results data.
    + now apply (search_no_generation rt env cfg _ _ _ _ _ _ Hs).
  - intros query limit w results w1 data Hs Hd Hempty. split.
    + apply rag_search_returned.
      now apply rag_search_steps_no_results with results data.
    + apply (search_no_generation rt env cfg _ _ _ _ _ _ Hs).
Qed.

(** C8, as amended.  The first failing step ends the run: nothing is
    sent after it (a failed search is followed by no generation request),
    no step is tried twice, and what had been computed is dropped.  What
    the caller of the RAG route gets is the same for every failing step,
    status 500 with "RAG request failed", the failure's own text going to
    the server's log; the command-line run prints that text after what
    the steps before it had printed, and exits with status 1. *)
Theorem rag_fails_fast :
  (forall b query limit w,
     lookup "query" b = Some query ->
     truthy query = true ->
     Spec.requested_limit rt b = Ok limit ->
     let tm := Server.token_manager cfg in
     let run := Server.api_rag rt env cfg (JDict b) w in
     let failed e w1 :=
       run = (Ok (JDict [("error", JStr "RAG request failed")], 500),
              Spec.logged ("RAG error: " ++ exn_str rt e) w1) in
     (forall e w1,
        search rt env cfg tm query limit "relevance" w = (Raise e, w1) ->
        failed e w1
        /\ Spec.generation_requests (sent w1) = Spec.generation_requests (sent w)) /\
     (forall results w1 e,
        search rt env cfg tm query limit "relevance" w = (Ok results, w1) ->
        get results "data" JNull = Raise e ->
        failed e w1
        /\ Spec.generation_requests (sent w1) = Spec.generation_requests (sent w)) /\
     (forall results w1 data e,
        search rt env cfg tm query limit "relevance" w = (Ok results, w1) ->
        get results "data" JNull = Ok data -> truthy data = true ->
        extract_snippets results
          (Z.min limit (Config.RAG_CONTEXT_MAX_SNIPPETS cfg))
          (Config.RAG_CONTEXT_MAX_CHARS_PER_SNIPPET cfg) = Raise e ->
        failed e w1
        /\ Spec.generation_requests (sent w1) = Spec.generation_requests (sent w)) /\
     (forall results w1 data snippets e w2,
        search rt env cfg tm query limit "relevance" w = (Ok results, w1) ->
        get results "data" JNull = Ok data -> truthy data = true ->
        extract_snippets results
          (Z.min limit (Config.RAG_CONTEXT_MAX_SNIPPETS cfg))
          (Config.RAG_CONTEXT_MAX_CHARS_PER_SNIPPET cfg) = Ok snippets ->
        generate_with_context rt env cfg tm query
          (format_context_for_llm rt snippets) (Spec.requested_prompt b) w1
        = (Raise e, w2) ->
        failed e w2) /\
     (exists delta,
        sent (snd run) = (sent w ++ delta)%list
        /\ (List.length (Spec.search_requests delta) <= 1)%nat
        /\ (List.length (Spec.generation_requests delta) <= 1)%nat) /\
     (fst run = Ok (JDict [("error", JStr "RAG request failed")], 500)
      \/ exists doc, fst run = Ok (doc, 200))) /\
  (forall query limit w,
     let tm := token_manager cfg in
     let run := rag_search rt env cfg query limit w in
     let exits e w1 :=
       run = (Raise (SystemExit 1),
              Spec.printed ("RAG search failed: " ++ exn_str rt e) w1) in
     let searched results w1 :=
       search rt env cfg tm (JStr query) limit "relevance"
         (Spec.announced query w) = (Ok results, w1) in
     (forall e w1,
        search rt env cfg tm (JStr query) limit "relevance"
          (Spec.announced query w) = (Raise e, w1) ->
        exits e w1
        /\ Spec.generation_requests (sent w1) = Spec.generation_requests (sent w)) /\
     (forall results w1 e,
        searched results w1 ->
        get results "data" JNull = Raise e ->
        exits e w1
        /\ Spec.generation_requests (sent w1) = Spec.generation_requests (sent w)) /\
     (forall results w1 data e,
        searched results w1 ->
        get results "data" JNull = Ok data -> truthy data = true ->
        len data = Raise e ->
        exits e w1
        /\ Spec.generation_requests (sent w1) = Spec.generation_requests (sent w)) /\
     (forall results w1 data count e,
        searched results w1 ->
        get results "data" JNull = Ok data -> truthy data = true ->
        len data = Ok count ->
        extract_snippets results
          (Z.min limit (Config.RAG_CONTEXT_MAX_SNIPPETS cfg))
          (Config.RAG_CONTEXT_MAX_CHARS_PER_SNIPPET cfg) = Raise e ->
        exits e (Spec.printed_all (Spec.counted_lines count) w1)
        /\ Spec.generation_requests (sent w1) = Spec.generation_requests (sent w)) /\
     (forall results w1 data count snippets e w2,
        searched results w1 ->
        get results "data" JNull = Ok data -> truthy data = true ->
        len data = Ok count ->
        extract_snippets results
          (Z.min limit (Config.RAG_CONTEXT_MAX_SNIPPETS cfg))
          (Config.RAG_CONTEXT_MAX_CHARS_PER_SNIPPET cfg) = Ok snippets ->
        generate_with_context rt env cfg tm (JStr query)
          (format_context_for_llm rt snippets) JNull
          (Spec.printed_all (Spec.extracted_lines count snippets) w1)
        = (Raise e, w2) ->
        exits e w2) /\
     (exists delta,
        sent (snd run) = (sent w ++ delta)%list
        /\ (List.length (Spec.search_requests delta) <= 1)%nat
        /\ (List.length (Spec.generation_requests delta) <= 1)%nat) /\
     (fst run = Ok tt \/ fst run = Raise (SystemExit 1))).
Proof.
  split.
  - intros b query limit w Hq Ht Hl tm run failed. subst failed run tm.
    split; [| split; [| split; [| split; [| split]]]].
    + intros e w1 Hs. split.
      * apply (api_rag_failed rt env cfg b query limit w w1 e Hq Ht Hl).
        now apply rag_steps_search_failed.
      * now apply (search_no_generation rt env cfg _ _ _ _ _ _ Hs).
    + intros results w1 e Hs Hd. split.
      * apply (api_rag_failed rt env cfg b query limit w w1 e Hq Ht Hl).
        now apply rag_steps_bad_reply with results.
      * now apply (search_no_generation rt env cfg _ _ _ _ _ _ Hs).
    + intros results w1 data e Hs Hd Hfull Hx. split.
      * apply (api_rag_failed rt env cfg b query limit w w1 e Hq Ht Hl).
        rewrite (rag_steps_results rt env cfg _ _ _ _ _ _ _ Hs Hd Hfull).
        now rewrite Hx.
      * now apply (search_no_generation rt env cfg _ _ _ _ _ _ Hs).
    + intros results w1 data snippets e w2 Hs Hd Hfull Hx Hg.
      apply (api_rag_failed rt env cfg b query limit w w2 e Hq Ht Hl).
      rewrite (rag_steps_results rt env cfg _ _ _ _ _ _ _ Hs Hd Hfull).
      rewrite Hx. now rewrite Hg.
    + destruct (Server.rag_steps rt env cfg query limit
                  (Spec.requested_prompt b) w) as [[a | e] w1] eqn:Hrun;
        destruct (rag_steps_trace rt env cfg _ _ _ _ _ _ Hrun)
          as (delta & Hsent & Hcount); exists delta.
      * now rewrite (api_rag_answered rt env cfg b query limit w w1 a
                       Hq Ht Hl Hrun).
      * now rewrite (api_rag_failed rt env cfg b query limit w w1 e
                       Hq Ht Hl Hrun).
    + destruct (Server.rag_steps rt env cfg query limit
                  (Spec.requested_prompt b) w) as [[a | e] w1] eqn:Hrun.
      * rewrite (api_rag_answered rt env cfg b query limit w w1 a
                   Hq Ht Hl Hrun). right. simpl.
        revert Hrun. unfold Server.rag_steps, bindM, lift, ret.
        repeat (case_step; simpl); intros [= <- <-]; eauto.
      * rewrite (api_rag_failed rt env cfg b query limit w w1 e
                   Hq Ht Hl Hrun). now left.
  - intros query limit w tm run exits searched. subst exits searched run tm.
    cbv beta.
    assert (Hquiet : forall w1 (r : Result json),
              search rt env cfg (token_manager cfg) (JStr query) limit
                "relevance" (Spec.announced query w) = (r, w1) ->
              Spec.generation_requests (sent w1)
              = Spec.generation_requests (sent w)).
    { intros w1 r Hs.
      apply (search_no_generation rt env cfg _ _ _ _ _ _ Hs). }
    split; [| split; [| split; [| split; [| split; [| split]]]]].
    + intros e w1 Hs. split; [| now apply (Hquiet w1 (Raise e))].
      apply rag_search_exits.
      now apply rag_search_steps_search_failed.
    + intros results w1 e Hs Hd. split; [| now apply (Hquiet w1 (Ok results))].
      apply rag_search_exits.
      now apply rag_search_steps_bad_reply with results.
    + intros results w1 data e Hs Hd Hfull Hlen.
      split; [| now apply (Hquiet w1 (Ok results))].
      apply rag_search_exits.
      rewrite (rag_search_steps_results rt env cfg _ _ _ _ _ _ Hs Hd Hfull).
      now rewrite Hlen.
    + intros results w1 data count e Hs Hd Hfull Hlen Hx.
      split; [| now apply (Hquiet w1 (Ok results))].
      apply rag_search_exits.
      rewrite (rag_search_steps_results rt env cfg _ _ _ _ _ _ Hs Hd Hfull).
      now rewrite Hlen, Hx.
    + intros results w1 data count snippets e w2 Hs Hd Hfull Hlen Hx Hg.
      apply rag_search_exits.
      rewrite (rag_search_steps_results rt env cfg _ _ _ _ _ _ Hs Hd Hfull).
      rewrite Hlen, Hx. now rewrite Hg.
    + destruct (rag_search_steps rt env cfg query limit w) as [[[] | e] w1]
        eqn:Hrun;
        destruct (rag_search_steps_trace rt env cfg _ _ _ _ _ Hrun)
          as (delta & Hsent & Hcount); exists delta.
      * now rewrite (rag_search_returned rt env cfg _ _ _ _ Hrun).
      * now rewrite (rag_search_exits rt env cfg _ _ _ _ _ Hrun).
    + destruct (rag_search_steps rt env cfg query limit w) as [[[] | e] w1]
        eqn:Hrun.
      * rewrite (rag_search_returned rt env cfg _ _ _ _ Hrun). now left.
      * rewrite (rag_search_exits rt env cfg _ _ _ _ _ Hrun). now right.
Qed.

End Runs.

Lemma rag_no_results_witness :
  (Server.api_rag Sample.runtime Sample.no_results Sample.settings
     Sample.question Auth.initial_world
   = (Ok (JDict [("response", JStr "No relevant content found.");
                 ("sources", JList [])], 200),
      snd (SearchAdvanced.search Sample.runtime Sample.no_results Sample.settings
             Sample.token_manager (JStr "What is X?") 5 "relevance"
             Auth.initial_world))
   /\ Spec.generation_requests
        (sent (snd (SearchAdvanced.search Sample.runtime Sample.no_results
                      Sample.settings Sample.token_manager (JStr "What is X?") 5
                      "relevance" Auth.initial_world)))
      = Spec.generation_requests (sent Auth.initial_world))
  /\ SearchAdvanced.rag_search Sample.runtime Sample.no_results Sample.settings
       "What is X?" 5 Auth.initial_world
     = (Ok tt,
        Spec.printed "No results found."
          (snd (SearchAdvanced.search Sample.runtime Sample.no_results
                  Sample.settings Sample.token_manager (JStr "What is X?") 5
                  "relevance" (Spec.announced "What is X?" Auth.initial_world)))).
Proof.
  split.
  - apply (proj1 (rag_no_results Sample.runtime Sample.no_results Sample.settings)
             [("query", JStr "What is X?")] (JStr "What is X?") 5
             Auth.initial_world (JDict [("data", JList [])]) _ (JList []));
      reflexivity.
  - apply (proj2 (rag_no_results Sample.runtime Sample.no_results Sample.settings)
             "What is X?" 5 Auth.initial_world (JDict [("data", JList [])]) _
             (JList [])); reflexivity.
Defined.

Lemma rag_fails_fast_witness :
  (Server.api_rag Sample.runtime Sample.search_down Sample.settings
     Sample.question Auth.initial_world
   = (Ok (JDict [("error", JStr "RAG request failed")], 500),
      Spec.logged
        ("RAG error: "
           ++ exn_str Sample.runtime
                (Exception "Search request failed: 500 Server Error:  for url: "))
        (snd (SearchAdvanced.search Sample.runtime Sample.search_down
                Sample.settings Sample.token_manager (JStr "What is X?") 5
                "relevance" Auth.initial_world)))
   /\ Spec.generation_requests
        (sent (snd (SearchAdvanced.search Sample.runtime Sample.search_down
                      Sample.settings Sample.token_manager (JStr "What is X?") 5
                      "relevance" Auth.initial_world)))
      = Spec.generation_requests (sent Auth.initial_world))
  /\ SearchAdvanced.rag_search Sample.runtime Sample.generation_down
       Sample.settings "What is X?" 5 Auth.initial_world
     = (Raise (SystemExit 1),
        Spec.printed
          ("RAG search failed: "
             ++ exn_str Sample.runtime
                  (Exception
                     "Completions request failed: 500 Server Error:  for url: "))
          (snd (SearchAdvanced.generate_with_context Sample.runtime
                  Sample.generation_down Sample.settings Sample.token_manager
                  (JStr "What is X?")
                  (SearchAdvanced.format_context_for_llm Sample.runtime
                     (Spec.extract Sample.three_results 3 350))
                  JNull
                  (Spec.printed_all
                     (Spec.extracted_lines 3
                        (Spec.extract Sample.three_results 3 350))
                     (snd (SearchAdvanced.search Sample.runtime
                             Sample.generation_down Sample.settings
                             Sample.token_manager (JStr "What is X?") 5
                             "relevance"
                             (Spec.announced "What is X?"
                                Auth.initial_world))))))).
Proof.
  split.
  - apply (proj1 (proj1 (rag_fails_fast Sample.runtime Sample.search_down
                           Sample.settings)
                    [("query", JStr "What is X?")] (JStr "What is X?") 5
                    Auth.initial_world eq_refl eq_refl eq_refl)).
    reflexivity.
  - apply (proj1 (proj2 (proj2 (proj2 (proj2
             (proj2 (rag_fails_fast Sample.runtime Sample.generation_down
                       Sample.settings)
                "What is X?" 5 Auth.initial_world)))))
             (JDict [("data", JList Sample.three_results)])
             (snd (SearchAdvanced.search Sample.runtime Sample.generation_down
                     Sample.settings Sample.token_manager (JStr "What is X?") 5
                     "relevance"
                     (Spec.announced "What is X?" Auth.initial_world)))
             (JList Sample.three_results) 3
             (Spec.extract Sample.three_results 3 350)); reflexivity.
Defined.

(** C3 as stated fails for the command-line run: with no result it ends
    normally, having printed its two announcements and "No results
    found."; the answer "No relevant content found." is nowhere in its
    output, and it has no sources list to give. *)
Lemma rag_search_no_results_output :
  fst (SearchAdvanced.rag_search Sample.runtime Sample.no_results Sample.settings
         "What is X?" 5 Auth.initial_world) = Ok tt
  /\ stdout (snd (SearchAdvanced.rag_search Sample.runtime Sample.no_results
                    Sample.settings "What is X?" 5 Auth.initial_world))
     = ["RAG Search for: 'What is X?'" ++ SearchAdvanced.nl;
        "Step 1: Searching for relevant content...";
        "No results found."]
  /\ ~ In "No relevant content found."
         (stdout (snd (SearchAdvanced.rag_search Sample.runtime Sample.no_results
                         Sample.settings "What is X?" 5 Auth.initial_world)))
  /\ Spec.generation_requests
       (sent (snd (SearchAdvanced.rag_search Sample.runtime Sample.no_results
                     Sample.settings "What is X?" 5 Auth.initial_world)))
     = [].
Proof.
  split; [reflexivity |]. split; [reflexivity |]. split; [| reflexivity].
  simpl. intros [H | [H | [H | []]]]; discriminate H.
Qed.

(** C8 as stated fails: the caller of the RAG route cannot tell a failed
    search from a failed generation, the two runs are answered alike. *)
Lemma api_rag_error_kind_lost :
  fst (SearchAdvanced.search Sample.runtime Sample.search_down Sample.settings
         Sample.token_manager (JStr "What is X?") 5 "relevance"
         Auth.initial_world)
  = Raise (Exception "Search request failed: 500 Server Error:  for url: ")
  /\ stderr (snd (Server.api_rag Sample.runtime Sample.generation_down
                    Sample.settings Sample.question Auth.initial_world))
     = ["RAG error: Completions request failed: 500 Server Error:  for url: "]
  /\ fst (Server.api_rag Sample.runtime Sample.search_down Sample.settings
            Sample.question Auth.initial_world)
     = Ok (JDict [("error", JStr "RAG request failed")], 500)
  /\ fst (Server.api_rag Sample.runtime Sample.generation_down Sample.settings
            Sample.question Auth.initial_world)
     = fst (Server.api_rag Sample.runtime Sample.search_down Sample.settings
              Sample.question Auth.initial_world).
Proof. repeat split. Qed.

(* ================================================================== *)
(** * Further properties of the sources                               *)
(* ================================================================== *)

(** ** auth.py: the cache *)

Section TokenCache.
Import Auth.
Context (rt : Runtime) (env : Env) (tm : TokenManager).

Lemma get_access_token_raise_frame (w w' : World) (e : exn) :
  get_access_token rt env tm w = (Raise e, w') ->
  access_token_info w' = access_token_info w
  /\ stdout w' = stdout w /\ stderr w' = stderr w.
Proof.
  unfold get_access_token, try_except, bindM, requests_post, lift, time_time,
    write_cache, ret, raise.
  repeat (case_step; simpl); intros [= <- <-]; try discriminate;
    repeat split; reflexivity.
Qed.

Lemma int_add_numeric (z : Z) (v e : json) :
  int_add z v = Ok e -> is_number e = true.
Proof.
  destruct v as [| b | n | [q | negative |] | s | l | d]; simpl;
    try discriminate; now intros [= <-].
Qed.

Lemma sub_int_numeric (e : json) (n : Z) :
  is_number e = true -> exists b, sub_int e n = Ok b /\ is_number b = true.
Proof.
  destruct e as [| b | z | [q | negative |] | s | l | d]; simpl;
    try discriminate; eauto.
Qed.

Lemma float_gt_numeric (t : Q) (b : json) :
  is_number b = true -> exists r, float_gt t b = Ok r.
Proof.
  unfold is_number, float_gt. destruct (as_float b); [eauto | discriminate].
Qed.

Lemma get_access_token_ok_cache (w w' : World) (a : json) :
  get_access_token rt env tm w = (Ok a, w') ->
  exists e, lookup "expires_at" (access_token_info w') = Some e
            /\ is_number e = true.
Proof.
  unfold get_access_token, try_except, bindM, requests_post, lift, time_time,
    write_cache, ret, raise, setitem.
  repeat (case_step; simpl); intros [= <- <-]; try discriminate; simpl;
    rewrite lookup_store_same;
    match goal with
    | H : int_add _ _ = Ok ?e |- _ =>
        exists e; split; [reflexivity | exact (int_add_numeric _ _ _ H)]
    end.
Qed.

Lemma is_token_expired_number (w : World) (e : json) :
  lookup "expires_at" (access_token_info w) = Some e ->
  is_number e = true ->
  exists b, is_token_expired env w = (Ok b, tick w).
Proof.
  intros He Hnum.
  destruct (sub_int_numeric e 60 Hnum) as (bound & Hbound & Hnum').
  destruct (float_gt_numeric (clock env (ticks w)) bound Hnum') as (b & Hb).
  exists b.
  unfold is_token_expired, bindM, read_cache, time_time, lift, item.
  rewrite He.
  destruct (access_token_info w) as [| kv d] eqn:Hinfo; [discriminate |].
  simpl. rewrite Hbound. simpl. now rewrite Hb.
Qed.

Lemma is_token_expired_ok (w : World) :
  Spec.cache_ok (access_token_info w) ->
  exists b w1, is_token_expired env w = (Ok b, w1)
               /\ access_token_info w1 = access_token_info w.
Proof.
  intros [Hnone | (e & He & Hnum)].
  - exists true, w. split; [now apply is_token_expired_none | reflexivity].
  - destruct (is_token_expired_number w e He Hnum) as (b & Hb).
    now exists b, (tick w).
Qed.

(** X1: A token request that fails leaves the cached credential as it was,
    and has used the network once: a credential that is still good (or a
    stale one) is never lost to a failed refresh. *)
Theorem get_access_token_failure_keeps_cache (w w' : World) (e : exn) :
  get_access_token rt env tm w = (Raise e, w') ->
  access_token_info w' = access_token_info w
  /\ sent w' = (sent w ++ [grant_request tm])%list
  /\ is_Exception e = true.
Proof.
  intros H. split; [apply (get_access_token_raise_frame _ _ _ H) |].
  split; [now apply get_access_token_sent with rt env (Raise e) |].
  revert H.
  unfold get_access_token, try_except, bindM, requests_post, lift, time_time,
    write_cache, ret, raise, raise_for_status, response_json, item, int_add,
    setitem.
  repeat (case_step; simpl); intros [= <- <-]; try discriminate; reflexivity.
Qed.

(** X2: The cache invariant: from a cache without [expires_at] or with a
    numeric one (the empty cache the manager starts from is one),
    [is_token_expired] never raises, every call of [ensure_valid_token]
    leaves such a cache, and a token it returns is the [access_token] the
    cache then holds. *)
Theorem ensure_valid_token_keeps_cache_ok (w w' : World) (r : Result json) :
  Spec.cache_ok (access_token_info w) ->
  ensure_valid_token rt env tm w = (r, w') ->
  (exists b w1, is_token_expired env w = (Ok b, w1))
  /\ Spec.cache_ok (access_token_info w')
  /\ (forall token, r = Ok token ->
        lookup "access_token" (access_token_info w') = Some token).
Proof.
  intros Hok Hrun.
  destruct (is_token_expired_ok w Hok) as (b & w1 & Hexp & Hcache).
  split; [now exists b, w1 |].
  destruct b.
  - rewrite (ensure_valid_token_renew rt env tm w w1 Hexp) in Hrun.
    destruct (get_access_token rt env tm w1) as [[a | e] w2] eqn:Hget.
    + injection Hrun as <- <-. split.
      * right. now apply get_access_token_ok_cache with w1 a.
      * unfold item. destruct (lookup "access_token" (access_token_info w2));
          [now intros token [= ->] | discriminate].
    + injection Hrun as <- <-. split; [| discriminate].
      destruct (get_access_token_raise_frame _ _ _ Hget) as (-> & _).
      now rewrite Hcache.
  - rewrite (ensure_valid_token_reuse rt env tm w w1 Hexp) in Hrun.
    injection Hrun as <- <-. split; [now rewrite Hcache |].
    unfold item. destruct (lookup "access_token" (access_token_info w1));
      [now intros token [= ->] | discriminate].
Qed.

(** X3: Two calls in a row: when the first returned a token and the clock, at
    the second, has not passed the cached expiry less 60 s, the second
    call returns the same token and sends nothing (the search step and
    the generation step of one run share one grant). *)
Theorem ensure_valid_token_twice (w w1 : World) (token : json) (T : Q) :
  ensure_valid_token rt env tm w = (Ok token, w1) ->
  Spec.expiresAt (access_token_info w1) = Some T ->
  (clock env (ticks w1) <= T - 60)%Q ->
  ensure_valid_token rt env tm w1 = (Ok token, tick w1).
Proof.
  intros Hrun HT Hnow.
  assert (Htok : lookup "access_token" (access_token_info w1) = Some token).
  { revert Hrun. unfold ensure_valid_token, bindM, read_cache, lift, ret, item.
    repeat (case_step; simpl); intros [= <- <-]; try discriminate;
      simpl in *; congruence. }
  destruct (is_token_expired_some env w1 T HT) as (b & Hb & Hiff).
  destruct b.
  - exfalso. apply (Qlt_not_le _ _ (proj1 Hiff eq_refl)). exact Hnow.
  - rewrite (ensure_valid_token_reuse rt env tm w1 (tick w1) Hb). simpl.
    now rewrite Htok.
Qed.

End TokenCache.

Lemma get_access_token_failure_keeps_cache_witness :
  access_token_info
    (snd (Auth.get_access_token Sample.runtime Sample.token_down
            Sample.token_manager Sample.cached_world))
  = access_token_info Sample.cached_world.
Proof.
  apply (get_access_token_failure_keeps_cache Sample.runtime Sample.token_down
           Sample.token_manager Sample.cached_world _
           (Exception "Failed to obtain access token: 500 Server Error:  for url: ")).
  reflexivity.
Defined.

Lemma ensure_valid_token_keeps_cache_ok_witness :
  Spec.cache_ok
    (access_token_info
       (snd (Auth.ensure_valid_token Sample.runtime Sample.all_up
               Sample.token_manager Auth.initial_world))).
Proof.
  apply (ensure_valid_token_keeps_cache_ok Sample.runtime Sample.all_up
           Sample.token_manager Auth.initial_world _ (Ok (JStr "t"))).
  - now left.
  - reflexivity.
Defined.

Lemma ensure_valid_token_twice_witness :
  Auth.ensure_valid_token Sample.runtime Sample.all_up Sample.token_manager
    (snd (Auth.ensure_valid_token Sample.runtime Sample.all_up
            Sample.token_manager Auth.initial_world))
  = (Ok (JStr "t"),
     tick (snd (Auth.ensure_valid_token Sample.runtime Sample.all_up
                  Sample.token_manager Auth.initial_world))).
Proof.
  apply (ensure_valid_token_twice Sample.runtime Sample.all_up
           Sample.token_manager Auth.initial_world _ (JStr "t") (inject_Z 4600)).
  - reflexivity.
  - reflexivity.
  - unfold Qle; simpl; lia.
Defined.

(** ** config.py and the startup check of auth.py *)

Section Startup.
Import Auth.
Context (rt : Runtime).

Lemma parse_env_int_value (value : option string) (fallback : Z) :
  Config._parse_env_int rt value fallback
  = Ok (match value with
        | Some raw =>
            match parse_int rt raw with Some n => n | None => fallback end
        | None => fallback
        end).
Proof.
  unfold Config._parse_env_int. destruct value as [raw |]; simpl; [| reflexivity].
  destruct (parse_int rt raw); reflexivity.
Qed.

Lemma load_settings (getenv : string -> option string) :
  Config.load rt getenv
  = Ok (Config.mkSettings
          (Config.getenv_or getenv "GLOO_CLIENT_ID" "YOUR_CLIENT_ID")
          (Config.getenv_or getenv "GLOO_CLIENT_SECRET" "YOUR_CLIENT_SECRET")
          (Config.getenv_or getenv "GLOO_TENANT" "your-tenant-name")
          (Spec.env_int rt getenv "PORT" 3000)
          (Spec.env_int rt getenv "RAG_MAX_TOKENS" 3000)
          (Spec.env_int rt getenv "RAG_CONTEXT_MAX_SNIPPETS" 5)
          (Spec.env_int rt getenv "RAG_CONTEXT_MAX_CHARS_PER_SNIPPET" 350)).
Proof.
  unfold Config.load. rewrite !parse_env_int_value. reflexivity.
Qed.

Lemma not_set_left_unset (getenv : string -> option string)
  (name placeholder : string) :
  not_set placeholder (Some (Config.getenv_or getenv name placeholder)) = true
  <-> Spec.left_unset getenv name placeholder.
Proof.
  unfold not_set, Config.getenv_or, Spec.left_unset.
  destruct (getenv name) as [s |].
  - rewrite orb_true_iff, !String.eqb_eq. split.
    + intros [-> | ->]; auto.
    + intros [H | [H | H]]; [discriminate | |]; injection H as ->; auto.
  - rewrite String.eqb_refl. simpl. split; auto.
Qed.

(** X4: Startup: the settings always load, whatever the environment holds,
    and the credential check that follows stops the program with exit
    status 1, before anything is sent, exactly when GLOO_CLIENT_ID or
    GLOO_CLIENT_SECRET is unset, empty or left at its placeholder;
    otherwise it passes in silence. *)
Theorem validate_credentials_gate (getenv : string -> option string) (w : World) :
  exists settings,
    Config.load rt getenv = Ok settings
    /\ let run := validate_credentials (Some (Config.CLIENT_ID settings))
                    (Some (Config.CLIENT_SECRET settings)) w in
       ((Spec.left_unset getenv "GLOO_CLIENT_ID" "YOUR_CLIENT_ID"
         \/ Spec.left_unset getenv "GLOO_CLIENT_SECRET" "YOUR_CLIENT_SECRET") ->
        fst run = Raise (SystemExit 1)
        /\ sent (snd run) = sent w
        /\ access_token_info (snd run) = access_token_info w
        /\ List.length (stdout (snd run)) = (List.length (stdout w) + 5)%nat)
       /\ (~ (Spec.left_unset getenv "GLOO_CLIENT_ID" "YOUR_CLIENT_ID"
              \/ Spec.left_unset getenv "GLOO_CLIENT_SECRET" "YOUR_CLIENT_SECRET") ->
           run = (Ok tt, w)).
Proof.
  eexists. split; [apply load_settings |]. simpl.
  pose proof (not_set_left_unset getenv "GLOO_CLIENT_ID" "YOUR_CLIENT_ID") as Hid.
  pose proof (not_set_left_unset getenv "GLOO_CLIENT_SECRET" "YOUR_CLIENT_SECRET")
    as Hsecret.
  unfold validate_credentials.
  destruct (not_set "YOUR_CLIENT_ID" _ || not_set "YOUR_CLIENT_SECRET" _) eqn:Hns.
  - split.
    + intros _. unfold bindM, print, raise. simpl.
      repeat split. rewrite !length_app. simpl. lia.
    + intros Hno. exfalso. apply Hno. apply orb_true_iff in Hns.
      destruct Hns as [H | H]; [left; now apply Hid | right; now apply Hsecret].
  - split; [| reflexivity].
    intros Hyes. exfalso. apply orb_false_iff in Hns as [H1 H2].
    destruct Hyes as [H | H]; [apply Hid in H | apply Hsecret in H]; congruence.
Qed.

(** ** utils.py: other bounds *)

(** X5: [normalize_limit] raises nothing but the OverflowError that
    [int()] raises on an infinite float, and returns on every other
    input; for any bounds minimum <= maximum a parsed input comes out
    inside them, unchanged when it already was inside, and normalizing
    the outcome again changes nothing. *)
Theorem normalize_limit_bounds (value : json) (fallback lo hi : Z) :
  (forall e, Utils.normalize_limit rt value fallback lo hi = Raise e ->
     e = OverflowError /\ exists negative, value = JFloat (Inf negative)) /\
  (forall negative,
     Utils.normalize_limit rt (JFloat (Inf negative)) fallback lo hi
     = Raise OverflowError) /\
  ((forall negative, value <> JFloat (Inf negative)) ->
     exists limit, Utils.normalize_limit rt value fallback lo hi = Ok limit) /\
  (forall parsed,
     Py.int rt value = Ok parsed -> lo <= hi ->
     exists limit,
       Utils.normalize_limit rt value fallback lo hi = Ok limit
       /\ lo <= limit <= hi
       /\ (lo <= parsed <= hi -> limit = parsed)
       /\ Utils.normalize_limit rt (JInt limit) fallback lo hi = Ok limit).
Proof.
  split; [| split; [| split]].
  - intros e. apply normalize_limit_raises.
  - reflexivity.
  - intros Hfinite. destruct (Py.int rt value) as [parsed | e] eqn:H.
    + eexists. apply normalize_limit_parsed. exact H.
    + eexists. apply normalize_limit_unparsed with e; assumption.
  - intros parsed H Hle. exists (Z.max lo (Z.min parsed hi)).
    split; [now apply normalize_limit_parsed |].
    split; [lia |]. split; [lia |].
    rewrite (normalize_limit_parsed rt (JInt _) fallback lo hi _ eq_refl).
    f_equal. lia.
Qed.

End Startup.

Lemma normalize_limit_bounds_witness :
  exists limit,
    Utils.normalize_limit Sample.runtime (JStr "7") 10 5 50 = Ok limit
    /\ 5 <= limit <= 50
    /\ (5 <= 7 <= 50 -> limit = 7)
    /\ Utils.normalize_limit Sample.runtime (JInt limit) 10 5 50 = Ok limit.
Proof.
  apply (proj2 (proj2 (proj2
           (normalize_limit_bounds Sample.runtime (JStr "7") 10 5 50))) 7).
  - reflexivity.
  - lia.
Defined.

Lemma validate_credentials_gate_witness :
  exists settings,
    Config.load Sample.runtime Sample.with_credentials = Ok settings
    /\ Auth.validate_credentials (Some (Config.CLIENT_ID settings))
         (Some (Config.CLIENT_SECRET settings)) Auth.initial_world
       = (Ok tt, Auth.initial_world).
Proof.
  destruct (validate_credentials_gate Sample.runtime Sample.with_credentials
              Auth.initial_world) as (settings & Hload & _ & Hpass).
  exists settings. split; [exact Hload |]. apply Hpass.
  unfold Spec.left_unset. simpl.
  intros [[H | [H | H]] | [H | [H | H]]]; discriminate.
Defined.

Example configured_settings :
  Config.load Sample.runtime Sample.with_credentials = Ok Sample.configured.
Proof. reflexivity. Qed.

(** ** The search clients *)

Section SearchClients.
Import Auth.
Context (rt : Runtime) (env : Env) (cfg : Config.Settings) (tm : TokenManager).

Lemma search_basic_unsorted (query : json) (limit : Z)
  (sort_by : string) (w : World) :
  (sort_by =? "certainty")%string = false ->
  SearchBasic.search rt env cfg tm query limit w
  = SearchAdvanced.search rt env cfg tm query limit sort_by w.
Proof.
  intros Hsort. unfold SearchBasic.search, SearchAdvanced.search.
  destruct (ensure_valid_token rt env tm w) as [[token | e] w1] eqn:Htok.
  2: { now rewrite !(bindM_raise _ _ _ _ _ Htok). }
  rewrite (bindM_ok _ _ _ _ _ Htok). rewrite (bindM_ok _ _ _ _ _ Htok).
  unfold try_except, bindM, requests_post, lift, ret.
  change (SearchBasic.search_request rt cfg token query limit)
    with (SearchAdvanced.search_request rt cfg token query limit).
  rewrite Hsort.
  destruct (server env _ _) as [resp | msg response]; [| reflexivity].
  destruct (raise_for_status resp) as [[] | e]; [| reflexivity].
  destruct (response_json resp); reflexivity.
Qed.

(** X6: [SearchClient.search] of search_basic.py and the advanced client's
    [search] are the same function of the world whenever the sort is not
    "certainty": same requests, same result, same output. *)
Theorem search_basic_is_unsorted_search (query : json) (limit : Z)
  (sort_by : string) (w : World) :
  (sort_by =? "certainty")%string = false ->
  SearchBasic.search rt env cfg tm query limit w
  = SearchAdvanced.search rt env cfg tm query limit sort_by w.
Proof. apply search_basic_unsorted. Qed.

(** X7: What becomes of a search once the token is there: a transport
    failure, a 4xx or 5xx status and an undecodable body are raised as
    "Search request failed: ...", the status and body of a failed reply
    being printed first; without the certainty sort any decoded reply,
    whatever its shape, is returned as it is; with it, a reply that is
    not an object raises AttributeError, unwrapped. *)
Theorem search_outcomes (query : json) (limit : Z) (sort_by : string)
  (w w1 : World) (token : json) :
  ensure_valid_token rt env tm w = (Ok token, w1) ->
  let req := SearchAdvanced.search_request rt cfg token query limit in
  let outcome := server env (List.length (sent w1)) req in
  let run := SearchAdvanced.search rt env cfg tm query limit sort_by w in
  (forall msg, outcome = Failed msg None ->
     run = (Raise (Exception ("Search request failed: " ++ msg)), record req w1)) /\
  (forall resp, outcome = Replied resp -> 400 <= status_code resp < 600 ->
     exists msg,
       run = (Raise (Exception ("Search request failed: " ++ msg)),
              Spec.printed ("Search failed with status "
                              ++ str_of_Z (status_code resp) ++ ": "
                              ++ Py.text resp) (record req w1))) /\
  (forall resp why, outcome = Replied resp ->
     ~ (400 <= status_code resp < 600) -> decoded resp = Undecodable why ->
     run = (Raise (Exception ("Search request failed: " ++ why)), record req w1)) /\
  (forall resp results, outcome = Replied resp ->
     ~ (400 <= status_code resp < 600) -> decoded resp = Parsed results ->
     ((sort_by =? "certainty")%string = false ->
        run = (Ok results, record req w1)) /\
     (sort_by = "certainty" -> (forall d, results <> JDict d) ->
        run = (Raise AttributeError, record req w1))).
Proof.
  intros Htok req outcome run. subst req outcome run.
  unfold SearchAdvanced.search. rewrite (bindM_ok _ _ _ _ _ Htok).
  unfold try_except, bindM, requests_post, lift, ret, raise, print, response_json.
  split; [| split; [| split]].
  - intros msg ->. reflexivity.
  - intros resp -> Hst.
    destruct (raise_for_status resp) as [[] | e] eqn:Hr.
    + apply raise_for_status_ok in Hr. contradiction.
    + destruct (raise_for_status_raises _ _ Hr) as (msg & ->). simpl.
      now exists msg.
  - intros resp why -> Hst Hd. apply raise_for_status_ok in Hst.
    rewrite Hst, Hd. reflexivity.
  - intros resp results -> Hst Hd. apply raise_for_status_ok in Hst.
    rewrite Hst, Hd. simpl. split.
    + intros ->. reflexivity.
    + intros -> Hnot. simpl.
      destruct results; try reflexivity. now destruct (Hnot d).
Qed.

End SearchClients.

Lemma search_basic_is_unsorted_search_witness :
  SearchBasic.search Sample.runtime Sample.all_up Sample.settings
    Sample.token_manager (JStr "What is X?") 10 Auth.initial_world
  = SearchAdvanced.search Sample.runtime Sample.all_up Sample.settings
      Sample.token_manager (JStr "What is X?") 10 "relevance" Auth.initial_world.
Proof.
  apply (search_basic_is_unsorted_search Sample.runtime Sample.all_up
           Sample.settings Sample.token_manager (JStr "What is X?") 10
           "relevance" Auth.initial_world).
  reflexivity.
Defined.

Lemma search_outcomes_witness :
  exists msg,
    SearchAdvanced.search Sample.runtime Sample.search_down Sample.settings
      Sample.token_manager (JStr "What is X?") 10 "relevance" Auth.initial_world
    = (Raise (Exception ("Search request failed: " ++ msg)),
       Spec.printed
         ("Search failed with status " ++ str_of_Z 500 ++ ": " ++ "")
         (record (SearchAdvanced.search_request Sample.runtime Sample.settings
                    (JStr "t") (JStr "What is X?") 10)
                 (snd (Auth.ensure_valid_token Sample.runtime Sample.search_down
                         Sample.token_manager Auth.initial_world)))).
Proof.
  apply (proj1 (proj2 (search_outcomes Sample.runtime Sample.search_down
                         Sample.settings Sample.token_manager (JStr "What is X?")
                         10 "relevance" Auth.initial_world _ (JStr "t") eq_refl))
           (mkResponse 500 "" "" "" (Parsed JNull))).
  - reflexivity.
  - simpl. lia.
Defined.

(** ** Sorting what is sorted, filtering by content type *)

Section SortAgain.
Import SearchAdvanced.
Context {K A : Type} (ltb : K -> K -> bool).

Lemma sort_desc_fixed (l : list (K * A)) :
  StronglySorted (Spec.not_below ltb) l -> sort_desc ltb l = l.
Proof.
  induction 1 as [| x l Hl IH Hx]; simpl; [reflexivity |].
  fold (sort_desc ltb l). rewrite IH.
  destruct l as [| y l']; simpl; [reflexivity |].
  inversion Hx as [| ? ? Hxy _]; subst. unfold Spec.not_below in Hxy.
  now rewrite Hxy.
Qed.

End SortAgain.

Lemma StronglySorted_filter {A} (R : A -> A -> Prop) (keep : A -> bool)
  (l : list A) :
  StronglySorted R l -> StronglySorted R (filter keep l).
Proof.
  induction 1 as [| x l Hl IH Hx]; simpl; [constructor |].
  destruct (keep x); [| exact IH].
  constructor; [exact IH |].
  apply Forall_forall. intros y Hy. apply filter_In in Hy as [Hy _].
  rewrite Forall_forall in Hx. now apply Hx.
Qed.

Lemma filterM_total {A} (keep : A -> Result bool) (g : A -> bool) (l : list A) :
  Forall (fun x => keep x = Ok (g x)) l -> filterM keep l = Ok (filter g l).
Proof.
  induction 1 as [| x l Hx _ IH]; simpl; [reflexivity |].
  rewrite Hx, IH. simpl. now destruct (g x).
Qed.

Lemma store_store (k : string) (v v' : json) (d : dict) :
  store k v (store k v' d) = store k v d.
Proof.
  induction d as [| [k0 v0] d IH]; simpl.
  - now rewrite String.eqb_refl.
  - destruct (String.eqb_spec k k0) as [-> | Hne]; simpl.
    + now rewrite String.eqb_refl.
    + apply String.eqb_neq in Hne. rewrite Hne. now rewrite IH.
Qed.

Section SortedReplies.
Import Auth SearchAdvanced.
Context (rt : Runtime).

Lemma sorted_by_certainty_fixed (rs : list json) :
  forallb Spec.scored rs = true ->
  StronglySorted Spec.certainty_at_least rs ->
  sorted_by_certainty rt (JList rs) = Ok rs.
Proof.
  intros Hrs Hsorted.
  pose proof (keys_scored rs Hrs) as Hkeys. cbv zeta in Hkeys.
  destruct Hkeys as (ks & Hks & Hd).
  rewrite (sorted_by_certainty_keys rt _ _ Hks).
  unfold sorted_reverse. rewrite Hd.
  rewrite sort_desc_fixed.
  - rewrite map_map. simpl. now rewrite map_id.
  - clear Hks Hd ks. induction Hsorted as [| r rs Hs IH Hr]; simpl; constructor.
    + apply IH. simpl in Hrs. now apply andb_prop in Hrs as [_ Hrs].
    + apply Forall_map, Forall_forall. intros z Hz.
      rewrite Forall_forall in Hr. specialize (Hr z Hz).
      unfold Spec.not_below, Spec.certainty_at_least in *. simpl.
      destruct (Spec.certainty r), (Spec.certainty z); try contradiction.
      now apply Qltb_ge.
Qed.

Lemma scored_permutation (rs ordered : list json) :
  Permutation rs ordered ->
  forallb Spec.scored rs = true -> forallb Spec.scored ordered = true.
Proof.
  intros Hperm Hrs. rewrite forallb_forall in *. intros x Hx.
  apply Hrs. now apply (Permutation_in _ (Permutation_sym Hperm)).
Qed.

(** X8: The certainty sort changes nothing in a list already in descending
    certainty, and sorting twice gives what sorting once gives. *)
Theorem sorted_by_certainty_idempotent (rs : list json) :
  forallb Spec.scored rs = true ->
  (StronglySorted Spec.certainty_at_least rs ->
     sorted_by_certainty rt (JList rs) = Ok rs) /\
  (exists ordered,
     sorted_by_certainty rt (JList rs) = Ok ordered
     /\ sorted_by_certainty rt (JList ordered) = Ok ordered).
Proof.
  intros Hrs. split; [now apply sorted_by_certainty_fixed |].
  destruct (sorted_by_certainty_stable rt rs Hrs)
    as (ordered & Hsort & Hperm & Hsorted & _).
  exists ordered. split; [exact Hsort |].
  apply sorted_by_certainty_fixed; [| exact Hsorted].
  now apply scored_permutation with rs.
Qed.

End SortedReplies.

Section FilterByContentType.
Import SearchAdvanced.

Lemma type_in_typed (cts : list string) (r : json) :
  Spec.typed r = true -> type_in cts r = Ok (Spec.of_type cts r).
Proof.
  unfold Spec.typed, Spec.of_type, Spec.field, Spec.part, type_in, get.
  destruct r as [| | | | | | d]; try discriminate. simpl bind.
  destruct (lookup "properties" d) as [[| | | | | | p] |]; try discriminate;
    intros _; simpl; reflexivity.
Qed.

Lemma filter_by_content_type_typed (d : dict) (rs : list json)
  (cts : list string) :
  lookup "data" d = Some (JList rs) ->
  forallb Spec.typed rs = true ->
  filter_by_content_type (JDict d) cts
  = Ok (JDict (store "data" (JList (filter (Spec.of_type cts) rs)) d)).
Proof.
  intros Hd Hrs. unfold filter_by_content_type, get, item. rewrite Hd. simpl bind.
  destruct rs as [| r rs'] eqn:Ers.
  - simpl. now rewrite (store_lookup _ _ _ Hd).
  - rewrite <- Ers in *.
    replace (negb (truthy (JList rs))) with false by (rewrite Ers; reflexivity).
    simpl. rewrite (filterM_total _ (Spec.of_type cts)); [reflexivity |].
    rewrite forallb_forall in Hrs. apply Forall_forall. intros x Hx.
    apply type_in_typed. now apply Hrs.
Qed.

Lemma of_type_spec (cts : list string) (r : json) :
  Spec.of_type cts r = true
  <-> exists s, Spec.field r "properties" "type" JNull = JStr s /\ In s cts.
Proof.
  unfold Spec.of_type.
  destruct (Spec.field r "properties" "type" JNull); split;
    try discriminate; try (intros (s0 & H & _); discriminate).
  - intros H. apply existsb_exists in H as (x & Hin & Heq).
    apply String.eqb_eq in Heq. subst. now exists x.
  - intros (s0 & [= <-] & Hin). apply existsb_exists. exists s.
    split; [exact Hin | apply String.eqb_refl].
Qed.

(** X9: [filter_by_content_type] keeps, in their order, exactly the results
    whose type is one of the content types (a result without a textual
    type is dropped), leaves every other key of the reply alone, and
    changes nothing when applied again. *)
Theorem filter_by_content_type_keeps (d : dict) (rs : list json)
  (cts : list string) :
  lookup "data" d = Some (JList rs) ->
  forallb Spec.typed rs = true ->
  exists d',
    filter_by_content_type (JDict d) cts = Ok (JDict d')
    /\ lookup "data" d' = Some (JList (filter (Spec.of_type cts) rs))
    /\ (forall r, In r (filter (Spec.of_type cts) rs)
                  <-> In r rs
                      /\ exists s, Spec.field r "properties" "type" JNull = JStr s
                                   /\ In s cts)
    /\ (forall k, k <> "data" -> lookup k d' = lookup k d)
    /\ filter_by_content_type (JDict d') cts = Ok (JDict d').
Proof.
  intros Hd Hrs.
  exists (store "data" (JList (filter (Spec.of_type cts) rs)) d).
  split; [now apply filter_by_content_type_typed |].
  split; [apply lookup_store_same |].
  split; [intros r; rewrite filter_In, of_type_spec; reflexivity |].
  split; [intros k Hk; now apply lookup_store_other |].
  rewrite (filter_by_content_type_typed _ (filter (Spec.of_type cts) rs) cts).
  - rewrite store_store. f_equal. f_equal. f_equal. f_equal.
    clear. induction rs as [| r rs IH]; simpl; [reflexivity |].
    destruct (Spec.of_type cts r) eqn:Hr; simpl; [rewrite Hr |]; now rewrite ?IH.
  - apply lookup_store_same.
  - rewrite forallb_forall in *. intros x Hx.
    apply filter_In in Hx as [Hx _]. now apply Hrs.
Qed.

(** X10: A reply without results (no [data], or a null or empty one) comes
    back from the filter as it is, and filtering a list in descending
    certainty leaves a list in descending certainty. *)
Theorem filter_by_content_type_order (d : dict) (cts : list string) :
  ((lookup "data" d = None \/ lookup "data" d = Some JNull
    \/ lookup "data" d = Some (JList [])) ->
     filter_by_content_type (JDict d) cts = Ok (JDict d)) /\
  (forall rs,
     lookup "data" d = Some (JList rs) ->
     forallb Spec.typed rs = true ->
     StronglySorted Spec.certainty_at_least rs ->
     exists d' kept,
       filter_by_content_type (JDict d) cts = Ok (JDict d')
       /\ lookup "data" d' = Some (JList kept)
       /\ StronglySorted Spec.certainty_at_least kept).
Proof.
  split.
  - unfold filter_by_content_type, get.
    intros [H | [H | H]]; rewrite H; reflexivity.
  - intros rs Hd Hrs Hsorted.
    exists (store "data" (JList (filter (Spec.of_type cts) rs)) d),
      (filter (Spec.of_type cts) rs).
    split; [now apply filter_by_content_type_typed |].
    split; [apply lookup_store_same |].
    now apply StronglySorted_filter.
Qed.

End FilterByContentType.

Lemma sorted_by_certainty_idempotent_witness :
  exists ordered,
    SearchAdvanced.sorted_by_certainty Sample.runtime (JList Sample.three_results)
    = Ok ordered
    /\ SearchAdvanced.sorted_by_certainty Sample.runtime (JList ordered)
       = Ok ordered.
Proof.
  apply (sorted_by_certainty_idempotent Sample.runtime Sample.three_results).
  reflexivity.
Defined.

Lemma filter_by_content_type_keeps_witness :
  exists d',
    SearchAdvanced.filter_by_content_type
      (JDict [("data", JList Sample.three_results)]) ["Article"]
    = Ok (JDict d').
Proof.
  destruct (filter_by_content_type_keeps [("data", JList Sample.three_results)]
              Sample.three_results ["Article"] eq_refl eq_refl)
    as (d' & H & _).
  now exists d'.
Defined.

Lemma filter_by_content_type_order_witness :
  SearchAdvanced.filter_by_content_type (JDict [("took", JInt 3)]) ["Article"]
  = Ok (JDict [("took", JInt 3)]).
Proof.
  apply (proj1 (filter_by_content_type_order [("took", JInt 3)] ["Article"])).
  now left.
Defined.

(** ** RAGHelper: bounds of any sign, replies of any shape *)

Section ExtractAnyBound.
Import SearchAdvanced.

Lemma extract_one_projected (mc : Z) (r : json) :
  Spec.is_search_result r = true -> extract_one mc r = Ok (Spec.projected mc r).
Proof.
  unfold Spec.is_search_result, Spec.projected, Spec.snippetText, Spec.snippet_of,
    Spec.field, Spec.part, extract_one.
  destruct r as [| | | | | | d]; try discriminate.
  unfold get at 1. simpl bind.
  destruct (lookup "properties" d) as [[| | | | | | p] |] eqn:Hp; try discriminate.
  - unfold get at 1; simpl bind.
    destruct (lookup "snippet" p) as [[| | | | s | |] |] eqn:Hs; try discriminate;
      destruct (lookup "metadata" d) as [[| | | | | | m] |] eqn:Hm;
      try discriminate; intros _; reflexivity.
  - destruct (lookup "metadata" d) as [[| | | | | | m] |] eqn:Hm;
      try discriminate; intros _; reflexivity.
Qed.


Lemma mapM_first_raise {A B} (f : A -> Result B) (g : A -> B)
  (before after : list A) (x : A) (e : exn) :
  Forall (fun y => f y = Ok (g y)) before ->
  f x = Raise e ->
  mapM f (before ++ x :: after) = Raise e.
Proof.
  induction 1 as [| y l Hy _ IH]; intros Hx; simpl.
  - now rewrite Hx.
  - rewrite Hy. simpl. now rewrite (IH Hx).
Qed.


(** X12: Replies that hold no usable result: without [data], or with a null,
    empty or zero one, an object reply gives no snippet whatever the
    bounds; a reply that is not an object raises AttributeError; and a
    result whose [snippet] is null (present, unlike a missing one) raises
    TypeError, when it lies within the bound and the results before it
    are well formed. *)
Theorem extract_snippets_edges (ms mc : Z) :
  (forall d data,
     lookup "data" d = None \/ (lookup "data" d = Some data /\ truthy data = false) ->
     extract_snippets (JDict d) ms mc = Ok []) /\
  (forall results, (forall d, results <> JDict d) ->
     extract_snippets results ms mc = Raise AttributeError) /\
  (forall d before r after rd p,
     lookup "data" d = Some (JList (before ++ r :: after)) ->
     forallb Spec.is_search_result before = true ->
     r = JDict rd ->
     lookup "properties" rd = Some (JDict p) ->
     lookup "snippet" p = Some JNull ->
     (List.length before < slice_count ms (List.length (before ++ r :: after)))%nat ->
     extract_snippets (JDict d) ms mc = Raise TypeError).
Proof.
  split; [| split].
  - intros d data [H | [H Hfalse]]; unfold extract_snippets, get; rewrite H; simpl;
      [reflexivity | now rewrite Hfalse].
  - intros results Hnot. destruct results; try reflexivity. now destruct (Hnot d).
  - intros d before r after rd p Hd Hbefore -> Hp Hs Hin.
    assert (Ht : truthy (JList (before ++ JDict rd :: after)) = true)
      by (now destruct before).
    unfold extract_snippets, get, item. rewrite Hd. cbn [bind]. rewrite Ht.
    cbn [negb bind slice iter]. unfold list_slice.
    set (n := slice_count ms (List.length (before ++ JDict rd :: after))) in *.
    rewrite firstn_app.
    rewrite firstn_all2 by lia.
    destruct (n - List.length before)%nat as [| k] eqn:Hk; [lia |].
    simpl. apply mapM_first_raise with (g := Spec.projected mc).
    + rewrite forallb_forall in Hbefore. apply Forall_forall. intros x Hx.
      apply extract_one_projected. now apply Hbefore.
    + unfold extract_one, get. rewrite Hp. simpl. now rewrite Hs.
Qed.

End ExtractAnyBound.


Lemma extract_snippets_edges_witness :
  SearchAdvanced.extract_snippets
    (JDict [("data", JList (Sample.three_results ++ [Sample.null_snippet]))])
    5 350
  = Raise TypeError.
Proof.
  apply (proj2 (proj2 (extract_snippets_edges 5 350))
           [("data", JList (Sample.three_results ++ [Sample.null_snippet]))]
           Sample.three_results Sample.null_snippet []
           [("properties", JDict [("item_title", JStr "D"); ("snippet", JNull)])]
           [("item_title", JStr "D"); ("snippet", JNull)]);
    try reflexivity.
  apply Nat.ltb_lt. reflexivity.
Defined.

(** ** RAGHelper: how the context grows, what a completion reply gives *)

Section ContextGrowth.
Import SearchAdvanced.
Context (rt : Runtime).

Lemma concat_snoc (sep x : string) (l : list string) :
  String.concat sep (l ++ [x])
  = match l with
    | [] => x
    | _ :: _ => String.concat sep l ++ sep ++ x
    end.
Proof.
  induction l as [| y l IH]; simpl; [reflexivity |].
  destruct l as [| z l']; simpl in *; [reflexivity |].
  rewrite IH. now rewrite !append_assoc.
Qed.

Lemma context_parts_snoc (start : Z) (l : list Snippet) (s : Snippet) :
  context_parts rt start (l ++ [s])
  = (context_parts rt start l
     ++ [context_part rt (start + Z.of_nat (List.length l)) s])%list.
Proof.
  revert start; induction l as [| x l IH]; intros start.
  - simpl. now rewrite Z.add_0_r.
  - cbn [app context_parts List.length]. rewrite IH, Nat2Z.inj_succ.
    replace (start + 1 + Z.of_nat (List.length l))
      with (start + Z.succ (Z.of_nat (List.length l))) by lia.
    reflexivity.
Qed.

Lemma context_parts_length (start : Z) (l : list Snippet) :
  List.length (context_parts rt start l) = List.length l.
Proof.
  revert start; induction l as [| x l IH]; intros start; simpl; auto.
Qed.

(** X13: The context only grows at its end: one more snippet adds the
    separator (after a first block) and its own block, numbered by its
    place, to the context of the snippets before it, which stays as it
    was. *)
Theorem format_context_for_llm_snoc (snippets : list Snippet) (s : Snippet) :
  format_context_for_llm rt (snippets ++ [s])
  = format_context_for_llm rt snippets
    ++ (match snippets with [] => "" | _ :: _ => separator end)
    ++ context_part rt (Z.of_nat (List.length snippets) + 1) s.
Proof.
  unfold format_context_for_llm. rewrite context_parts_snoc, concat_snoc.
  replace (1 + Z.of_nat (List.length snippets))
    with (Z.of_nat (List.length snippets) + 1) by lia.
  destruct snippets as [| x l]; reflexivity.
Qed.

End ContextGrowth.

Section CompletionReplies.
Import Auth SearchAdvanced.
Context (rt : Runtime) (env : Env) (cfg : Config.Settings) (tm : TokenManager).

(** X14: What becomes of a generation call once the token is there.  A 4xx
    or 5xx status is raised as "Completions request failed: ...", its
    body printed first.  From a decoded object the answer is
    choices[0].message.content, the empty string standing in for a
    missing [choices], [message] or [content]; but an empty [choices]
    list raises IndexError. *)
Theorem generate_with_context_outcomes (query : json) (context : string)
  (system_prompt : json) (w w1 : World) (token : json) :
  ensure_valid_token rt env tm w = (Ok token, w1) ->
  let req := completion_request rt cfg token query context system_prompt in
  let outcome := server env (List.length (sent w1)) req in
  let run := generate_with_context rt env cfg tm query context system_prompt w in
  (forall resp, outcome = Replied resp -> 400 <= status_code resp < 600 ->
     exists msg,
       run = (Raise (Exception ("Completions request failed: " ++ msg)),
              Spec.printed ("Completions API failed: " ++ Py.text resp)
                           (record req w1))) /\
  (forall resp body, outcome = Replied resp ->
     ~ (400 <= status_code resp < 600) -> decoded resp = Parsed (JDict body) ->
     (lookup "choices" body = None -> run = (Ok (JStr ""), record req w1)) /\
     (lookup "choices" body = Some (JList []) ->
        run = (Raise IndexError, record req w1)) /\
     (forall first rest,
        lookup "choices" body = Some (JList (JDict first :: rest)) ->
        (lookup "message" first = None -> run = (Ok (JStr ""), record req w1)) /\
        (forall message,
           lookup "message" first = Some (JDict message) ->
           run = (Ok (match lookup "content" message with
                      | Some content => content
                      | None => JStr ""
                      end), record req w1)))).
Proof.
  intros Htok req outcome run. subst req outcome run.
  unfold generate_with_context. rewrite (bindM_ok _ _ _ _ _ Htok).
  unfold try_except, bindM, requests_post, lift, ret, raise, print, response_json.
  split.
  - intros resp -> Hst.
    destruct (raise_for_status resp) as [[] | e] eqn:Hr.
    + apply raise_for_status_ok in Hr. contradiction.
    + destruct (raise_for_status_raises _ _ Hr) as (msg & ->). simpl.
      now exists msg.
  - intros resp body -> Hst Hd. apply raise_for_status_ok in Hst.
    rewrite Hst, Hd. simpl. split; [| split].
    + intros ->. reflexivity.
    + intros ->. reflexivity.
    + intros first rest ->. simpl. split.
      * intros ->. reflexivity.
      * intros message ->. reflexivity.
Qed.

End CompletionReplies.

Lemma generate_with_context_outcomes_witness :
  SearchAdvanced.generate_with_context Sample.runtime Sample.no_choices
    Sample.settings Sample.token_manager (JStr "What is X?") "ctx" JNull
    Auth.initial_world
  = (Raise IndexError,
     record (SearchAdvanced.completion_request Sample.runtime Sample.settings
               (JStr "t") (JStr "What is X?") "ctx" JNull)
            (snd (Auth.ensure_valid_token Sample.runtime Sample.no_choices
                    Sample.token_manager Auth.initial_world))).
Proof.
  destruct (generate_with_context_outcomes Sample.runtime Sample.no_choices
              Sample.settings Sample.token_manager (JStr "What is X?") "ctx"
              JNull Auth.initial_world _ (JStr "t") eq_refl) as (_ & H).
  destruct (H (mkResponse 200 "" "" "" (Parsed (JDict [("choices", JList [])])))
              [("choices", JList [])] eq_refl) as (_ & Hempty & _).
  - simpl. lia.
  - reflexivity.
  - apply Hempty. reflexivity.
Defined.

(** ** server.py: the RAG route, request by request *)

Section RagRoute.
Import Auth SearchAdvanced.
Context (rt : Runtime) (env : Env) (cfg : Config.Settings).

Let tm : TokenManager := Server.token_manager cfg.

Lemma requested_limit_range (b : dict) :
  (exists limit, Spec.requested_limit rt b = Ok limit /\ 1 <= limit <= 100)
  \/ (Spec.requested_limit rt b = Raise OverflowError
      /\ exists negative, lookup "limit" b = Some (JFloat (Inf negative))).
Proof.
  unfold Spec.requested_limit.
  destruct (lookup "limit" b) as [raw |] eqn:Hraw.
  - destruct (Py.int rt raw) as [parsed | e] eqn:H.
    + left. exists (Z.max 1 (Z.min parsed 100)). split; [| lia].
      now apply normalize_limit_parsed.
    + destruct (int_raises _ _ _ H) as [(_ & negative & ->) | (_ & Hfinite)].
      * right. split; [reflexivity | now exists negative].
      * left. exists 5. split; [| lia].
        now apply normalize_limit_unparsed with e.
  - left. exists 5. split; [reflexivity | lia].
Qed.

Lemma api_rag_bad_limit (b : dict) (query : json) (e : exn) (w : World) :
  lookup "query" b = Some query ->
  truthy query = true ->
  Spec.requested_limit rt b = Raise e ->
  Server.api_rag rt env cfg (JDict b) w = (Raise e, w).
Proof.
  intros Hq Ht Hl.
  assert (Hb : truthy (JDict b) = true)
    by (destruct b; [discriminate | reflexivity]).
  unfold Server.api_rag, bindM, lift, ret, get, item.
  rewrite Hb, Hq, Ht. cbn -[lookup Utils.normalize_limit].
  unfold Spec.requested_limit in Hl. rewrite Hl. reflexivity.
Qed.

(** X15: The route asks for a query before anything else: an empty body (null,
    {}, [], "", 0, false) and an object whose [query] is missing or empty
    are answered 400 at once, nothing sent, nothing logged, the cache
    untouched; a body that is not empty and not an object raises
    AttributeError out of the route, its world untouched as well. *)
Theorem api_rag_requires_query (body : json) (w : World) :
  let answer := (JDict [("error", JStr "Field 'query' is required")], 400) in
  (truthy body = false -> Server.api_rag rt env cfg body w = (Ok answer, w)) /\
  (forall b, body = JDict b ->
     (lookup "query" b = None
      \/ exists query, lookup "query" b = Some query /\ truthy query = false) ->
     Server.api_rag rt env cfg body w = (Ok answer, w)) /\
  (truthy body = true -> (forall b, body <> JDict b) ->
     Server.api_rag rt env cfg body w = (Raise AttributeError, w)).
Proof.
  simpl. split; [| split].
  - intros H. unfold Server.api_rag, bindM, ret. now rewrite H.
  - intros b -> Hq. unfold Server.api_rag, bindM, ret, lift, get.
    destruct (truthy (JDict b)); simpl; [| reflexivity].
    destruct Hq as [-> | (query & -> & Hfalse)]; simpl; [reflexivity |].
    now rewrite Hfalse.
  - intros H Hnot. unfold Server.api_rag, bindM, ret, lift. rewrite H. simpl.
    destruct body; try reflexivity. now destruct (Hnot d).
Qed.

Lemma api_rag_frame (body : json) (w w' : World) (r : Result (json * Z)) :
  (forall b query, body = JDict b -> lookup "query" b = Some query ->
                   truthy query = false) ->
  Server.api_rag rt env cfg body w = (r, w') -> w' = w.
Proof.
  intros Hinvalid. unfold Server.api_rag, bindM, ret, lift, get.
  destruct (truthy body) eqn:Ht; simpl; [| now intros [= _ <-]].
  destruct body as [| | | | | | b]; simpl; try (now intros [= _ <-]).
  destruct (lookup "query" b) as [query |] eqn:Hq; simpl.
  - rewrite (Hinvalid b query eq_refl Hq). simpl. now intros [= _ <-].
  - now intros [= _ <-].
Qed.

Lemma rag_steps_search_limit (query : json) (limit : Z) (sp : json)
  (w w' : World) (r : Result (json * Z)) :
  Server.rag_steps rt env cfg query limit sp w = (r, w') ->
  exists delta,
    sent w' = (sent w ++ delta)%list
    /\ Forall (fun req =>
                 url req = Config.SEARCH_URL ->
                 exists token, req = search_request rt cfg token query limit)
              delta.
Proof.
  assert (Hsearch : forall w0 w1 r0,
            search rt env cfg tm query limit "relevance" w0 = (r0, w1) ->
            exists delta,
              sent w1 = (sent w0 ++ delta)%list
              /\ Forall (fun req =>
                           url req = Config.SEARCH_URL ->
                           exists token,
                             req = search_request rt cfg token query limit)
                        delta).
  { intros w0 w1 r0 Hs.
    destruct (search_trace rt env cfg _ _ _ _ _ _ Hs)
      as (grant & calls & Hsent & Hg & Hc).
    exists (grant ++ calls)%list. split; [exact Hsent |].
    apply Forall_app. split.
    - destruct Hg as [-> | ->]; repeat constructor. discriminate.
    - destruct Hc as [-> | (token & ->)]; repeat constructor. intros _.
      now exists token. }
  assert (Hgen : forall context w1 w2 r2,
            generate_with_context rt env cfg tm query context sp w1 = (r2, w2) ->
            exists delta,
              sent w2 = (sent w1 ++ delta)%list
              /\ Forall (fun req =>
                           url req = Config.SEARCH_URL ->
                           exists token,
                             req = search_request rt cfg token query limit)
                        delta).
  { intros context w1 w2 r2 Hg.
    destruct (generate_trace rt env cfg tm _ _ _ _ _ _ Hg)
      as (grant & calls & Hsent & Hgr & Hc).
    exists (grant ++ calls)%list. split; [exact Hsent |].
    apply Forall_app. split.
    - destruct Hgr as [-> | ->]; repeat constructor. discriminate.
    - destruct Hc as [-> | (token & ->)]; repeat constructor. discriminate. }
  destruct (search rt env cfg tm query limit "relevance" w)
    as [[results | e0] w1] eqn:Hs;
    destruct (Hsearch _ _ _ Hs) as (delta1 & Hsent1 & Hall1).
  - destruct (get results "data" JNull) as [data | e1] eqn:Hd.
    + destruct (truthy data) eqn:Ht.
      * rewrite (rag_steps_results rt env cfg _ _ _ _ _ _ _ Hs Hd Ht).
        destruct (extract_snippets results _ _) as [snippets | e2] eqn:Hx.
        -- destruct (generate_with_context rt env cfg
                       (Server.token_manager cfg) query _ sp w1)
             as [r2 w2] eqn:Hg.
           destruct (Hgen _ _ _ _ Hg) as (delta2 & Hsent2 & Hall2).
           intros Hrun. assert (Hw : w' = w2) by (destruct r2; now injection Hrun).
           subst w'. exists (delta1 ++ delta2)%list.
           split; [rewrite Hsent2, Hsent1; now rewrite app_assoc |].
           apply Forall_app. now split.
        -- intros [= <- <-]. now exists delta1.
      * rewrite (rag_steps_no_results rt env cfg _ _ _ _ _ _ _ Hs Hd Ht).
        intros [= <- <-]. now exists delta1.
    + rewrite (rag_steps_bad_reply rt env cfg _ _ _ _ _ _ _ Hs Hd).
      intros [= <- <-]. now exists delta1.
  - rewrite (rag_steps_search_failed rt env cfg _ _ _ _ _ _ Hs).
    intros [= <- <-]. now exists delta1.
Qed.

(** X16: Whatever limit the caller asks for (a number, a text, anything or
    nothing), a search request the route sends carries a limit of 1 to
    100. *)
Theorem api_rag_limit_in_range (body : json) (w w' : World)
  (r : Result (json * Z)) :
  Server.api_rag rt env cfg body w = (r, w') ->
  exists delta,
    sent w' = (sent w ++ delta)%list
    /\ Forall (fun req => url req = Config.SEARCH_URL -> Spec.limit_in_range req)
              delta.
Proof.
  intros Hrun.
  assert (Hvalid : (exists b query, body = JDict b /\ lookup "query" b = Some query
                                    /\ truthy query = true)
                   \/ (forall b query, body = JDict b ->
                         lookup "query" b = Some query -> truthy query = false)).
  { destruct body as [| | | | | | b]; try (right; intros; discriminate).
    destruct (lookup "query" b) as [query |] eqn:Hq.
    - destruct (truthy query) eqn:Ht.
      + left. now exists b, query.
      + right. intros b' query' [= <-] Hq'. congruence.
    - right. intros b' query' [= <-] Hq'. congruence. }
  destruct Hvalid as [(b & query & -> & Hq & Ht) | Hinvalid].
  - destruct (requested_limit_range b) as [(limit & Hl & Hrange) | (Hl & _)].
    2: { rewrite (api_rag_bad_limit b query _ w Hq Ht Hl) in Hrun.
         injection Hrun as _ <-. exists [].
         split; [now rewrite app_nil_r | constructor]. }
    rewrite (api_rag_valid rt env cfg b query limit w Hq Ht Hl) in Hrun.
    unfold try_except in Hrun.
    destruct (Server.rag_steps rt env cfg query limit (Spec.requested_prompt b) w)
      as [r0 w0] eqn:Hsteps.
    destruct (rag_steps_search_limit _ _ _ _ _ _ Hsteps) as (delta & Hsent & Hall).
    exists delta. split.
    + destruct r0 as [a | e]; [now injection Hrun as _ <- |].
      destruct (is_Exception e); injection Hrun as _ <-; exact Hsent.
    + revert Hall. apply Forall_impl. intros req Hreq Hurl.
      destruct (Hreq Hurl) as (token & ->). exists limit. split; [reflexivity | lia].
  - rewrite (api_rag_frame body w w' r Hinvalid Hrun). exists [].
    split; [now rewrite app_nil_r | constructor].
Qed.

(** X17: A run that goes through: when the search returns results and the
    generation returns an answer, the route answers 200 with that answer
    and, as sources, the title and type of the first min(limit,
    RAG_CONTEXT_MAX_SNIPPETS) results in their order, the very snippets
    whose context was sent for generation. *)
Theorem api_rag_answers (b : dict) (query : json) (limit : Z) (w w1 w2 : World)
  (d : dict) (r : json) (rs : list json) (generated : json) :
  lookup "query" b = Some query ->
  truthy query = true ->
  Spec.requested_limit rt b = Ok limit ->
  search rt env cfg tm query limit "relevance" w = (Ok (JDict d), w1) ->
  lookup "data" d = Some (JList (r :: rs)) ->
  forallb Spec.is_search_result (r :: rs) = true ->
  0 <= Config.RAG_CONTEXT_MAX_SNIPPETS cfg ->
  0 <= Config.RAG_CONTEXT_MAX_CHARS_PER_SNIPPET cfg ->
  let snippets :=
    Spec.extract (r :: rs)
      (Z.to_nat (Z.min limit (Config.RAG_CONTEXT_MAX_SNIPPETS cfg)))
      (Z.to_nat (Config.RAG_CONTEXT_MAX_CHARS_PER_SNIPPET cfg)) in
  generate_with_context rt env cfg tm query (format_context_for_llm rt snippets)
    (Spec.requested_prompt b) w1 = (Ok generated, w2) ->
  Server.api_rag rt env cfg (JDict b) w
  = (Ok (JDict [("response", generated); ("sources", Server.sources snippets)],
         200), w2)
  /\ Server.sources snippets
     = JList (map (fun x =>
                     JDict [("title", Spec.field x "properties" "item_title"
                                        (JStr "N/A"));
                            ("type", Spec.field x "properties" "type"
                                       (JStr "N/A"))])
                  (firstn (Z.to_nat (Z.min limit
                                       (Config.RAG_CONTEXT_MAX_SNIPPETS cfg)))
                          (r :: rs)))
  /\ Z.of_nat (List.length snippets)
     <= Z.min limit (Config.RAG_CONTEXT_MAX_SNIPPETS cfg).
Proof.
  intros Hq Ht Hl Hs Hd Hrs Hmax Hchars snippets Hg.
  assert (Hlimit : 1 <= limit <= 100).
  { destruct (requested_limit_range b) as [(limit' & Hl' & Hrange) | (Hl' & _)];
      rewrite Hl in Hl'; [now injection Hl' as <- | discriminate]. }
  split; [| split].
  - apply (api_rag_answered rt env cfg b query limit w w2 _ Hq Ht Hl).
    rewrite (rag_steps_results rt env cfg query limit _ w w1 (JDict d)
               (JList (r :: rs)) Hs); [| unfold get; now rewrite Hd | reflexivity].
    rewrite (extract_snippets_refines d (r :: rs) _ _ Hd Hrs) by lia.
    fold snippets. unfold tm in Hg. now rewrite Hg.
  - unfold Server.sources, snippets, Spec.extract. now rewrite map_map.
  - unfold snippets. rewrite extract_length. lia.
Qed.

(** X22: The limit of a request is normalized outside the [try] of the
    route.  For a body with a query, the route raises exactly when the
    limit is an infinite float (1e999 in the JSON text): the
    OverflowError of [int()] leaves the route before any step has run,
    nothing sent, nothing logged, the cache untouched.  Whatever else the
    limit is, the route returns an answer; a nan limit counts as no
    limit, 5. *)
Theorem api_rag_infinite_limit (b : dict) (query : json) (w : World) :
  lookup "query" b = Some query ->
  truthy query = true ->
  (forall negative,
     lookup "limit" b = Some (JFloat (Inf negative)) ->
     Server.api_rag rt env cfg (JDict b) w = (Raise OverflowError, w)) /\
  (forall e w',
     Server.api_rag rt env cfg (JDict b) w = (Raise e, w') ->
     e = OverflowError /\ w' = w
     /\ exists negative, lookup "limit" b = Some (JFloat (Inf negative))) /\
  ((forall negative, lookup "limit" b <> Some (JFloat (Inf negative))) ->
   exists answer w', Server.api_rag rt env cfg (JDict b) w = (Ok answer, w')) /\
  (lookup "limit" b = Some (JFloat NaN) ->
   Spec.requested_limit rt b = Ok 5).
Proof.
  intros Hq Ht.
  assert (Hreturns : forall limit,
            Spec.requested_limit rt b = Ok limit ->
            exists answer w', Server.api_rag rt env cfg (JDict b) w = (Ok answer, w')).
  { intros limit Hl.
    destruct (Server.rag_steps rt env cfg query limit (Spec.requested_prompt b) w)
      as [[a | e] w1] eqn:Hrun.
    - exists a, w1. now apply (api_rag_answered rt env cfg b query limit).
    - eexists _, _. now apply (api_rag_failed rt env cfg b query limit w w1 e). }
  split; [| split; [| split]].
  - intros negative Hl. apply (api_rag_bad_limit b query _ w Hq Ht).
    unfold Spec.requested_limit. now rewrite Hl.
  - intros e w' Hrun.
    destruct (requested_limit_range b) as [(limit & Hl & _) | (Hl & Hinf)].
    + destruct (Hreturns limit Hl) as (answer & w1 & Hok). congruence.
    + rewrite (api_rag_bad_limit b query _ w Hq Ht Hl) in Hrun.
      injection Hrun as <- <-. auto.
  - intros Hfinite.
    destruct (requested_limit_range b) as [(limit & Hl & _) | (_ & negative & Hinf)].
    + now apply Hreturns with limit.
    + now destruct (Hfinite negative).
  - intros Hl. unfold Spec.requested_limit. now rewrite Hl.
Qed.

End RagRoute.

Lemma api_rag_infinite_limit_witness :
  Server.api_rag Sample.runtime Sample.all_up Sample.settings
    (JDict [("query", JStr "What is X?"); ("limit", JFloat (Inf false))])
    Auth.initial_world
  = (Raise OverflowError, Auth.initial_world).
Proof.
  apply (proj1 (api_rag_infinite_limit Sample.runtime Sample.all_up
                  Sample.settings
                  [("query", JStr "What is X?"); ("limit", JFloat (Inf false))]
                  (JStr "What is X?") Auth.initial_world eq_refl eq_refl)
           false eq_refl).
Defined.

Lemma api_rag_requires_query_witness :
  Server.api_rag Sample.runtime Sample.all_up Sample.settings
    (JDict [("query", JStr ""); ("limit", JInt 3)]) Auth.initial_world
  = (Ok (JDict [("error", JStr "Field 'query' is required")], 400),
     Auth.initial_world).
Proof.
  apply (proj1 (proj2 (api_rag_requires_query Sample.runtime Sample.all_up
                         Sample.settings
                         (JDict [("query", JStr ""); ("limit", JInt 3)])
                         Auth.initial_world))
           [("query", JStr ""); ("limit", JInt 3)] eq_refl).
  right. now exists (JStr "").
Defined.

Lemma api_rag_limit_in_range_witness :
  exists delta,
    sent (snd (Server.api_rag Sample.runtime Sample.all_up Sample.settings
                 (JDict [("query", JStr "What is X?"); ("limit", JInt 500)])
                 Auth.initial_world))
    = (sent Auth.initial_world ++ delta)%list
    /\ Forall (fun req => url req = Config.SEARCH_URL -> Spec.limit_in_range req)
              delta.
Proof.
  apply (api_rag_limit_in_range Sample.runtime Sample.all_up Sample.settings
           (JDict [("query", JStr "What is X?"); ("limit", JInt 500)])
           Auth.initial_world _
           (fst (Server.api_rag Sample.runtime Sample.all_up Sample.settings
                   (JDict [("query", JStr "What is X?"); ("limit", JInt 500)])
                   Auth.initial_world))).
  reflexivity.
Defined.

Lemma api_rag_answers_witness :
  fst (Server.api_rag Sample.runtime Sample.all_up Sample.settings
         Sample.question Auth.initial_world)
  = Ok (JDict [("response", JStr "An answer.");
               ("sources",
                Server.sources (Spec.extract Sample.three_results 5 350))], 200).
Proof.
  assert (Hmax : 0 <= Config.RAG_CONTEXT_MAX_SNIPPETS Sample.settings)
    by (simpl; lia).
  assert (Hchars : 0 <= Config.RAG_CONTEXT_MAX_CHARS_PER_SNIPPET Sample.settings)
    by (simpl; lia).
  pose proof (api_rag_answers Sample.runtime Sample.all_up Sample.settings
                [("query", JStr "What is X?")] (JStr "What is X?") 5
                Auth.initial_world
                (snd (SearchAdvanced.search Sample.runtime Sample.all_up
                        Sample.settings Sample.token_manager (JStr "What is X?")
                        5 "relevance" Auth.initial_world))
                (snd (Server.api_rag Sample.runtime Sample.all_up Sample.settings
                        Sample.question Auth.initial_world))
                [("data", JList Sample.three_results)]
                (Sample.result "A" "alpha" (5 # 10))
                [Sample.result "B" "beta" (9 # 10);
                 Sample.result "C" "gamma" (7 # 10)]
                (JStr "An answer.")
                eq_refl eq_refl eq_refl eq_refl eq_refl eq_refl Hmax Hchars
                eq_refl) as (H & _).
  change (JDict [("query", JStr "What is X?")]) with Sample.question in H.
  rewrite H. reflexivity.
Defined.

(** ** server.py: the search route *)

Section SearchRoute.
Import Auth.
Context (rt : Runtime) (env : Env) (cfg : Config.Settings).

Let tm : TokenManager := Server.token_manager cfg.

Lemma search_basic_raises (query : json) (limit : Z) (w w' : World) (e : exn) :
  SearchBasic.search rt env cfg tm query limit w = (Raise e, w') ->
  is_Exception e = true.
Proof.
  rewrite (search_basic_unsorted rt env cfg tm query limit "relevance" w eq_refl).
  apply search_relevance_raises.
Qed.

Lemma text_limit_range (raw : string) :
  exists limit,
    Utils.normalize_limit rt (JStr raw) 10 1 100 = Ok limit /\ 1 <= limit <= 100.
Proof.
  destruct (Py.int rt (JStr raw)) as [parsed | e] eqn:H.
  - exists (Z.max 1 (Z.min parsed 100)). split; [| lia].
    now apply normalize_limit_parsed.
  - exists 10. split; [| lia]. now apply normalize_limit_text_unparsed with e.
Qed.

(** X18: The search route.  Without a query (no [q], or an empty one) it
    answers 400 and touches nothing.  With one it never raises: it
    answers 200 with the upstream document as it came, or, whatever went
    wrong, 500 with "Search request failed", the failure's text going to
    the log; and the limit it asks upstream for is the caller's clamped
    into 1..100, 10 when it is missing or not a number. *)
Theorem api_search_outcomes (args : string -> option string) (w : World) :
  ((args "q" = None \/ args "q" = Some "") ->
     Server.api_search rt env cfg args w
     = (Ok (JDict [("error", JStr "Query parameter 'q' is required")], 400), w)) /\
  (forall query,
     args "q" = Some query -> query <> "" ->
     exists limit,
       Utils.normalize_limit rt
         (JStr (match args "limit" with Some raw => raw | None => "10" end))
         10 1 100 = Ok limit
       /\ 1 <= limit <= 100
       /\ (forall results w1,
             SearchBasic.search rt env cfg tm (JStr query) limit w
             = (Ok results, w1) ->
             Server.api_search rt env cfg args w = (Ok (results, 200), w1))
       /\ (forall e w1,
             SearchBasic.search rt env cfg tm (JStr query) limit w
             = (Raise e, w1) ->
             Server.api_search rt env cfg args w
             = (Ok (JDict [("error", JStr "Search request failed")], 500),
                Spec.logged ("Search error: " ++ exn_str rt e) w1))).
Proof.
  split.
  - unfold Server.api_search. intros [-> | ->]; reflexivity.
  - intros query Hq Hne.
    destruct (text_limit_range
                (match args "limit" with Some raw => raw | None => "10" end))
      as (limit & Hl & Hrange).
    exists limit. split; [exact Hl |]. split; [exact Hrange |].
    unfold Server.api_search. rewrite Hq.
    destruct query as [| c query']; [contradiction |].
    assert (Hlift : forall w0,
              lift (Utils.normalize_limit rt
                      (JStr (match args "limit" with
                             | Some raw => raw
                             | None => "10"
                             end)) 10 1 100) w0 = (Ok limit, w0))
      by (intros w0; unfold lift; now rewrite Hl).
    rewrite (bindM_ok _ _ _ _ _ (Hlift w)).
    split.
    + intros results w1 Hs. apply try_except_ok.
      apply (eq_trans (bindM_ok _ _ _ _ _ Hs)). reflexivity.
    + intros e w1 Hs.
      rewrite (try_except_caught _ _ _ w w1 e
                 (bindM_raise _ _ _ _ _ Hs) (search_basic_raises _ _ _ _ _ Hs)).
      reflexivity.
Qed.

End SearchRoute.

Lemma api_search_outcomes_witness :
  exists limit,
    Utils.normalize_limit Sample.runtime (JStr "500") 10 1 100 = Ok limit
    /\ 1 <= limit <= 100.
Proof.
  destruct (proj2 (api_search_outcomes Sample.runtime Sample.all_up
                     Sample.settings
                     (Sample.params (Some "What is X?") (Some "500"))
                     Auth.initial_world) "What is X?" eq_refl)
    as (limit & Hl & Hrange & _).
  - discriminate.
  - now exists limit.
Defined.

Example api_search_run :
  fst (Server.api_search Sample.runtime Sample.all_up Sample.settings
         (Sample.params (Some "What is X?") (Some "500")) Auth.initial_world)
  = Ok (JDict [("data", JList Sample.three_results)], 200)
  /\ map Spec.limit_of
       (Spec.search_requests
          (sent (snd (Server.api_search Sample.runtime Sample.all_up
                        Sample.settings
                        (Sample.params (Some "What is X?") (Some "500"))
                        Auth.initial_world))))
     = [Some (JInt 100)].
Proof. split; reflexivity. Qed.

(** ** The command line: filtered_search, rag_search, main *)

Section SafeAndQuiet.

Lemma safe_ret {A} (a : A) : Spec.safe (ret a).
Proof. intros w e w'. discriminate. Qed.

Lemma safe_print (line : string) : Spec.safe (print line).
Proof. intros w e w'. discriminate. Qed.

Lemma safe_lift {A} (r : Result A) :
  (forall e, r = Raise e -> is_Exception e = true) -> Spec.safe (lift r).
Proof. intros H w e w' [= -> _]. now apply H. Qed.

Lemma safe_bind {A B} (m : M A) (k : A -> M B) :
  Spec.safe m -> (forall a, Spec.safe (k a)) -> Spec.safe (bindM m k).
Proof.
  intros Hm Hk w e w'. unfold bindM.
  destruct (m w) as [[a | e0] w0] eqn:Hrun.
  - apply Hk.
  - intros [= <- <-]. now apply (Hm _ _ _ Hrun).
Qed.

Lemma quiet_ret {A} (a : A) : Spec.quiet (ret a).
Proof. intros w r w' [= <- <-]. auto. Qed.

Lemma quiet_print (line : string) : Spec.quiet (print line).
Proof. intros w r w' [= <- <-]. auto. Qed.

Lemma quiet_raise {A} (e : exn) : Spec.quiet (@raise A e).
Proof. intros w r w' [= <- <-]. auto. Qed.

Lemma quiet_lift {A} (r : Result A) : Spec.quiet (lift r).
Proof. intros w r0 w' [= <- <-]. auto. Qed.

Lemma quiet_bind {A B} (m : M A) (k : A -> M B) :
  Spec.quiet m -> (forall a, Spec.quiet (k a)) -> Spec.quiet (bindM m k).
Proof.
  intros Hm Hk w r w'. unfold bindM.
  destruct (m w) as [[a | e0] w0] eqn:Hrun; destruct (Hm _ _ _ Hrun) as [Hs Hc].
  - intros Hk'. destruct (Hk a _ _ _ Hk') as [Hs' Hc']. split; congruence.
  - intros [= <- <-]. auto.
Qed.

Lemma item_raises (o : json) (k : string) (e : exn) :
  item o k = Raise e -> is_Exception e = true.
Proof.
  unfold item. repeat (case_step; simpl); try discriminate; now intros [= <-].
Qed.

Lemma iter_raises (o : json) (e : exn) :
  iter o = Raise e -> is_Exception e = true.
Proof. destruct o; simpl; try discriminate; now intros [= <-]. Qed.

Lemma filterM_raises {A} (keep : A -> Result bool) (l : list A) (e : exn) :
  (forall x e', keep x = Raise e' -> is_Exception e' = true) ->
  filterM keep l = Raise e -> is_Exception e = true.
Proof.
  intros Hf. induction l as [| x l IH]; simpl; [discriminate |].
  destruct (keep x) as [b | e'] eqn:Hx; simpl.
  - destruct (filterM keep l) as [ys | e'']; simpl; [discriminate |].
    intros [= <-]. now apply IH.
  - intros [= <-]. now apply Hf with x.
Qed.

Lemma type_in_raises (cts : list string) (r : json) (e : exn) :
  SearchAdvanced.type_in cts r = Raise e -> is_Exception e = true.
Proof.
  unfold SearchAdvanced.type_in, bind, get.
  repeat (case_step; simpl); try discriminate; now intros [= <-].
Qed.

Lemma filter_by_content_type_raises (results : json) (cts : list string)
  (e : exn) :
  SearchAdvanced.filter_by_content_type results cts = Raise e ->
  is_Exception e = true.
Proof.
  unfold SearchAdvanced.filter_by_content_type.
  destruct (get results "data" JNull) as [data | e0] eqn:Hd; simpl.
  2: { intros [= <-]. now apply get_raises in Hd. }
  destruct (negb (truthy data)); [discriminate |].
  destruct (item results "data") as [data' | e0] eqn:Hi; simpl.
  2: { intros [= <-]. now apply item_raises in Hi. }
  destruct (iter data') as [items | e0] eqn:Ht; simpl.
  2: { intros [= <-]. now apply iter_raises in Ht. }
  destruct (filterM _ items) as [kept | e0] eqn:Hf; simpl.
  2: { intros [= <-]. apply (filterM_raises _ _ _ (type_in_raises cts) Hf). }
  unfold setitem. destruct results; simpl; try discriminate; now intros [= <-].
Qed.

End SafeAndQuiet.

Section FilteredSearch.
Import Auth SearchAdvanced.
Context (rt : Runtime) (env : Env) (cfg : Config.Settings).

Lemma print_results_safe (start : Z) (items : list json) :
  Spec.safe (print_results rt start items).
Proof.
  revert start; induction items as [| r rest IH]; intros start; simpl.
  - apply safe_ret.
  - apply safe_bind; [apply safe_lift, get_raises |]. intros props.
    apply safe_bind; [apply safe_lift, get_raises |]. intros item_title.
    apply safe_bind; [apply safe_lift, get_raises |]. intros type.
    apply safe_bind; [apply safe_print |]. intros _. apply IH.
Qed.

Lemma print_results_quiet (start : Z) (items : list json) :
  Spec.quiet (print_results rt start items).
Proof.
  revert start; induction items as [| r rest IH]; intros start; simpl.
  - apply quiet_ret.
  - apply quiet_bind; [apply quiet_lift |]. intros props.
    apply quiet_bind; [apply quiet_lift |]. intros item_title.
    apply quiet_bind; [apply quiet_lift |]. intros type.
    apply quiet_bind; [apply quiet_print |]. intros _. apply IH.
Qed.

Lemma print_results_typed (start : Z) (items : list json) (w : World) :
  forallb Spec.typed items = true ->
  print_results rt start items w
  = (Ok tt, Spec.printed_all (Spec.result_lines rt start items) w).
Proof.
  revert start w; induction items as [| r rest IH]; intros start w Hty.
  - simpl. unfold ret, Spec.printed_all. rewrite app_nil_r. now destruct w.
  - simpl in Hty. apply andb_prop in Hty as [Hr Hrest].
    cbn [print_results Spec.result_lines].
    assert (Hprops : exists p,
               get r "properties" (JDict []) = Ok (JDict p)
               /\ Spec.part r "properties" = Some p).
    { unfold Spec.typed, Spec.part, get in *.
      destruct r as [| | | | | | d]; try discriminate.
      destruct (lookup "properties" d) as [[| | | | | | p] |];
        try discriminate; eauto. }
    destruct Hprops as (p & Hget & Hpart).
    unfold bindM at 1, lift at 1. rewrite Hget.
    unfold bindM at 1, lift at 1, get at 1.
    unfold bindM at 1, lift at 1, get at 1.
    unfold bindM at 1, print at 1.
    rewrite IH by assumption.
    unfold Spec.printed_all, Spec.result_line, Spec.field. rewrite Hpart.
    simpl. now rewrite <- app_assoc.
Qed.

(** The tail of [filtered_search] after the search. *)
Lemma filtered_search_steps_run (query : string) (cts : list string)
  (limit : Z) (w : World) :
  filtered_search_steps rt env cfg query cts limit w
  = match search rt env cfg (token_manager cfg) (JStr query) limit "relevance"
            (Spec.filter_announced query cts limit w) with
    | (Ok results, w1) =>
        (filtered_results <- lift (filter_by_content_type results cts) ;;
         data <- lift (get filtered_results "data" JNull) ;;
         if negb (truthy data) then print "No results found matching filters."
         else
           data <- lift (item filtered_results "data") ;;
           count <- lift (len data) ;;
           print ("Found " ++ str_of_Z count ++ " results:" ++ nl) ;;
           items <- lift (iter data) ;;
           print_results rt 1 items) w1
    | (Raise e, w1) => (Raise e, w1)
    end.
Proof.
  unfold filtered_search_steps.
  unfold bindM at 1 2 3, print at 1 2 3. cbn beta iota.
  unfold bindM at 1. reflexivity.
Qed.

Lemma filtered_search_tail_safe_quiet (results : json) (cts : list string) :
  let tail :=
    (filtered_results <- lift (filter_by_content_type results cts) ;;
     data <- lift (get filtered_results "data" JNull) ;;
     if negb (truthy data) then print "No results found matching filters."
     else
       data <- lift (item filtered_results "data") ;;
       count <- lift (len data) ;;
       print ("Found " ++ str_of_Z count ++ " results:" ++ nl) ;;
       items <- lift (iter data) ;;
       print_results rt 1 items) in
  Spec.safe tail /\ Spec.quiet tail.
Proof.
  simpl. split.
  - apply safe_bind; [apply safe_lift, filter_by_content_type_raises |].
    intros filtered. apply safe_bind; [apply safe_lift, get_raises |].
    intros data. destruct (negb (truthy data)); [apply safe_print |].
    apply safe_bind; [apply safe_lift, item_raises |]. intros data'.
    apply safe_bind; [apply safe_lift, len_raises |]. intros count.
    apply safe_bind; [apply safe_print |]. intros _.
    apply safe_bind; [apply safe_lift, iter_raises |]. intros items.
    apply print_results_safe.
  - apply quiet_bind; [apply quiet_lift |].
    intros filtered. apply quiet_bind; [apply quiet_lift |].
    intros data. destruct (negb (truthy data)); [apply quiet_print |].
    apply quiet_bind; [apply quiet_lift |]. intros data'.
    apply quiet_bind; [apply quiet_lift |]. intros count.
    apply quiet_bind; [apply quiet_print |]. intros _.
    apply quiet_bind; [apply quiet_lift |]. intros items.
    apply print_results_quiet.
Qed.

Lemma filtered_search_steps_frame (query : string) (cts : list string)
  (limit : Z) (w w' : World) (r : Result unit) :
  filtered_search_steps rt env cfg query cts limit w = (r, w') ->
  (forall e, r = Raise e -> is_Exception e = true)
  /\ exists r1 w1,
       search rt env cfg (token_manager cfg) (JStr query) limit "relevance"
         (Spec.filter_announced query cts limit w) = (r1, w1)
       /\ sent w' = sent w1.
Proof.
  rewrite filtered_search_steps_run.
  destruct (search rt env cfg (token_manager cfg) (JStr query) limit "relevance"
              (Spec.filter_announced query cts limit w))
    as [[results | e0] w1] eqn:Hs.
  - destruct (filtered_search_tail_safe_quiet results cts) as [Hsafe Hquiet].
    intros Hrun. split.
    + intros e ->. now apply (Hsafe _ _ _ Hrun).
    + exists (Ok results), w1. split; [reflexivity |].
      apply (Hquiet _ _ _ Hrun).
  - intros [= <- <-]. split.
    + intros e [= <-]. now apply (search_relevance_raises rt env cfg _ _ _ _ _ Hs).
    + now exists (Raise e0), w1.
Qed.

(** X19: A filtered search from the command line.  When the search succeeds
    with well-formed results, it prints one numbered line
    "i. title (type)" per result whose type is among the content types,
    in their order, after the count, or the notice that none matched.
    Whatever happens, it ends normally or with exit status 1, it sends at
    most one search request and never a generation request. *)
Theorem filtered_search_prints (query : string) (cts : list string) (limit : Z)
  (w : World) :
  (forall d rs w1,
     search rt env cfg (token_manager cfg) (JStr query) limit "relevance"
       (Spec.filter_announced query cts limit w) = (Ok (JDict d), w1) ->
     lookup "data" d = Some (JList rs) ->
     forallb Spec.typed rs = true ->
     let kept := filter (Spec.of_type cts) rs in
     filtered_search rt env cfg query cts limit w
     = (Ok tt,
        Spec.printed_all
          (match kept with
           | [] => ["No results found matching filters."]
           | _ :: _ =>
               ("Found " ++ str_of_Z (Z.of_nat (List.length kept))
                  ++ " results:" ++ nl)
               :: Spec.result_lines rt 1 kept
           end) w1)) /\
  (forall r w',
     filtered_search rt env cfg query cts limit w = (r, w') ->
     (r = Ok tt \/ r = Raise (SystemExit 1))
     /\ Spec.generation_requests (sent w') = Spec.generation_requests (sent w)
     /\ exists delta, sent w' = (sent w ++ delta)%list
                      /\ (List.length (Spec.search_requests delta) <= 1)%nat).
Proof.
  split.
  - intros d rs w1 Hs Hd Hty kept. unfold filtered_search. apply try_except_ok.
    rewrite filtered_search_steps_run, Hs.
    unfold bindM at 1, lift at 1.
    rewrite (filter_by_content_type_typed d rs cts Hd Hty). fold kept.
    unfold bindM at 1, lift at 1, get at 1. rewrite lookup_store_same.
    assert (Hkept : forallb Spec.typed kept = true).
    { rewrite forallb_forall in *. intros x Hx.
      apply filter_In in Hx as [Hx _]. now apply Hty. }
    destruct kept as [| k0 kept'] eqn:Ek.
    + reflexivity.
    + rewrite <- Ek in *.
      replace (negb (truthy (JList kept))) with false by (rewrite Ek; reflexivity).
      unfold bindM at 1, lift at 1, item at 1. rewrite lookup_store_same.
      unfold bindM at 1, lift at 1, len at 1.
      unfold bindM at 1, print at 1.
      unfold bindM at 1, lift at 1, iter at 1.
      rewrite (print_results_typed 1 kept _ Hkept).
      unfold Spec.printed_all. simpl. now rewrite <- app_assoc.
  - intros r w' Hrun. unfold filtered_search, try_except in Hrun.
    destruct (filtered_search_steps rt env cfg query cts limit w)
      as [r0 w0] eqn:Hsteps.
    destruct (filtered_search_steps_frame _ _ _ _ _ _ Hsteps)
      as (Hsafe & r1 & w1 & Hs & Hsent).
    destruct (search_no_generation rt env cfg _ _ _ _ _ _ Hs)
      as (Hgen & delta & Hdelta & Hcount).
    assert (Hw : sent w' = sent w0).
    { destruct r0 as [a | e]; [now injection Hrun as _ <- |].
      rewrite (Hsafe e eq_refl) in Hrun. now injection Hrun as _ <-. }
    split; [| split].
    + destruct r0 as [[] | e]; [left; now injection Hrun as <- _ |].
      rewrite (Hsafe e eq_refl) in Hrun. right. now injection Hrun as <- _.
    + rewrite Hw, Hsent. exact Hgen.
    + exists delta. split; [| exact Hcount]. rewrite Hw, Hsent. exact Hdelta.
Qed.

End FilteredSearch.

Lemma filtered_search_prints_witness :
  stdout (snd (SearchAdvanced.filtered_search Sample.runtime Sample.all_up
                 Sample.settings "What is X?" ["Article"] 10 Auth.initial_world))
  = ["Searching for: 'What is X?'"; "Content types: Article";
     "Limit: 10" ++ SearchAdvanced.nl;
     "Found 3 results:" ++ SearchAdvanced.nl;
     "1. A (Article)"; "2. B (Article)"; "3. C (Article)"].
Proof.
  rewrite (proj1 (filtered_search_prints Sample.runtime Sample.all_up
                    Sample.settings "What is X?" ["Article"] 10
                    Auth.initial_world)
             [("data", JList Sample.three_results)] Sample.three_results
             (snd (SearchAdvanced.search Sample.runtime Sample.all_up
                     Sample.settings (SearchAdvanced.token_manager Sample.settings)
                     (JStr "What is X?") 10 "relevance"
                     (Spec.filter_announced "What is X?" ["Article"] 10
                        Auth.initial_world)))
             eq_refl eq_refl eq_refl).
  reflexivity.
Defined.

Section Main.
Import Auth SearchAdvanced.
Context (rt : Runtime) (env : Env) (cfg : Config.Settings).

Lemma lower_char_idempotent (c : ascii) : lower_char (lower_char c) = lower_char c.
Proof. destruct c as [[] [] [] [] [] [] [] []]; reflexivity. Qed.

Lemma lower_idempotent (s : string) : lower (lower s) = lower s.
Proof.
  induction s as [| c s IH]; simpl; [reflexivity |].
  now rewrite lower_char_idempotent, IH.
Qed.

Lemma print_sources_safe (snippets : list Snippet) :
  Spec.safe (print_sources rt snippets).
Proof.
  induction snippets as [| s l IH]; simpl; [apply safe_ret |].
  apply safe_bind; [apply safe_print |]. intros _. apply IH.
Qed.

Lemma search_relevance_safe (query : json) (limit : Z) :
  Spec.safe (search rt env cfg (token_manager cfg) query limit "relevance").
Proof. intros w e w'. apply search_relevance_raises. Qed.

Lemma generate_safe (query : json) (context : string) (sp : json) :
  Spec.safe (generate_with_context rt env cfg (token_manager cfg) query context sp).
Proof. intros w e w'. apply generate_raises. Qed.

Lemma rag_search_steps_safe (query : string) (limit : Z) :
  Spec.safe (rag_search_steps rt env cfg query limit).
Proof.
  unfold rag_search_steps.
  apply safe_bind; [apply safe_print |]. intros _.
  apply safe_bind; [apply safe_print |]. intros _.
  apply safe_bind; [apply search_relevance_safe |]. intros results.
  apply safe_bind; [apply safe_lift, get_raises |]. intros data.
  destruct (negb (truthy data)); [apply safe_print |].
  apply safe_bind; [apply safe_lift, item_raises |]. intros data'.
  apply safe_bind; [apply safe_lift, len_raises |]. intros count.
  apply safe_bind; [apply safe_print |]. intros _.
  apply safe_bind; [apply safe_print |]. intros _.
  apply safe_bind; [apply safe_lift, extract_snippets_raises |]. intros snippets.
  apply safe_bind; [apply safe_print |]. intros _.
  apply safe_bind; [apply safe_print |]. intros _.
  apply safe_bind; [apply generate_safe |]. intros response.
  apply safe_bind; [apply safe_print |]. intros _.
  apply safe_bind; [apply safe_print |]. intros _.
  apply safe_bind; [apply safe_print |]. intros _.
  apply print_sources_safe.
Qed.

Lemma filtered_search_steps_safe (query : string) (cts : list string)
  (limit : Z) :
  Spec.safe (filtered_search_steps rt env cfg query cts limit).
Proof.
  intros w e w' Hrun.
  now apply (proj1 (filtered_search_steps_frame rt env cfg _ _ _ _ _ _ Hrun)).
Qed.

(** A [try] whose handler reports and exits ends normally or by exit 1. *)
Lemma try_exit_ends {A} (steps : M A) (report : exn -> string) :
  Spec.safe steps ->
  Spec.ends (try_except steps is_Exception
               (fun e => print (report e) ;; raise (SystemExit 1))).
Proof.
  intros Hsafe w r w'. unfold try_except.
  destruct (steps w) as [[a | e] w0] eqn:Hrun.
  - intros [= <- <-]. left. now exists a.
  - rewrite (Hsafe _ _ _ Hrun). intros [= <- <-]. now right.
Qed.

Lemma rag_search_ends (query : string) (limit : Z) :
  Spec.ends (rag_search rt env cfg query limit).
Proof. apply (try_exit_ends _ _ (rag_search_steps_safe query limit)). Qed.

Lemma filtered_search_ends (query : string) (cts : list string) (limit : Z) :
  Spec.ends (filtered_search rt env cfg query cts limit).
Proof.
  apply (try_exit_ends _ _ (filtered_search_steps_safe query cts limit)).
Qed.

Lemma passes_print (line : string) : Spec.passes (print line).
Proof. intros w. exists tt. eexists. split; reflexivity. Qed.

Lemma passes_bind {A B} (m : M A) (k : A -> M B) :
  Spec.passes m -> (forall a, Spec.passes (k a)) -> Spec.passes (bindM m k).
Proof.
  intros Hm Hk w. destruct (Hm w) as (a & w0 & Hrun & Hsent).
  destruct (Hk a w0) as (b & w1 & Hrun' & Hsent').
  exists b, w1. unfold bindM. rewrite Hrun, Hrun'. split; congruence.
Qed.

Lemma print_usage_passes : Spec.passes print_usage.
Proof.
  unfold print_usage.
  repeat (apply passes_bind; [apply passes_print | intros _]).
  apply passes_print.
Qed.

Lemma stops_raise {A} : Spec.stops (@raise A (SystemExit 1)).
Proof. intros w. split; reflexivity. Qed.

Lemma stops_after {A B} (m : M A) (k : A -> M B) :
  Spec.passes m -> (forall a, Spec.stops (k a)) -> Spec.stops (bindM m k).
Proof.
  intros Hm Hk w. destruct (Hm w) as (a & w0 & Hrun & Hsent).
  unfold bindM. rewrite Hrun. destruct (Hk a w0) as [Hr Hs].
  split; congruence.
Qed.

Lemma usage_error_stops (line : string) :
  Spec.stops (print line ;; print_usage ;; @raise unit (SystemExit 1)).
Proof.
  apply stops_after; [apply passes_print | intros _].
  apply stops_after; [apply print_usage_passes | intros _].
  apply stops_raise.
Qed.

Lemma stops_ends {A} (m : M A) : Spec.stops m -> Spec.ends m.
Proof.
  intros H w r w' Hrun. destruct (H w) as [Hr _]. rewrite Hrun in Hr.
  right. exact Hr.
Qed.

Lemma argv_limit_ends (raw : option string) (fallback : Z) (k : Z -> M unit) :
  1 <= fallback <= 100 ->
  (forall limit, 1 <= limit <= 100 -> Spec.ends (k limit)) ->
  Spec.ends
    (limit <- (match raw with
               | Some text =>
                   lift (Utils.normalize_limit rt (JStr text) fallback 1 100)
               | None => ret fallback
               end) ;; k limit).
Proof.
  intros Hfb Hk w r w'. unfold bindM.
  destruct raw as [text |].
  - unfold lift.
    destruct (Py.int rt (JStr text)) as [parsed | e] eqn:H.
    + rewrite (normalize_limit_parsed rt _ fallback 1 100 _ H).
      apply Hk. lia.
    + rewrite (normalize_limit_text_unparsed rt _ fallback 1 100 _ H).
      now apply Hk.
  - unfold ret. now apply Hk.
Qed.

Lemma main_steps_ends (argv : list string) (command query : string) :
  Spec.ends (main_steps rt env cfg argv command query).
Proof.
  unfold main_steps.
  destruct (command =? "filter")%string.
  - destruct argv as [| a0 [| a1 [| a2 [| types rest]]]].
    + exact (stops_ends _ (usage_error_stops _)).
    + exact (stops_ends _ (usage_error_stops _)).
    + exact (stops_ends _ (usage_error_stops _)).
    + exact (stops_ends _ (usage_error_stops _)).
    + destruct rest as [| raw rest'].
      * apply (argv_limit_ends None 10); [lia |]. intros limit _.
        apply filtered_search_ends.
      * apply (argv_limit_ends (Some raw) 10); [lia |]. intros limit _.
        apply filtered_search_ends.
  - destruct (command =? "rag")%string.
    + destruct argv as [| a0 [| a1 [| a2 [| raw rest]]]].
      * apply (argv_limit_ends None 5); [lia |]. intros limit _.
        apply rag_search_ends.
      * apply (argv_limit_ends None 5); [lia |]. intros limit _.
        apply rag_search_ends.
      * apply (argv_limit_ends None 5); [lia |]. intros limit _.
        apply rag_search_ends.
      * apply (argv_limit_ends None 5); [lia |]. intros limit _.
        apply rag_search_ends.
      * apply (argv_limit_ends (Some raw) 5); [lia |]. intros limit _.
        apply rag_search_ends.
    + exact (stops_ends _ (usage_error_stops _)).
Qed.

Lemma usage_stops : Spec.stops (print_usage ;; @raise unit (SystemExit 1)).
Proof.
  apply stops_after; [apply print_usage_passes | intros _]. apply stops_raise.
Qed.

Lemma validate_credentials_unset_stops (client_id client_secret : option string)
  (k : M unit) :
  not_set "YOUR_CLIENT_ID" client_id || not_set "YOUR_CLIENT_SECRET" client_secret
  = true ->
  Spec.stops (validate_credentials client_id client_secret ;; k).
Proof.
  intros H. unfold validate_credentials. rewrite H.
  intros w. split; reflexivity.
Qed.

Lemma validate_credentials_set_run (client_id client_secret : option string)
  (k : M unit) (w : World) :
  not_set "YOUR_CLIENT_ID" client_id || not_set "YOUR_CLIENT_SECRET" client_secret
  = false ->
  (validate_credentials client_id client_secret ;; k) w = k w.
Proof. intros H. unfold validate_credentials. now rewrite H. Qed.

Lemma main_ends (argv : list string) : Spec.ends (main rt env cfg argv).
Proof.
  unfold main.
  destruct (not_set "YOUR_CLIENT_ID" (Some (Config.CLIENT_ID cfg))
            || not_set "YOUR_CLIENT_SECRET" (Some (Config.CLIENT_SECRET cfg)))
    eqn:Hns.
  - apply stops_ends. now apply validate_credentials_unset_stops.
  - intros w r w'. rewrite (validate_credentials_set_run _ _ _ _ Hns).
    destruct argv as [| a0 [| command [| query rest]]];
      [exact (stops_ends _ usage_stops w r w') ..|].
    unfold try_except.
    destruct (main_steps rt env cfg (a0 :: command :: query :: rest)
                (lower command) query w) as [r0 w0] eqn:Hsteps.
    destruct (main_steps_ends _ _ _ _ _ _ Hsteps) as [(a & ->) | ->].
    + intros [= <- <-]. left. now exists a.
    + simpl. intros [= <- <-]. now right.
Qed.

Lemma stops_run {A} (m m' : M A) (w : World) :
  m w = m' w -> Spec.stops m' ->
  fst (m w) = Raise (SystemExit 1) /\ sent (snd (m w)) = sent w.
Proof. intros ->. intros H. apply H. Qed.

(** X20: [main] ends normally or with exit status 1, never with another
    exception.  It exits with status 1 without sending anything when the
    credentials are not set, when fewer than two arguments follow the
    program name, when the command is neither "filter" nor "rag", and
    when "filter" comes without content types. *)
Theorem main_exits (argv : list string) (w : World) :
  (forall r w', main rt env cfg argv w = (r, w') ->
     r = Ok tt \/ r = Raise (SystemExit 1)) /\
  let stopped :=
    fst (main rt env cfg argv w) = Raise (SystemExit 1)
    /\ sent (snd (main rt env cfg argv w)) = sent w in
  (~ Spec.credentials_set cfg -> stopped) /\
  (Spec.credentials_set cfg ->
     ((List.length argv < 3)%nat -> stopped) /\
     (forall a command query rest,
        argv = a :: command :: query :: rest ->
        lower command <> "filter" -> lower command <> "rag" -> stopped) /\
     (forall a command query,
        argv = [a; command; query] -> lower command = "filter" -> stopped)).
Proof.
  split.
  - intros r w' Hrun.
    destruct (main_ends argv _ _ _ Hrun) as [([] & ->) | ->]; auto.
  - cbv zeta. split.
    + intros Hnot.
      destruct (not_set "YOUR_CLIENT_ID" (Some (Config.CLIENT_ID cfg))
                || not_set "YOUR_CLIENT_SECRET" (Some (Config.CLIENT_SECRET cfg)))
        eqn:Hns.
      * now apply validate_credentials_unset_stops.
      * exfalso. apply Hnot. apply orb_false_iff in Hns. exact Hns.
    + intros [Hid Hsecret].
      assert (Hns : not_set "YOUR_CLIENT_ID" (Some (Config.CLIENT_ID cfg))
                    || not_set "YOUR_CLIENT_SECRET" (Some (Config.CLIENT_SECRET cfg))
                    = false) by now rewrite Hid, Hsecret.
      split; [| split].
      * intros Hlen.
        apply (stops_run _ _ w (validate_credentials_set_run _ _ _ w Hns)).
        destruct argv as [| a0 [| a1 [| a2 rest]]];
          [exact usage_stops .. |].
        simpl in Hlen. lia.
      * intros a command query rest -> Hf Hr.
        apply String.eqb_neq in Hf, Hr.
        refine (stops_run _ (print ("Error: Unknown command '" ++ lower command
                                      ++ "'") ;;
                             print_usage ;; raise (SystemExit 1)) w _
                  (usage_error_stops _)).
        unfold main. rewrite (validate_credentials_set_run _ _ _ w Hns).
        unfold try_except, main_steps. rewrite Hf, Hr.
        destruct (usage_error_stops
                    ("Error: Unknown command '" ++ lower command ++ "'") w)
          as [Hstop _].
        destruct ((print ("Error: Unknown command '" ++ lower command ++ "'") ;;
                   print_usage ;; @raise unit (SystemExit 1)) w) as [r0 w0].
        simpl in Hstop. now subst r0.
      * intros a command query -> Hf.
        refine (stops_run _ (print "Error: Content types required for filter command" ;;
                             print_usage ;; raise (SystemExit 1)) w _
                  (usage_error_stops _)).
        unfold main. rewrite (validate_credentials_set_run _ _ _ w Hns).
        unfold try_except, main_steps. rewrite Hf.
        change ("filter" =? "filter")%string with true. cbv iota.
        destruct (usage_error_stops
                    "Error: Content types required for filter command" w)
          as [Hstop _].
        destruct ((print "Error: Content types required for filter command" ;;
                   print_usage ;; @raise unit (SystemExit 1)) w) as [r0 w0].
        simpl in Hstop. now subst r0.
Qed.

(** X21: The command is read without regard to case, and "rag" hands the
    query to [rag_search] with the limit argument clamped into 1..100, or
    5 when there is none (or when it is no number). *)
Theorem main_dispatch (w : World) :
  (forall a command rest,
     main rt env cfg (a :: command :: rest) w
     = main rt env cfg (a :: lower command :: rest) w) /\
  (Spec.credentials_set cfg ->
   forall a command query rest,
     lower command = "rag" ->
     exists limit,
       1 <= limit <= 100
       /\ (rest = [] -> limit = 5)
       /\ (forall raw more parsed,
             rest = raw :: more -> Py.int rt (JStr raw) = Ok parsed ->
             limit = Z.max 1 (Z.min parsed 100))
       /\ (forall raw more e,
             rest = raw :: more -> Py.int rt (JStr raw) = Raise e -> limit = 5)
       /\ main rt env cfg (a :: command :: query :: rest) w
          = rag_search rt env cfg query limit w).
Proof.
  split.
  - intros a command rest. unfold main.
    destruct rest as [| query rest']; [reflexivity |].
    rewrite lower_idempotent.
    replace (main_steps rt env cfg (a :: lower command :: query :: rest')
               (lower command) query)
      with (main_steps rt env cfg (a :: command :: query :: rest')
              (lower command) query); [reflexivity |].
    unfold main_steps. destruct rest' as [| x [| y z]]; reflexivity.
  - intros [Hid Hsecret] a command query rest Hrag.
    assert (Hns : not_set "YOUR_CLIENT_ID" (Some (Config.CLIENT_ID cfg))
                  || not_set "YOUR_CLIENT_SECRET" (Some (Config.CLIENT_SECRET cfg))
                  = false) by now rewrite Hid, Hsecret.
    assert (Hrun : forall limit,
              try_except (rag_search rt env cfg query limit) is_Exception
                         (main_failed rt) w
              = rag_search rt env cfg query limit w).
    { intros limit. unfold try_except.
      destruct (rag_search rt env cfg query limit w) as [r0 w0] eqn:Hr.
      destruct (rag_search_ends _ _ _ _ _ Hr) as [(u & ->) | ->]; reflexivity. }
    unfold main. rewrite (validate_credentials_set_run _ _ _ w Hns).
    unfold main_steps. rewrite Hrag.
    change ("rag" =? "filter")%string with false.
    change ("rag" =? "rag")%string with true. cbv iota.
    destruct rest as [| raw more].
    + exists 5. split; [lia |]. split; [reflexivity |].
      split; [discriminate |]. split; [discriminate |]. apply (Hrun 5).
    + destruct (Py.int rt (JStr raw)) as [parsed | e] eqn:H.
      * exists (Z.max 1 (Z.min parsed 100)). split; [lia |].
        split; [discriminate |].
        split; [intros raw' more' parsed' [= <- <-] H'; congruence |].
        split; [intros raw' more' e' [= <- <-] H'; congruence |].
        rewrite <- Hrun. unfold try_except, bindM at 1, lift at 1.
        now rewrite (normalize_limit_parsed rt _ 5 1 100 _ H).
      * exists 5. split; [lia |]. split; [discriminate |].
        split; [intros raw' more' parsed' [= <- <-] H'; congruence |].
        split; [reflexivity |].
        rewrite <- Hrun. unfold try_except, bindM at 1, lift at 1.
        now rewrite (normalize_limit_text_unparsed rt _ 5 1 100 _ H).
Qed.

End Main.

Lemma main_exits_witness :
  fst (SearchAdvanced.main Sample.runtime Sample.all_up Sample.configured
         ["search_advanced.py"; "Explain"; "What is X?"] Auth.initial_world)
  = Raise (SystemExit 1)
  /\ sent (snd (SearchAdvanced.main Sample.runtime Sample.all_up Sample.configured
                  ["search_advanced.py"; "Explain"; "What is X?"]
                  Auth.initial_world))
     = sent Auth.initial_world.
Proof.
  apply (proj1 (proj2 (proj2 (proj2 (main_exits Sample.runtime Sample.all_up
                                       Sample.configured
                                       ["search_advanced.py"; "Explain";
                                        "What is X?"] Auth.initial_world))
                         (conj eq_refl eq_refl)))
           "search_advanced.py" "Explain" "What is X?" [] eq_refl);
    discriminate.
Defined.

Lemma main_dispatch_witness :
  exists limit,
    1 <= limit <= 100
    /\ SearchAdvanced.main Sample.runtime Sample.all_up Sample.configured
         ["search_advanced.py"; "RAG"; "What is X?"; "500"] Auth.initial_world
       = SearchAdvanced.rag_search Sample.runtime Sample.all_up Sample.configured
           "What is X?" limit Auth.initial_world.
Proof.
  destruct (proj2 (main_dispatch Sample.runtime Sample.all_up Sample.configured
                     Auth.initial_world) (conj eq_refl eq_refl)
              "search_advanced.py" "RAG" "What is X?" ["500"] eq_refl)
    as (limit & Hrange & _ & _ & _ & Hrun).
  exists limit. now split.
Defined.
